(** * ACER learning step (ding/policy/acer.py): control flow, validity mask
      and collaborator calls of [ACERPolicy._forward_learn].

    The float tensors of the program are kept abstract: the neural networks,
    the optimizers, torch's tensor operations and the functions of
    [ding.rl_utils] are collaborators, gathered in the interface [Torch].
    The validity mask is the exception.  Its entries are the floats 0.0 and
    1.0 (it is [1 - done] for a boolean [done] converted by [.float()]), on
    which float arithmetic is exact, so it is modelled concretely as a matrix
    of integers, time-major as in the source ([T] rows of [B] entries). *)

From Stdlib Require Import String.
From Stdlib Require Import List ZArith Lia Bool Arith.
Import ListNotations.
Local Open Scope string_scope.
Local Open Scope list_scope.
Local Open Scope Z_scope.

Set Implicit Arguments.

(** ** Python exceptions and results *)

Inductive exn : Type :=
| UnboundLocalError (name : string)
| KeyError (key : string)
| RuntimeError (msg : string)
| ValueError (msg : string)
| TypeError (msg : string)
| ZeroDivisionError.

Definition Res (A : Type) : Type := (exn + A)%type.

Definition ok {A} (a : A) : Res A := inr a.
Definition raise {A} (e : exn) : Res A := inl e.

Definition rbind {A B} (m : Res A) (f : A -> Res B) : Res B :=
  match m with
  | inl e => inl e
  | inr a => f a
  end.

Declare Scope res_scope.
Delimit Scope res_scope with res.
Notation "x <- m ;; k" := (rbind m (fun x => k))
  (at level 61, m at next level, right associativity) : res_scope.

(** [d[key]] on a Python dict held as an association list. *)
Fixpoint dict_get {V} (d : list (string * V)) (key : string) : Res V :=
  match d with
  | [] => raise (KeyError key)
  | (k, v) :: d' => if String.eqb k key then ok v else dict_get d' key
  end.

(** Reading a local variable that only one branch of an [if] binds. *)
Definition read_local {A} (name : string) (v : option A) : Res A :=
  match v with
  | Some a => ok a
  | None => raise (UnboundLocalError name)
  end.

(** ** The validity mask *)

Definition mask : Type := list (list Z).

(** [x.float()] on a boolean tensor. *)
Definition float_of_bool (b : bool) : Z := Z.b2z b.

(** [torch.cat(data['done'], dim=0)]: the collated [done] is a list of
    one-dimensional tensors; [torch.cat] refuses an empty list. *)
Definition cat_done (xs : list (list bool)) : Res (list bool) :=
  match xs with
  | [] => raise (RuntimeError "torch.cat(): expected a non-empty list of Tensors")
  | _ => ok (concat xs)
  end.

(** Row [i] (of width [w]) of a flat tensor, and [x.reshape(T, -1)]: the
    free dimension is inferred as [numel / T], and the call is refused when
    [T] is 0 or does not divide the number of elements. *)
Definition row_of {A} (w : nat) (xs : list A) (i : nat) : list A :=
  firstn w (skipn (i * w) xs).

Definition reshape_rows {A} (T : nat) (xs : list A) : Res (list (list A)) :=
  if (T =? 0)%nat then raise (RuntimeError "reshape: cannot infer -1")
  else if (length xs mod T =? 0)%nat
       then ok (map (row_of (length xs / T) xs) (seq 0 T))
       else raise (RuntimeError "reshape: shape is invalid for input size").

(** [data['done'] = torch.cat(data['done'], dim=0).reshape(T, -1).float()] *)
Definition preprocess_done (T : nat) (done : list (list bool)) : Res mask :=
  (flat <- cat_done done ;;
   rows <- reshape_rows T flat ;;
   ok (map (map float_of_bool) rows))%res.

(** [weights_ = 1 - data['done']] *)
Definition one_minus (done : mask) : mask := map (map (fun d => 1 - d)) done.

(** [torch.ones_like(w)] *)
Definition ones_like (w : mask) : mask := map (map (fun _ => 1)) w.

(** [w[0:-1]] along the time axis. *)
Definition drop_last {A} (l : list A) : list A := removelast l.

(** [dst[1:] = src]: rows 1.. of [dst] are overwritten by [src]; the two
    always have the same shape where the source does this. *)
Definition assign_from_1 (dst src : mask) : mask := firstn 1 dst ++ src.

(** Lines 366-368:
    [weights_ext = torch.ones_like(weights); weights_ext[1:] = weights[0:-1]] *)
Definition shift_weights (weights : mask) : mask :=
  assign_from_1 (ones_like weights) (drop_last weights).

(** [weights.sum()] *)
Definition sum_row (r : list Z) : Z := fold_right Z.add 0 r.
Definition mask_sum (w : mask) : Z := fold_right (fun r acc => sum_row r + acc) 0 w.

(** Entry [w[t][b]] (0 outside the tensor, where the source never reads). *)
Definition entry (w : mask) (t b : nat) : Z := nth b (nth t w []) 0.

(** A [T] x [B] tensor. *)
Definition has_shape {A} (T B : nat) (w : list (list A)) : Prop :=
  length w = T /\ Forall (fun r => length r = B) w.

Definition is_flag (z : Z) : Prop := z = 0 \/ z = 1.
Definition flags (w : mask) : Prop := Forall (Forall is_flag) w.
Definition all_ones (w : mask) : Prop := Forall (Forall (fun z => z = 1)) w.


(** ** Collaborators

    Everything [acer.py] imports and calls: torch, the model and its
    wrappers, the optimizers and [ding.rl_utils].  A call that can raise
    returns a [Res]. *)

Inductive which : Type := Actor | Critic.

Class Torch : Type := {
  tensor : Type;      (* torch.Tensor, with its autograd history *)
  logit_step : Type;  (* one entry of the collated data['logit'] *)
  logit_out : Type;   (* the 'logit' entry of an actor output *)
  dist : Type;        (* torch.distributions object *)
  grads : Type;       (* what torch.autograd.grad returns *)
  scalar : Type;      (* Python float *)
  model : Type;       (* network parameters, buffers and gradients *)
  opt : Type;         (* optimizer state *)
  model_sd : Type;    (* a model state_dict *)
  opt_sd : Type;      (* an optimizer state_dict *)
  rng : Type;         (* torch's global random generator *)

  (* torch *)
  cat : list tensor -> Res tensor;
  reshape : tensor -> list Z -> Res tensor;
  stack_numpy : list tensor -> Res tensor;
  permute : tensor -> list Z -> Res tensor;
  items : logit_step -> Res (list tensor);
  as_tensor : logit_step -> Res tensor;
  select_last : tensor -> Z -> tensor;       (* x[..., i] *)
  slice_0_m1 : tensor -> tensor;             (* x[0:-1] *)
  index_m1 : tensor -> tensor;               (* x[-1] *)
  view2d : tensor -> tensor;                 (* x.view(-1, x.shape[-1]) *)
  softmax : tensor -> tensor;
  texp : tensor -> tensor;
  tlog : tensor -> tensor;
  neg : tensor -> tensor;
  add_eps : tensor -> tensor;                (* x + EPS *)
  tadd : tensor -> tensor -> tensor;
  tsub : tensor -> tensor -> tensor;
  tmul : tensor -> tensor -> tensor;
  tdiv : tensor -> tensor -> tensor;
  tpow : tensor -> scalar -> tensor;
  scale : scalar -> tensor -> tensor;
  sum_last : tensor -> tensor;               (* x.sum(-1) *)
  one_over : nat -> scalar;                  (* the float 1 / n, n > 0 *)
  mul_weights_unsqueeze : tensor -> mask -> tensor;  (* x * w.unsqueeze(-1) *)
  mul_weights : tensor -> mask -> tensor;            (* x * w *)
  sum_div : tensor -> Z -> tensor;                   (* x.sum() / total_valid *)
  item : tensor -> scalar;
  all_finite : tensor -> bool;               (* torch.isfinite(x).all() *)
  Normal : tensor -> tensor -> Res dist;
  Categorical : tensor -> Res dist;
  sample : dist -> rng -> tensor * rng;
  log_prob : dist -> tensor -> Res tensor;
  entropy : dist -> tensor;
  autograd_grad : tensor -> tensor -> Res grads;
  backward : tensor -> option grads -> model -> Res model;

  (* model and wrappers *)
  train : model -> model;
  logit_reshape : logit_out -> list Z -> Res tensor;   (* out['logit'].reshape *)
  logit_index : logit_out -> nat -> Res tensor;        (* out['logit'][i] *)
  compute_actor : model -> tensor -> Res (list (string * logit_out));
  compute_critic : model -> tensor -> option tensor -> Res (list (string * tensor));
  state_dict : model -> model_sd;
  load_state_dict : model -> model_sd -> Res model;
  target_update : model -> model_sd -> Res model;

  (* optimizer *)
  zero_grad : opt -> model -> model;
  step : opt -> model -> Res (opt * model);
  lr : opt -> scalar;                                  (* defaults['lr'] *)
  opt_state_dict : opt -> opt_sd;
  opt_load_state_dict : opt -> opt_sd -> Res opt;

  (* ding.rl_utils *)
  compute_q_retraces :
    tensor -> tensor -> tensor -> tensor -> mask -> tensor -> scalar -> Res tensor;
  compute_q_retraces_continuous :
    tensor -> tensor -> tensor -> mask -> tensor -> scalar -> Res tensor;
  compute_q_opc :
    tensor -> tensor -> tensor -> tensor -> mask -> scalar -> Res tensor;
  acer_policy_error :
    tensor -> tensor -> tensor -> tensor -> tensor -> tensor -> scalar ->
    Res (tensor * tensor);
  acer_policy_error_continuous :
    tensor -> tensor -> tensor -> tensor -> tensor -> tensor -> tensor -> scalar ->
    Res (tensor * tensor);
  acer_value_error : tensor -> tensor -> tensor -> Res tensor;
  acer_value_error_continuous : tensor -> tensor -> tensor -> tensor -> Res tensor;
  acer_trust_region_update : grads -> tensor -> tensor -> scalar -> Res grads
}.

Section ACER.

Context {TH : Torch}.

(** The part of [self._cfg] read by the learning step. *)
Record Config : Type := {
  continuous_action_space : bool;
  action_shape : nat;
  unroll_len : nat;
  gamma : scalar;
  c_clip_ratio : scalar;
  entropy_weight : scalar;
  use_trust_region : bool;
  trust_region_value : scalar
}.

(** The mutable objects the policy owns ([_optimizer_critic_v] is created by
    [_init_learn] as well), and torch's random generator. *)
Record Policy : Type := {
  learn_model : model;
  target_model : model;
  optimizer_actor : opt;
  optimizer_critic : opt;
  optimizer_critic_v : opt;
  torch_rng : rng
}.

(** The batch as [default_collate] returns it: per key, a list with one
    entry per time step. *)
Record Batch : Type := {
  b_obs : list tensor;
  b_next_obs : list tensor;
  b_logit : list logit_step;
  b_action : list tensor;
  b_reward : list tensor;
  b_done : list (list bool);
  b_weight : option (list tensor)
}.

(** The dict [_data_preprocess_learn] returns. *)
Record Data : Type := {
  d_obs_plus_1 : tensor;
  d_action : tensor;
  d_done : mask;
  d_reward : tensor;
  d_weight : option tensor;
  d_logit : option tensor;
  d_logit_mu : option tensor;
  d_logit_sigma : option tensor
}.

(** Completed collaborator calls, with their arguments (and, for the two
    gradient computations, their result). *)
Inductive Call : Type :=
| MakeNormal (loc scale_ : tensor)
| MakeCategorical (probs : tensor)
| QRetraces (q_values v_pred rewards actions : tensor) (weights : mask)
            (ratio : tensor) (g : scalar)
| QRetracesContinuous (q_values v_pred rewards : tensor) (weights : mask)
                      (ratio : tensor) (g : scalar)
| QOpc (q_values v_pred rewards actions : tensor) (weights : mask) (g : scalar)
| PolicyError (q_values q_retraces v_pred target_pi actions ratio : tensor)
              (c : scalar)
| PolicyErrorContinuous
    (q_values_prime q_opc v_pred target_pi target_pi_prime ratio ratio_prime : tensor)
    (c : scalar)
| ValueError_ (q_values q_retraces actions : tensor)
| ValueErrorContinuous (q_values v_pred q_retraces ratio : tensor)
| Weighted (x : tensor) (weights : mask)
| Normalised (x : tensor) (total_valid : Z)
| AutogradGrad (output input : tensor) (result : grads)
| TrustRegionUpdate (g : grads) (target_pi avg_pi : tensor) (v : scalar)
                    (result : grads)
| Backward (t : tensor) (g : option grads)
| ZeroGrad (o : which)
| Step (o : which)
| TargetUpdate.

(** ** The monad of the learning step: policy state, call trace, exceptions.
    An exception leaves the state and the trace as they are at the raise. *)

Record Outcome (A : Type) : Type := {
  final : Policy;
  trace : list Call;
  result : Res A
}.

Definition M (A : Type) : Type := Policy -> list Call -> Outcome A.

Definition ret {A} (a : A) : M A :=
  fun p tr => {| final := p; trace := tr; result := inr a |}.

Definition bind {A B} (m : M A) (f : A -> M B) : M B :=
  fun p tr =>
    let o := m p tr in
    match result o with
    | inl e => {| final := final o; trace := trace o; result := inl e |}
    | inr a => f a (final o) (trace o)
    end.

Definition lift {A} (r : Res A) : M A :=
  fun p tr => {| final := p; trace := tr; result := r |}.

Definition emit (c : Call) : M unit :=
  fun p tr => {| final := p; trace := tr ++ [c]; result := inr tt |}.

Definition gets {A} (f : Policy -> A) : M A :=
  fun p tr => {| final := p; trace := tr; result := inr (f p) |}.

Definition put (p : Policy) : M unit :=
  fun _ tr => {| final := p; trace := tr; result := inr tt |}.

(** A collaborator call, recorded once it has returned. *)
Definition call {A} (c : A -> Call) (r : Res A) : M A :=
  fun p tr =>
    match r with
    | inl e => {| final := p; trace := tr; result := inl e |}
    | inr a => {| final := p; trace := tr ++ [c a]; result := inr a |}
    end.

End ACER.

Declare Scope acer_scope.
Delimit Scope acer_scope with acer.
Notation "x <- m ;; k" := (bind m (fun x => k))
  (at level 61, m at next level, right associativity) : acer_scope.
Notation "' pat <- m ;; k" := (bind m (fun x => match x with pat => k end))
  (at level 61, pat pattern, m at next level, right associativity) : acer_scope.
Notation "m ;;; k" := (bind m (fun _ => k))
  (at level 61, right associativity) : acer_scope.

Section Learn.

Context {TH : Torch}.

Local Open Scope res_scope.

Fixpoint mapM {A B} (f : A -> Res B) (l : list A) : Res (list B) :=
  match l with
  | [] => ok []
  | a :: l' => b <- f a ;; bs <- mapM f l' ;; ok (b :: bs)
  end.

(** [l[-1:]] *)
Definition last_slice {A} (l : list A) : list A := skipn (length l - 1) l.

(** ** [_data_preprocess_learn] (lines 164-221), after [default_collate];
    [to_device] moves tensors and keeps their values. *)
Definition data_preprocess_learn (cfg : Config) (b : Batch) : Res Data :=
  let T := Z.of_nat (unroll_len cfg) in
  let N := Z.of_nat (action_shape cfg) in
  obs_plus_1 <- cat (b_obs b ++ last_slice (b_next_obs b)) ;;
  a <- cat (b_action b) ;;
  action <- reshape a [T; -1; N] ;;
  done <- preprocess_done (unroll_len cfg) (b_done b) ;;
  r <- cat (b_reward b) ;;
  reward <- reshape r [T; -1] ;;
  weight <- match b_weight b with
            | Some (x :: xs) =>
                w <- cat (x :: xs) ;; w' <- reshape w [T; -1] ;; ok (Some w')
            | _ => ok None
            end ;;
  if continuous_action_space cfg then
    data_list <- mapM (fun s => its <- items s ;; stack_numpy its) (b_logit b) ;;
    data2tensor <- stack_numpy data_list ;;
    data2tensor <- permute data2tensor [0; 2; 1] ;;
    mu <- reshape (select_last data2tensor 0) [T; -1; N] ;;
    sigma <- reshape (select_last data2tensor 1) [T; -1; N] ;;
    ok {| d_obs_plus_1 := obs_plus_1; d_action := action; d_done := done;
          d_reward := reward; d_weight := weight; d_logit := None;
          d_logit_mu := Some mu; d_logit_sigma := Some sigma |}
  else
    ts <- mapM as_tensor (b_logit b) ;;
    l <- cat ts ;;
    logit <- reshape l [T; -1; N] ;;
    ok {| d_obs_plus_1 := obs_plus_1; d_action := action; d_done := done;
          d_reward := reward; d_weight := weight; d_logit := Some logit;
          d_logit_mu := None; d_logit_sigma := None |}.

(** [data[key]] for a key only one preprocessing branch sets. *)
Definition read_key {A} (key : string) (v : option A) : Res A :=
  match v with
  | Some a => ok a
  | None => raise (KeyError key)
  end.

(** ** [_reshape_data] (lines 458-497).  The assignment
    [weights = torch.ones_like(rewards)] is overwritten at once by
    [weights = weights_]. *)
Record ReshapedD : Type := {
  rd_target_logit : tensor;
  rd_behaviour_logit : tensor;
  rd_avg_logit : tensor;
  rd_actions : tensor;
  rd_rewards : tensor;
  rd_weights : mask
}.

Definition reshape_data (cfg : Config)
    (action_data avg_action_data : list (string * logit_out)) (data : Data)
  : Res ReshapedD :=
  let T1 := Z.of_nat (unroll_len cfg) + 1 in
  let N := Z.of_nat (action_shape cfg) in
  lo <- dict_get action_data "logit" ;;
  target_logit <- logit_reshape lo [T1; -1; N] ;;
  behaviour_logit <- read_key "logit" (d_logit data) ;;
  alo <- dict_get avg_action_data "logit" ;;
  avg_action_logit <- logit_reshape alo [T1; -1; N] ;;
  let actions := d_action data in
  let rewards := d_reward data in
  let weights_ := one_minus (d_done data) in
  ok {| rd_target_logit := target_logit; rd_behaviour_logit := behaviour_logit;
        rd_avg_logit := avg_action_logit; rd_actions := actions;
        rd_rewards := rewards; rd_weights := weights_ |}.

(** ** [_reshape_data_continuous] (lines 499-548) *)
Record ReshapedC : Type := {
  rc_target_mu : tensor;
  rc_target_sigma : tensor;
  rc_behaviour_mu : tensor;
  rc_behaviour_sigma : tensor;
  rc_avg_action_mu : tensor;
  rc_avg_action_sigma : tensor;
  rc_actions : tensor;
  rc_rewards : tensor;
  rc_weights : mask
}.

Definition reshape_data_continuous (cfg : Config)
    (action_data avg_action_data : list (string * logit_out)) (data : Data)
  : Res ReshapedC :=
  let T1 := Z.of_nat (unroll_len cfg) + 1 in
  let N := Z.of_nat (action_shape cfg) in
  lo <- dict_get action_data "logit" ;;
  x <- logit_index lo 0 ;;
  target_mu <- reshape x [T1; -1; N] ;;
  lo <- dict_get action_data "logit" ;;
  x <- logit_index lo 1 ;;
  target_sigma <- reshape x [T1; -1; N] ;;
  behaviour_mu <- read_key "logit_mu" (d_logit_mu data) ;;
  behaviour_sigma <- read_key "logit_sigma" (d_logit_sigma data) ;;
  alo <- dict_get avg_action_data "logit" ;;
  x <- logit_index alo 0 ;;
  avg_action_mu <- reshape x [T1; -1; N] ;;
  alo <- dict_get avg_action_data "logit" ;;
  x <- logit_index alo 1 ;;
  avg_action_sigma <- reshape x [T1; -1; N] ;;
  let actions := d_action data in
  let rewards := d_reward data in
  let weights_ := one_minus (d_done data) in
  ok {| rc_target_mu := target_mu; rc_target_sigma := target_sigma;
        rc_behaviour_mu := behaviour_mu; rc_behaviour_sigma := behaviour_sigma;
        rc_avg_action_mu := avg_action_mu; rc_avg_action_sigma := avg_action_sigma;
        rc_actions := actions; rc_rewards := rewards; rc_weights := weights_ |}.

Local Close Scope res_scope.
Local Open Scope acer_scope.

(** State-changing collaborator calls. *)
Definition set_learn_model (p : Policy) (m : model) : Policy :=
  {| learn_model := m; target_model := target_model p;
     optimizer_actor := optimizer_actor p; optimizer_critic := optimizer_critic p;
     optimizer_critic_v := optimizer_critic_v p; torch_rng := torch_rng p |}.

Definition set_target_model (p : Policy) (m : model) : Policy :=
  {| learn_model := learn_model p; target_model := m;
     optimizer_actor := optimizer_actor p; optimizer_critic := optimizer_critic p;
     optimizer_critic_v := optimizer_critic_v p; torch_rng := torch_rng p |}.

Definition set_optimizer (o : which) (p : Policy) (s : opt) : Policy :=
  match o with
  | Actor =>
      {| learn_model := learn_model p; target_model := target_model p;
         optimizer_actor := s; optimizer_critic := optimizer_critic p;
         optimizer_critic_v := optimizer_critic_v p; torch_rng := torch_rng p |}
  | Critic =>
      {| learn_model := learn_model p; target_model := target_model p;
         optimizer_actor := optimizer_actor p; optimizer_critic := s;
         optimizer_critic_v := optimizer_critic_v p; torch_rng := torch_rng p |}
  end.

Definition set_torch_rng (p : Policy) (g : rng) : Policy :=
  {| learn_model := learn_model p; target_model := target_model p;
     optimizer_actor := optimizer_actor p; optimizer_critic := optimizer_critic p;
     optimizer_critic_v := optimizer_critic_v p; torch_rng := g |}.

Definition optimizer (o : which) (p : Policy) : opt :=
  match o with
  | Actor => optimizer_actor p
  | Critic => optimizer_critic p
  end.

(** [self._learn_model.train()] *)
Definition learn_model_train : M unit :=
  fun p tr =>
    {| final := set_learn_model p (train (learn_model p)); trace := tr;
       result := inr tt |}.

(** [d.sample()] draws from the global generator. *)
Definition dist_sample (d : dist) : M tensor :=
  fun p tr =>
    let (x, g) := sample d (torch_rng p) in
    {| final := set_torch_rng p g; trace := tr; result := inr x |}.

(** [opt.zero_grad()] *)
Definition optimizer_zero_grad (o : which) : M unit :=
  fun p tr =>
    {| final := set_learn_model p (zero_grad (optimizer o p) (learn_model p));
       trace := tr ++ [ZeroGrad o]; result := inr tt |}.

(** [t.backward(g)] *)
Definition tensor_backward (t : tensor) (g : option grads) : M unit :=
  fun p tr =>
    match backward t g (learn_model p) with
    | inl e => {| final := p; trace := tr; result := inl e |}
    | inr m => {| final := set_learn_model p m; trace := tr ++ [Backward t g];
                  result := inr tt |}
    end.

(** [opt.step()] *)
Definition optimizer_step (o : which) : M unit :=
  fun p tr =>
    match step (optimizer o p) (learn_model p) with
    | inl e => {| final := p; trace := tr; result := inl e |}
    | inr (s, m) =>
        {| final := set_learn_model (set_optimizer o p s) m;
           trace := tr ++ [Step o]; result := inr tt |}
    end.

(** [self._target_model.update(self._learn_model.state_dict())] *)
Definition target_model_update : M unit :=
  fun p tr =>
    match target_update (target_model p) (state_dict (learn_model p)) with
    | inl e => {| final := p; trace := tr; result := inl e |}
    | inr m => {| final := set_target_model p m; trace := tr ++ [TargetUpdate];
                  result := inr tt |}
    end.

(** [x * weights.unsqueeze(-1)], [x * weights] and [x.sum() / total_valid] *)
Definition weighted_unsqueeze (x : tensor) (w : mask) : M tensor :=
  call (fun _ => Weighted x w) (ok (mul_weights_unsqueeze x w)).

Definition weighted (x : tensor) (w : mask) : M tensor :=
  call (fun _ => Weighted x w) (ok (mul_weights x w)).

Definition normalised (x : tensor) (total_valid : Z) : M tensor :=
  call (fun _ => Normalised x total_valid) (ok (sum_div x total_valid)).

(** [self._learn_model.forward(obs, mode='compute_critic', action=a)] *)
Definition critic_forward (obs : tensor) (a : option tensor)
  : M (list (string * tensor)) :=
  m <- gets learn_model ;; lift (compute_critic m obs a).

End Learn.

Section Forward.

Context {TH : Torch}.

Local Open Scope acer_scope.

(** ** [_forward_learn] (lines 223-456)

    Locals after the first [if] (lines 246-330).  A local that only the
    continuous branch binds is an [option]: reading it where it is unbound
    raises [UnboundLocalError]. *)
Record Heads : Type := {
  h_target_pi : tensor;
  h_behaviour_pi : tensor;
  h_avg_pi : tensor;
  h_q_values : tensor;
  h_v_values : option tensor;
  h_actions : tensor;
  h_rewards : tensor;
  h_weights : mask;
  h_target_mu : option tensor;
  h_target_sigma : option tensor;
  h_target_pi_prime : option tensor;
  h_behaviour_pi_prime : option tensor;
  h_action_prime : option tensor;
  h_obs_data_view : option tensor;
  h_target_action_view : option tensor
}.

(** Lines 248-310. *)
Definition heads_continuous (cfg : Config)
    (action_data avg_action_data : list (string * logit_out)) (data : Data)
  : M Heads :=
  let T1 := Z.of_nat (unroll_len cfg) + 1 in
  let N := Z.of_nat (action_shape cfg) in
  rc <- lift (reshape_data_continuous cfg action_data avg_action_data data) ;;
  target_dist <- call (fun _ => MakeNormal (rc_target_mu rc) (rc_target_sigma rc))
                      (Normal (rc_target_mu rc) (rc_target_sigma rc)) ;;
  behaviour_dist <- call (fun _ => MakeNormal (rc_behaviour_mu rc) (rc_behaviour_sigma rc))
                         (Normal (rc_behaviour_mu rc) (rc_behaviour_sigma rc)) ;;
  avg_dist <- call (fun _ => MakeNormal (rc_avg_action_mu rc) (rc_avg_action_sigma rc))
                   (Normal (rc_avg_action_mu rc) (rc_avg_action_sigma rc)) ;;
  s <- dist_sample target_dist ;;
  tar_act_gen <- lift (reshape (index_m1 s) [1; -1; N]) ;;
  s <- dist_sample avg_dist ;;
  avg_act_gen <- lift (reshape (index_m1 s) [1; -1; N]) ;;
  target_action_plus_1 <- lift (cat [d_action data; tar_act_gen]) ;;
  avg_action_plus_1 <- lift (cat [d_action data; avg_act_gen]) ;;
  log_target_pi <- lift (log_prob target_dist target_action_plus_1) ;;
  let target_pi := texp log_target_pi in
  log_avg_pi <- lift (log_prob avg_dist avg_action_plus_1) ;;
  let avg_pi := texp log_avg_pi in
  log_behaviour_pi <- lift (log_prob behaviour_dist (d_action data)) ;;
  let behaviour_pi := texp log_behaviour_pi in
  action_prime <- dist_sample target_dist ;;
  log_target_pi_prime <- lift (log_prob target_dist action_prime) ;;
  let target_pi_prime := texp log_target_pi_prime in
  log_behaviour_pi_prime <- lift (log_prob behaviour_dist (slice_0_m1 action_prime)) ;;
  let behaviour_pi_prime := texp log_behaviour_pi_prime in
  let obs_data_view := view2d (d_obs_plus_1 data) in
  let target_action_view := view2d target_action_plus_1 in
  q_value_data <- critic_forward obs_data_view (Some target_action_view) ;;
  q <- lift (dict_get q_value_data "q_value") ;;
  q_values <- lift (reshape q [T1; -1; 1]) ;;
  v <- lift (dict_get q_value_data "v_value") ;;
  v_values <- lift (reshape v [T1; -1; 1]) ;;
  ret {| h_target_pi := target_pi; h_behaviour_pi := behaviour_pi;
         h_avg_pi := avg_pi; h_q_values := q_values; h_v_values := Some v_values;
         h_actions := rc_actions rc; h_rewards := rc_rewards rc;
         h_weights := rc_weights rc;
         h_target_mu := Some (rc_target_mu rc);
         h_target_sigma := Some (rc_target_sigma rc);
         h_target_pi_prime := Some target_pi_prime;
         h_behaviour_pi_prime := Some behaviour_pi_prime;
         h_action_prime := Some action_prime;
         h_obs_data_view := Some obs_data_view;
         h_target_action_view := Some target_action_view |}.

(** Lines 313-330: the discrete branch binds neither [v_values] nor any of
    the primed locals. *)
Definition heads_discrete (cfg : Config)
    (action_data avg_action_data : list (string * logit_out)) (data : Data)
  : M Heads :=
  let T1 := Z.of_nat (unroll_len cfg) + 1 in
  let N := Z.of_nat (action_shape cfg) in
  rd <- lift (reshape_data cfg action_data avg_action_data data) ;;
  q_value_data <- critic_forward (d_obs_plus_1 data) None ;;
  q <- lift (dict_get q_value_data "q_value") ;;
  q_values <- lift (reshape q [T1; -1; N]) ;;
  let target_pi := softmax (rd_target_logit rd) in
  let behaviour_pi := softmax (rd_behaviour_logit rd) in
  let avg_pi := softmax (rd_avg_logit rd) in
  ret {| h_target_pi := target_pi; h_behaviour_pi := behaviour_pi;
         h_avg_pi := avg_pi; h_q_values := q_values; h_v_values := None;
         h_actions := rd_actions rd; h_rewards := rd_rewards rd;
         h_weights := rd_weights rd;
         h_target_mu := None; h_target_sigma := None;
         h_target_pi_prime := None; h_behaviour_pi_prime := None;
         h_action_prime := None; h_obs_data_view := None;
         h_target_action_view := None |}.

(** Locals bound by the [torch.no_grad()] block (lines 332-363). *)
Record Targets : Type := {
  t_v_pred : tensor;
  t_ratio : tensor;
  t_ratio_prime : option tensor;
  t_q_retraces : tensor;
  t_q_opc : option tensor;
  t_q_values_prime : option tensor
}.

(** The Python float [1 / self._action_shape]. *)
Definition inverse_action_shape (cfg : Config) : Res scalar :=
  if (action_shape cfg =? 0)%nat then raise ZeroDivisionError
  else ok (one_over (action_shape cfg)).

Definition off_policy_targets (cfg : Config) (data : Data) (h : Heads)
  : M Targets :=
  let T1 := Z.of_nat (unroll_len cfg) + 1 in
  v_pred <- lift (read_local "v_values" (h_v_values h)) ;;
  let ratio := tdiv (slice_0_m1 (h_target_pi h)) (add_eps (h_behaviour_pi h)) in
  if continuous_action_space cfg then
    e <- lift (inverse_action_shape cfg) ;;
    let ratio_dim := tpow ratio e in
    target_pi_prime <- lift (read_local "target_pi_prime" (h_target_pi_prime h)) ;;
    behaviour_pi_prime <-
      lift (read_local "behaviour_pi_prime" (h_behaviour_pi_prime h)) ;;
    let ratio_prime := tdiv (slice_0_m1 target_pi_prime) (add_eps behaviour_pi_prime) in
    q_retraces <-
      call (fun _ => QRetracesContinuous (h_q_values h) v_pred (h_rewards h)
                       (h_weights h) ratio_dim (gamma cfg))
           (compute_q_retraces_continuous (h_q_values h) v_pred (h_rewards h)
              (h_weights h) ratio_dim (gamma cfg)) ;;
    q_opc <-
      call (fun _ => QOpc (h_q_values h) v_pred (h_rewards h) (h_actions h)
                       (h_weights h) (gamma cfg))
           (compute_q_opc (h_q_values h) v_pred (h_rewards h) (h_actions h)
              (h_weights h) (gamma cfg)) ;;
    let obs_data_view := view2d (d_obs_plus_1 data) in
    action_prime <- lift (read_local "action_prime" (h_action_prime h)) ;;
    let action_prime_view := view2d action_prime in
    q_value_data_prime <- critic_forward obs_data_view (Some action_prime_view) ;;
    q <- lift (dict_get q_value_data_prime "q_value") ;;
    q_values_prime <- lift (reshape q [T1; -1; 1]) ;;
    ret {| t_v_pred := v_pred; t_ratio := ratio; t_ratio_prime := Some ratio_prime;
           t_q_retraces := q_retraces; t_q_opc := Some q_opc;
           t_q_values_prime := Some q_values_prime |}
  else
    q_retraces <-
      call (fun _ => QRetraces (h_q_values h) v_pred (h_rewards h) (h_actions h)
                       (h_weights h) ratio (gamma cfg))
           (compute_q_retraces (h_q_values h) v_pred (h_rewards h) (h_actions h)
              (h_weights h) ratio (gamma cfg)) ;;
    ret {| t_v_pred := v_pred; t_ratio := ratio; t_ratio_prime := None;
           t_q_retraces := q_retraces; t_q_opc := None;
           t_q_values_prime := None |}.

(** The metrics dict, in the order of the literal at lines 447-456. *)
Definition Metrics : Type := list (string * scalar).

Definition forward_learn (cfg : Config) (batch : Batch) : M Metrics :=
  let T1 := Z.of_nat (unroll_len cfg) + 1 in
  (* lines 241-244 *)
  data <- lift (data_preprocess_learn cfg batch) ;;
  learn_model_train ;;;
  m <- gets learn_model ;;
  action_data <- lift (compute_actor m (d_obs_plus_1 data)) ;;
  tm <- gets target_model ;;
  avg_action_data <- lift (compute_actor tm (d_obs_plus_1 data)) ;;
  (* lines 246-330 *)
  h <- (if continuous_action_space cfg
        then heads_continuous cfg action_data avg_action_data data
        else heads_discrete cfg action_data avg_action_data data) ;;
  (* lines 332-363 *)
  t <- off_policy_targets cfg data h ;;
  let ratio := t_ratio t in
  let actions := h_actions h in
  (* lines 366-377 *)
  let weights := shift_weights (h_weights h) in
  let q_retraces := slice_0_m1 (t_q_retraces t) in
  q_opc <- lift (read_local "q_opc" (t_q_opc t)) ;;
  let q_opc := slice_0_m1 q_opc in
  let q_values := slice_0_m1 (h_q_values h) in
  q_values_prime <- lift (read_local "q_values_prime" (t_q_values_prime t)) ;;
  let q_values_prime := slice_0_m1 q_values_prime in
  let v_pred := slice_0_m1 (t_v_pred t) in
  let target_pi := slice_0_m1 (h_target_pi h) in
  target_pi_prime <- lift (read_local "target_pi_prime" (h_target_pi_prime h)) ;;
  let target_pi_prime := slice_0_m1 target_pi_prime in
  let avg_pi := slice_0_m1 (h_avg_pi h) in
  let total_valid := mask_sum weights in
  (* policy update, lines 381-405 *)
  ' (actor_loss, bc_loss, dist_new) <-
    (if continuous_action_space cfg then
       ratio_prime <- lift (read_local "ratio_prime" (t_ratio_prime t)) ;;
       ' (actor_loss, bc_loss) <-
         call (fun _ => PolicyErrorContinuous q_values_prime q_opc v_pred target_pi
                          target_pi_prime ratio ratio_prime (c_clip_ratio cfg))
              (acer_policy_error_continuous q_values_prime q_opc v_pred target_pi
                 target_pi_prime ratio ratio_prime (c_clip_ratio cfg)) ;;
       target_mu <- lift (read_local "target_mu" (h_target_mu h)) ;;
       target_sigma <- lift (read_local "target_sigma" (h_target_sigma h)) ;;
       dist_new <-
         call (fun _ => MakeNormal (slice_0_m1 target_mu) (slice_0_m1 target_sigma))
              (Normal (slice_0_m1 target_mu) (slice_0_m1 target_sigma)) ;;
       ret (actor_loss, bc_loss, dist_new)
     else
       ' (actor_loss, bc_loss) <-
         call (fun _ => PolicyError q_values q_retraces v_pred target_pi actions
                          ratio (c_clip_ratio cfg))
              (acer_policy_error q_values q_retraces v_pred target_pi actions
                 ratio (c_clip_ratio cfg)) ;;
       dist_new <- call (fun _ => MakeCategorical target_pi) (Categorical target_pi) ;;
       ret (actor_loss, bc_loss, dist_new)) ;;
  actor_loss <- weighted_unsqueeze actor_loss weights ;;
  bc_loss <- weighted_unsqueeze bc_loss weights ;;
  entropy_loss <- weighted_unsqueeze (entropy dist_new) weights ;;
  total_actor_loss <-
    normalised (tadd (tadd actor_loss bc_loss)
                     (scale (entropy_weight cfg) entropy_loss)) total_valid ;;
  optimizer_zero_grad Actor ;;;
  actor_gradients <-
    call (AutogradGrad (neg total_actor_loss) target_pi)
         (autograd_grad (neg total_actor_loss) target_pi) ;;
  actor_gradients <-
    (if use_trust_region cfg then
       call (TrustRegionUpdate actor_gradients target_pi avg_pi
               (trust_region_value cfg))
            (acer_trust_region_update actor_gradients target_pi avg_pi
               (trust_region_value cfg))
     else ret actor_gradients) ;;
  tensor_backward target_pi (Some actor_gradients) ;;;
  optimizer_step Actor ;;;
  (* critic update, lines 411-431 *)
  critic_loss <-
    (if continuous_action_space cfg then
       obs_data_view <- lift (read_local "obs_data_view" (h_obs_data_view h)) ;;
       target_action_view <-
         lift (read_local "target_action_view" (h_target_action_view h)) ;;
       q_value_data <- critic_forward obs_data_view (Some target_action_view) ;;
       q <- lift (dict_get q_value_data "q_value") ;;
       q_values <- lift (reshape q [T1; -1; 1]) ;;
       let q_values := slice_0_m1 q_values in
       value_error <-
         call (fun _ => ValueErrorContinuous q_values v_pred q_retraces ratio)
              (acer_value_error_continuous q_values v_pred q_retraces ratio) ;;
       x <- weighted_unsqueeze value_error weights ;;
       normalised x total_valid
     else
       value_error <-
         call (fun _ => ValueError_ q_values q_retraces actions)
              (acer_value_error q_values q_retraces actions) ;;
       x <- weighted_unsqueeze value_error weights ;;
       normalised x total_valid) ;;
  optimizer_zero_grad Critic ;;;
  tensor_backward critic_loss None ;;;
  optimizer_step Critic ;;;
  (* line 441 *)
  target_model_update ;;;
  (* lines 443-445 *)
  let kl_div := tmul avg_pi (tsub (tlog (add_eps avg_pi)) (tlog (add_eps target_pi))) in
  x <- weighted (sum_last kl_div) weights ;;
  kl_div <- normalised x total_valid ;;
  (* lines 447-456 *)
  oa <- gets optimizer_actor ;;
  oc <- gets optimizer_critic ;;
  al <- normalised actor_loss total_valid ;;
  bl <- normalised bc_loss total_valid ;;
  el <- normalised entropy_loss total_valid ;;
  ret [("cur_actor_lr", lr oa);
       ("cur_critic_lr", lr oc);
       ("actor_loss", item al);
       ("bc_loss", item bl);
       ("entropy_loss", item el);
       ("total_actor_loss", item total_actor_loss);
       ("critic_loss", item critic_loss);
       ("kl_div", item kl_div)].

(** One learning step from policy state [p], with an empty trace. *)
Definition run_learn (cfg : Config) (batch : Batch) (p : Policy)
  : Outcome Metrics :=
  forward_learn cfg batch p [].

End Forward.

Section StateDict.

Context {TH : Torch}.

Local Open Scope acer_scope.

(** ** [_state_dict_learn] and [_load_state_dict_learn] (lines 550-578) *)
Inductive sd_value : Type :=
| ModelSD (s : model_sd)
| OptSD (s : opt_sd).

Definition StateDictLearn : Type := list (string * sd_value).

Definition state_dict_learn (p : Policy) : StateDictLearn :=
  [("model", ModelSD (state_dict (learn_model p)));
   ("target_model", ModelSD (state_dict (target_model p)));
   ("actor_optimizer", OptSD (opt_state_dict (optimizer_actor p)));
   ("critic_optimizer", OptSD (opt_state_dict (optimizer_critic p)))].

(** The collaborators' [load_state_dict] refuses a value of the wrong kind. *)
Definition model_load (m : model) (v : sd_value) : Res model :=
  match v with
  | ModelSD s => load_state_dict m s
  | OptSD _ => raise (TypeError "expected a model state_dict")
  end.

Definition opt_load (o : opt) (v : sd_value) : Res opt :=
  match v with
  | OptSD s => opt_load_state_dict o s
  | ModelSD _ => raise (TypeError "expected an optimizer state_dict")
  end.

Definition load_state_dict_learn (sd : StateDictLearn) : M unit :=
  v <- lift (dict_get sd "model") ;;
  m <- gets learn_model ;;
  m' <- lift (model_load m v) ;;
  p <- gets (fun p => p) ;;
  put (set_learn_model p m') ;;;
  v <- lift (dict_get sd "target_model") ;;
  m <- gets target_model ;;
  m' <- lift (model_load m v) ;;
  p <- gets (fun p => p) ;;
  put (set_target_model p m') ;;;
  v <- lift (dict_get sd "actor_optimizer") ;;
  o <- gets optimizer_actor ;;
  o' <- lift (opt_load o v) ;;
  p <- gets (fun p => p) ;;
  put (set_optimizer Actor p o') ;;;
  v <- lift (dict_get sd "critic_optimizer") ;;
  o <- gets optimizer_critic ;;
  o' <- lift (opt_load o v) ;;
  p <- gets (fun p => p) ;;
  put (set_optimizer Critic p o').

End StateDict.

(** ** What a run of the learning step satisfies *)

Section Invariants.

Context {TH : Torch}.

Definition metric_keys : list string :=
  ["cur_actor_lr"; "cur_critic_lr"; "actor_loss"; "bc_loss"; "entropy_loss";
   "total_actor_loss"; "critic_loss"; "kl_div"].

(** The optimizer steps applied in a trace, in order. *)
Definition steps (tr : list Call) : list which :=
  flat_map (fun c => match c with Step o => [o] | _ => [] end) tr.

Definition is_trust_region (c : Call) : bool :=
  match c with
  | TrustRegionUpdate _ _ _ _ _ => true
  | _ => false
  end.

Definition is_target_update (c : Call) : bool :=
  match c with
  | TargetUpdate => true
  | _ => false
  end.

(** Which mask each call receives: [w0] is [1 - done]. *)
Definition mask_ok (w0 : mask) (c : Call) : Prop :=
  match c with
  | QRetraces _ _ _ _ w _ _ => w = w0
  | QRetracesContinuous _ _ _ w _ _ => w = w0
  | QOpc _ _ _ _ w _ => w = w0
  | Weighted _ w => w = shift_weights w0
  | Normalised _ tv => tv = mask_sum (shift_weights w0)
  | _ => True
  end.

(** Which importance ratio each call receives. *)
Definition ratio_ok (cfg : Config) (tr : list Call) (c : Call) : Prop :=
  match c with
  | QRetraces _ _ _ _ _ ratio _ =>
      exists target_pi behaviour_pi,
        ratio = tdiv (slice_0_m1 target_pi) (add_eps behaviour_pi)
  | QRetracesContinuous _ _ _ _ ratio_dim _ =>
      exists target_pi behaviour_pi,
        ratio_dim = tpow (tdiv (slice_0_m1 target_pi) (add_eps behaviour_pi))
                         (one_over (action_shape cfg))
        /\ action_shape cfg <> 0%nat
  | PolicyErrorContinuous _ _ _ target_pi target_pi_prime ratio ratio_prime _ =>
      exists target_pi1 behaviour_pi target_pi_prime1 behaviour_pi_prime,
        target_pi = slice_0_m1 target_pi1
        /\ target_pi_prime = slice_0_m1 target_pi_prime1
        /\ ratio = tdiv target_pi (add_eps behaviour_pi)
        /\ ratio_prime = tdiv target_pi_prime (add_eps behaviour_pi_prime)
        /\ exists q v r w g,
             In (QRetracesContinuous q v r w
                   (tpow ratio (one_over (action_shape cfg))) g) tr
  | PolicyError _ _ _ target_pi _ ratio _ =>
      exists behaviour_pi, ratio = tdiv target_pi (add_eps behaviour_pi)
  | ValueErrorContinuous _ _ _ ratio =>
      exists qp qo v tp tpp rp c,
        In (PolicyErrorContinuous qp qo v tp tpp ratio rp c) tr
  | _ => True
  end.

(** Where the gradient handed to [target_pi.backward] comes from. *)
Definition grad_ok (cfg : Config) (tr : list Call) (c : Call) : Prop :=
  match c with
  | AutogradGrad out inp g => autograd_grad out inp = inr g
  | TrustRegionUpdate _ _ _ _ _ => use_trust_region cfg = true
  | Backward t (Some g) =>
      exists actor_loss bc_loss entropy_loss tv,
        let x := tadd (tadd actor_loss bc_loss)
                      (scale (entropy_weight cfg) entropy_loss) in
        In (Normalised x tv) tr /\
        if use_trust_region cfg
        then exists g0 avg_pi v,
               In (AutogradGrad (neg (sum_div x tv)) t g0) tr
               /\ In (TrustRegionUpdate g0 t avg_pi v g) tr
        else In (AutogradGrad (neg (sum_div x tv)) t g) tr
  | _ => True
  end.

Definition call_ok (cfg : Config) (w0 : mask) (tr : list Call) (c : Call) : Prop :=
  mask_ok w0 c /\ ratio_ok cfg tr c /\ grad_ok cfg tr c.

(** Control flow and state of a run that started in [p]. *)
Definition control_ok (cfg : Config) (p : Policy) (o : Outcome Metrics) : Prop :=
  (~ In Actor (steps (trace o)) -> optimizer_actor (final o) = optimizer_actor p)
  /\ (~ In Critic (steps (trace o)) -> optimizer_critic (final o) = optimizer_critic p)
  /\ (existsb is_target_update (trace o) = false ->
      target_model (final o) = target_model p)
  /\ optimizer_critic_v (final o) = optimizer_critic_v p
  /\ match result o with
     | inr m =>
         steps (trace o) = [Actor; Critic]
         /\ map fst m = metric_keys
         /\ continuous_action_space cfg = true
     | inl e =>
         (steps (trace o) = [] \/ steps (trace o) = [Actor]
          \/ steps (trace o) = [Actor; Critic])
         /\ (continuous_action_space cfg = false -> trace o = [])
     end.

Definition learn_inv (cfg : Config) (batch : Batch) (p : Policy)
    (o : Outcome Metrics) : Prop :=
  match data_preprocess_learn cfg batch with
  | inl e => result o = inl e /\ trace o = []
  | inr data => Forall (call_ok cfg (one_minus (d_done data)) (trace o)) (trace o)
  end
  /\ control_ok cfg p o.

End Invariants.


(** ** The batch of a run *)

Section BatchFacts.

Context {TH : Torch}.

(** The batch size the reshape of [done] infers. *)
Definition batch_size (cfg : Config) (batch : Batch) : nat :=
  (length (concat (b_done batch)) / unroll_len cfg)%nat.

Definition no_done (batch : Batch) : Prop :=
  Forall (Forall (fun d => d = false)) (b_done batch).

End BatchFacts.

(** ** Where the importance ratios of a run come from *)

Section Ratios.

Context {TH : Torch}.







End Ratios.

(** ** A restored policy and the policy it was saved from

    A model's state dict holds its parameters and buffers, not its
    gradients and not its training mode; an optimizer's state dict does not
    hold its [defaults].  So a policy restored from a state dict need not
    equal the policy that was saved.  The relations below say how far the
    two may differ at each stage of a learning step. *)

Section Restored.

Context {TH : Torch}.

(** [sim]: the same parameters, buffers and training mode (the gradients
    may differ).  [ready w]: moreover the same gradients for the parameters
    optimizer [w] reads.  [simo w]: two optimizers over the parameters of
    [w] that step and report alike. *)
Variable sim : model -> model -> Prop.
Variable ready : which -> model -> model -> Prop.
Variable simo : which -> opt -> opt -> Prop.

(** Two results that raise the same error or return related values. *)
Definition rel_res {A B} (V : A -> B -> Prop) (r1 : Res A) (r2 : Res B) : Prop :=
  match r1, r2 with
  | inl e1, inl e2 => e1 = e2
  | inr a, inr b => V a b
  | _, _ => False
  end.

(** What the collaborators are taken to satisfy. *)
Record Respect : Prop := {
  (* a forward pass depends on parameters, buffers and mode only *)
  forward_actor_sim :
    forall m1 m2, sim m1 m2 -> forall x, compute_actor m1 x = compute_actor m2 x;
  forward_critic_sim :
    forall m1 m2, sim m1 m2 ->
    forall x a, compute_critic m1 x a = compute_critic m2 x a;
  (* the state dict is a function of parameters and buffers *)
  state_dict_sim : forall m1 m2, sim m1 m2 -> state_dict m1 = state_dict m2;
  ready_sim : forall w m1 m2, ready w m1 m2 -> sim m1 m2;
  (* train() sets the mode whatever it was *)
  train_sim :
    forall m1 m2, state_dict m1 = state_dict m2 -> sim (train m1) (train m2);
  (* zero_grad() resets the gradients of the optimizer's own parameters *)
  zero_grad_ready :
    forall w o1 o2 m1 m2, simo w o1 o2 -> sim m1 m2 ->
    ready w (zero_grad o1 m1) (zero_grad o2 m2);
  backward_ready :
    forall w t g m1 m2, ready w m1 m2 ->
    rel_res (ready w) (backward t g m1) (backward t g m2);
  (* step() reads the parameters and the gradients of its own parameters *)
  step_sim :
    forall w o1 o2 m1 m2, simo w o1 o2 -> ready w m1 m2 ->
    rel_res (fun a b => simo w (fst a) (fst b) /\ sim (snd a) (snd b))
            (step o1 m1) (step o2 m2);
  target_update_sim :
    forall t1 t2 sd, sim t1 t2 ->
    rel_res sim (target_update t1 sd) (target_update t2 sd);
  lr_simo : forall w o1 o2, simo w o1 o2 -> lr o1 = lr o2;
  opt_state_dict_simo :
    forall w o1 o2, simo w o1 o2 -> opt_state_dict o1 = opt_state_dict o2
}.

(** How the online models of the two policies are related: before
    [train()], after it, and between an optimizer's [zero_grad] and its
    [step]. *)
Inductive stage : Type := Saved | Sim | Ready (w : which).

Definition rel_model (s : stage) (m1 m2 : model) : Prop :=
  match s with
  | Saved => state_dict m1 = state_dict m2
  | Sim => sim m1 m2
  | Ready w => ready w m1 m2
  end.

Definition rel (s : stage) (p q : Policy) : Prop :=
  rel_model s (learn_model p) (learn_model q)
  /\ sim (target_model p) (target_model q)
  /\ simo Actor (optimizer_actor p) (optimizer_actor q)
  /\ simo Critic (optimizer_critic p) (optimizer_critic q)
  /\ torch_rng p = torch_rng q.

(** Two computations that, from related policies, make the same calls and
    either raise the same error or return related values in related
    policies. *)
Definition related {A} (pre post : stage) (V : A -> A -> Prop) (m1 m2 : M A)
  : Prop :=
  forall p q tr,
    rel pre p q ->
    trace (m1 p tr) = trace (m2 q tr)
    /\ match result (m1 p tr), result (m2 q tr) with
       | inr a, inr b => V a b /\ rel post (final (m1 p tr)) (final (m2 q tr))
       | inl e1, inl e2 => e1 = e2 /\ rel Saved (final (m1 p tr)) (final (m2 q tr))
       | _, _ => False
       end.

End Restored.

(** Learning steps in a row, one per batch: what each returns or raises,
    and the calls it makes. *)
Fixpoint learn_steps {TH : Torch} (cfg : Config) (batches : list Batch)
    (p : Policy) : list (Res Metrics * list Call) :=
  match batches with
  | [] => []
  | batch :: rest =>
      let o := run_learn cfg batch p in
      (result o, trace o) :: learn_steps cfg rest (final o)
  end.

(** ** Test doubles for the collaborators

    Tensors carry a shape and whether they hold a non-finite value; the
    networks and [ding.rl_utils] return tensors of the shapes the source's
    comments give.  [faulty name] makes the collaborator [name] raise. *)

Module Mock.

Inductive tag : Type := Finite | Inf | NaN.

Definition join (a b : tag) : tag :=
  match a, b with
  | NaN, _ | _, NaN => NaN
  | Inf, _ | _, Inf => Inf
  | Finite, Finite => Finite
  end.

Record ttensor : Type := {
  sym : string;
  shape : list nat;
  tg : tag
}.

Definition numel (t : ttensor) : nat := fold_right Nat.mul 1%nat (shape t).

Record tdist : Type := {
  family : string;
  loc : ttensor;
  spread : ttensor
}.

(** A network: its action dimension, whether it is the continuous model,
    the number of optimizer steps applied to it, and what its actor head
    puts out. *)
Record tmodel : Type := {
  act_dim : nat;
  is_continuous : bool;
  version : nat;
  mu_tag : tag;
  sigma_tag : tag
}.

Definition elementwise1 (name : string) (x : ttensor) : ttensor :=
  {| sym := name; shape := shape x; tg := tg x |}.

Definition elementwise2 (name : string) (x y : ttensor) : ttensor :=
  {| sym := name; shape := shape x; tg := join (tg x) (tg y) |}.

Definition first_dim (t : ttensor) : nat := hd 1%nat (shape t).

(** [torch.cat(ts, dim=0)] *)
Definition mcat (ts : list ttensor) : Res ttensor :=
  match ts with
  | [] => raise (RuntimeError "torch.cat(): expected a non-empty list of Tensors")
  | t :: _ =>
      ok {| sym := "cat";
            shape := fold_right (fun x n => (first_dim x + n)%nat) 0%nat ts
                       :: tl (shape t);
            tg := fold_right (fun x a => join (tg x) a) Finite ts |}
  end.

(** [x.reshape(dims)], with at most one [-1]. *)
Definition known (dims : list Z) : nat :=
  fold_right (fun d n => if (d <? 0)%Z then n else (Z.to_nat d * n)%nat) 1%nat dims.

Definition has_free (dims : list Z) : bool := existsb (fun d => (d <? 0)%Z) dims.

Definition mreshape (t : ttensor) (dims : list Z) : Res ttensor :=
  let k := known dims in
  if has_free dims then
    if ((k =? 0) || negb (numel t mod k =? 0))%nat
    then raise (RuntimeError "reshape: shape is invalid for input size")
    else ok {| sym := sym t;
               shape := map (fun d => if (d <? 0)%Z then (numel t / k)%nat
                                      else Z.to_nat d) dims;
               tg := tg t |}
  else
    if (numel t =? k)%nat
    then ok {| sym := sym t; shape := map Z.to_nat dims; tg := tg t |}
    else raise (RuntimeError "reshape: shape is invalid for input size").

(** [torch.Tensor(np.array([item.numpy() for item in xs]))] *)
Definition mstack (ts : list ttensor) : Res ttensor :=
  match ts with
  | [] => ok {| sym := "stack"; shape := [0%nat]; tg := Finite |}
  | t :: _ =>
      ok {| sym := "stack"; shape := length ts :: shape t;
            tg := fold_right (fun x a => join (tg x) a) Finite ts |}
  end.

(** [x.permute(0, 2, 1)] *)
Definition mpermute (t : ttensor) (dims : list Z) : Res ttensor :=
  match shape t with
  | [a; b; c] => ok {| sym := sym t; shape := [a; c; b]; tg := tg t |}
  | _ => raise (RuntimeError "permute: number of dims does not match")
  end.

Definition mview2d (t : ttensor) : ttensor :=
  let l := last (shape t) 1%nat in
  {| sym := sym t; shape := [(numel t / l)%nat; l]; tg := tg t |}.

Definition mslice (t : ttensor) : ttensor :=
  {| sym := sym t; shape := (first_dim t - 1)%nat :: tl (shape t); tg := tg t |}.

(** torch's argument validation: [loc] must be real and [scale] positive.
    A NaN fails either test; an infinite value passes both. *)
Definition mNormal (mu sigma : ttensor) : Res tdist :=
  match tg mu, tg sigma with
  | NaN, _ | _, NaN =>
      raise (ValueError "Expected parameter to satisfy the constraint")
  | _, _ => ok {| family := "Normal"; loc := mu; spread := sigma |}
  end.

Definition mCategorical (probs : ttensor) : Res tdist :=
  match tg probs with
  | Finite => ok {| family := "Categorical"; loc := probs; spread := probs |}
  | _ => raise (ValueError "Expected parameter probs to satisfy the constraint")
  end.

Definition of_dist (name : string) (d : tdist) : ttensor :=
  {| sym := name; shape := shape (loc d); tg := join (tg (loc d)) (tg (spread d)) |}.

Definition mlog_prob (d : tdist) (x : ttensor) : Res ttensor :=
  ok {| sym := "log_prob"; shape := shape x;
        tg := join (tg x) (join (tg (loc d)) (tg (spread d))) |}.

Definition actor_head (m : tmodel) (obs : ttensor) (name : string) (t : tag)
  : ttensor :=
  {| sym := name; shape := [first_dim obs; act_dim m]; tg := t |}.

Definition mcompute_actor (m : tmodel) (obs : ttensor)
  : Res (list (string * list ttensor)) :=
  if is_continuous m
  then ok [("logit", [actor_head m obs "mu" (mu_tag m);
                      actor_head m obs "sigma" (sigma_tag m)])]
  else ok [("logit", [actor_head m obs "logit" (mu_tag m)])].

Definition mcompute_critic (m : tmodel) (obs : ttensor) (a : option ttensor)
  : Res (list (string * ttensor)) :=
  if is_continuous m
  then ok [("q_value", {| sym := "q_value"; shape := [first_dim obs; 1%nat];
                          tg := Finite |});
           ("v_value", {| sym := "v_value"; shape := [first_dim obs; 1%nat];
                          tg := Finite |})]
  else ok [("q_value", {| sym := "q_value"; shape := [first_dim obs; act_dim m];
                          tg := Finite |})].

Definition mlogit_reshape (l : list ttensor) (dims : list Z) : Res ttensor :=
  match l with
  | [t] => mreshape t dims
  | _ => raise (TypeError "'list' object has no attribute 'reshape'")
  end.

Definition mlogit_index (l : list ttensor) (i : nat) : Res ttensor :=
  match nth_error l i with
  | Some t => ok t
  | None => raise (RuntimeError "index out of range")
  end.

Definition mas_tensor (l : list ttensor) : Res ttensor :=
  match l with
  | [t] => ok t
  | _ => raise (TypeError "expected Tensor as element of sequence")
  end.

Definition bump (m : tmodel) : tmodel :=
  {| act_dim := act_dim m; is_continuous := is_continuous m;
     version := S (version m); mu_tag := mu_tag m; sigma_tag := sigma_tag m |}.

Section Faults.

Variable faulty : string -> bool.

Definition guard {A} (name : string) (r : Res A) : Res A :=
  if faulty name then raise (RuntimeError name) else r.

Definition named (name : string) (like : ttensor) : ttensor :=
  {| sym := name; shape := shape like; tg := Finite |}.

Definition torch : Torch := {|
  tensor := ttensor;
  logit_step := list ttensor;
  logit_out := list ttensor;
  dist := tdist;
  grads := ttensor;
  scalar := string;
  model := tmodel;
  opt := nat;
  model_sd := tmodel;
  opt_sd := nat;
  rng := nat;
  cat := mcat;
  reshape := mreshape;
  stack_numpy := mstack;
  permute := mpermute;
  items := fun l => ok l;
  as_tensor := mas_tensor;
  select_last := fun t _ =>
    {| sym := sym t; shape := removelast (shape t); tg := tg t |};
  slice_0_m1 := mslice;
  index_m1 := fun t => {| sym := sym t; shape := tl (shape t); tg := tg t |};
  view2d := mview2d;
  softmax := elementwise1 "softmax";
  texp := elementwise1 "exp";
  tlog := elementwise1 "log";
  neg := elementwise1 "neg";
  add_eps := elementwise1 "add_eps";
  tadd := elementwise2 "add";
  tsub := elementwise2 "sub";
  tmul := elementwise2 "mul";
  tdiv := elementwise2 "div";
  tpow := fun x _ => elementwise1 "pow" x;
  scale := fun _ x => elementwise1 "scale" x;
  sum_last := fun t =>
    {| sym := "sum"; shape := removelast (shape t); tg := tg t |};
  one_over := fun _ => "1/N";
  mul_weights_unsqueeze := fun x _ => elementwise1 "weighted" x;
  mul_weights := fun x _ => elementwise1 "weighted" x;
  sum_div := fun x _ => {| sym := "sum_div"; shape := []; tg := tg x |};
  item := sym;
  all_finite := fun t => match tg t with Finite => true | _ => false end;
  Normal := mNormal;
  Categorical := mCategorical;
  sample := fun d g => (of_dist "sample" d, S g);
  log_prob := mlog_prob;
  entropy := of_dist "entropy";
  autograd_grad := fun out inp => guard "autograd.grad" (ok (named "grad" inp));
  backward := fun _ _ m => guard "backward" (ok m);
  train := fun m => m;
  logit_reshape := mlogit_reshape;
  logit_index := mlogit_index;
  compute_actor := fun m obs => guard "compute_actor" (mcompute_actor m obs);
  compute_critic := fun m obs a => guard "compute_critic" (mcompute_critic m obs a);
  state_dict := fun m => m;
  load_state_dict := fun _ sd => ok sd;
  target_update := fun m _ => guard "target_update" (ok (bump m));
  zero_grad := fun _ m => m;
  step := fun o m => guard "step" (ok (S o, bump m));
  lr := fun _ => "0.0005";
  opt_state_dict := fun o => o;
  opt_load_state_dict := fun _ sd => ok sd;
  compute_q_retraces := fun q v r a w ratio g =>
    guard "compute_q_retraces" (ok (named "q_retraces" v));
  compute_q_retraces_continuous := fun q v r w ratio g =>
    guard "compute_q_retraces_continuous" (ok (named "q_retraces" v));
  compute_q_opc := fun q v r a w g =>
    guard "compute_q_opc" (ok (named "q_opc" v));
  acer_policy_error := fun q qr v tp a ratio c =>
    guard "acer_policy_error" (ok (named "actor_loss" v, named "bc_loss" v));
  acer_policy_error_continuous := fun qp qo v tp tpp ratio rp c =>
    guard "acer_policy_error_continuous"
          (ok (named "actor_loss" v, named "bc_loss" v));
  acer_value_error := fun q qr a =>
    guard "acer_value_error" (ok (named "value_error" qr));
  acer_value_error_continuous := fun q v qr ratio =>
    guard "acer_value_error_continuous" (ok (named "value_error" qr));
  acer_trust_region_update := fun g tp ap v =>
    guard "acer_trust_region_update" (ok (named "projected_grad" g))
|}.

End Faults.

Definition no_fault : string -> bool := fun _ => false.

Definition fault_at (name : string) : string -> bool := String.eqb name.

(** *** Scenarios *)

Definition leaf (name : string) (sh : list nat) : ttensor :=
  {| sym := name; shape := sh; tg := Finite |}.

Definition config (faulty : string -> bool) (continuous : bool) (T N : nat)
    (trust_region : bool) : @Config (torch faulty) :=
  @Build_Config (torch faulty) continuous N T "0.9" "10" "0.0001" trust_region "1.0".

(** A collated batch of [T] steps for [B] trajectories: observations of
    dimension 1, scalar discrete actions or [N]-vectors of continuous ones,
    behaviour logits ([B] x [N]) or a (mu, sigma) pair per step. *)
Definition batch (faulty : string -> bool) (continuous : bool) (T B N : nat)
    (done : list (list bool)) : @Batch (torch faulty) :=
  @Build_Batch (torch faulty)
    (repeat (leaf "obs" [B; 1%nat]) T)
    (repeat (leaf "next_obs" [B; 1%nat]) T)
    (repeat (if continuous
             then [leaf "mu" [(B * N)%nat]; leaf "sigma" [(B * N)%nat]]
             else [leaf "logit" [B; N]]) T)
    (repeat (if continuous then leaf "action" [B; N] else leaf "action" [B]) T)
    (repeat (leaf "reward" [B]) T)
    done
    None.

Definition network (continuous : bool) (N : nat) (mu sigma : tag) : tmodel :=
  {| act_dim := N; is_continuous := continuous; version := 0;
     mu_tag := mu; sigma_tag := sigma |}.

Definition policy (faulty : string -> bool) (net : tmodel) : @Policy (torch faulty) :=
  @Build_Policy (torch faulty) net net 0%nat 0%nat 0%nat 0%nat.

(** A network whose heads put out finite numbers. *)
Definition healthy : tmodel := network true 1 Finite Finite.


(** The first trajectory ends at step 0. *)
Definition done_first : list (list bool) := [[true; false]; [false; false]].

Definition no_done_flags : list (list bool) := [[false; false]; [false; false]].

(** Continuous actions of dimension 1, unroll length 2, batch size 2. *)
Definition run_continuous (faulty : string -> bool) (trust_region : bool)
    (done : list (list bool)) (net : tmodel) :=
  run_learn (config faulty true 2 1 trust_region)
            (batch faulty true 2 2 1 done) (policy faulty net).

(** The scenario of the specification: discrete actions of dimension 3,
    unroll length 4, batch size 2, no done flag. *)
Definition run_discrete (B : nat) :=
  run_learn (config no_fault false 4 3 true)
            (batch no_fault false 4 B 3 (repeat (repeat false B) 4))
            (policy no_fault (network false 3 Finite Finite)).

End Mock.


(** ** Three claims of the specification, as it states them *)

Section Stated.

Context {TH : Torch}.

(** "The mask is right-shifted before it is applied to the Q-retrace
    reduction." *)
Definition shifted_before_retrace (cfg : Config) (batch : Batch) (p : Policy)
  : Prop :=
  forall data q v r w ratio g,
    data_preprocess_learn cfg batch = inr data ->
    In (QRetracesContinuous q v r w ratio g) (trace (run_learn cfg batch p)) ->
    w = shift_weights (one_minus (d_done data)).


(** "Either both optimizer steps are applied or, on failure, neither." *)
Definition atomic_step (cfg : Config) (batch : Batch) (p : Policy) : Prop :=
  match result (run_learn cfg batch p) with
  | inr _ => steps (trace (run_learn cfg batch p)) = [Actor; Critic]
  | inl _ => steps (trace (run_learn cfg batch p)) = []
  end.

End Stated.

(** ** The order of the collaborator calls of a learning step *)

Section CallOrder.

Context {TH : Torch}.

(** The source expression a recorded call stands for. *)
Definition call_name (c : Call) : string :=
  match c with
  | MakeNormal _ _ => "Normal"
  | MakeCategorical _ => "Categorical"
  | QRetraces _ _ _ _ _ _ _ => "compute_q_retraces"
  | QRetracesContinuous _ _ _ _ _ _ => "compute_q_retraces_continuous"
  | QOpc _ _ _ _ _ _ => "compute_q_opc"
  | PolicyError _ _ _ _ _ _ _ => "acer_policy_error"
  | PolicyErrorContinuous _ _ _ _ _ _ _ _ => "acer_policy_error_continuous"
  | ValueError_ _ _ _ => "acer_value_error"
  | ValueErrorContinuous _ _ _ _ => "acer_value_error_continuous"
  | Weighted _ _ => "* weights"
  | Normalised _ _ => "sum / total_valid"
  | AutogradGrad _ _ _ => "autograd.grad"
  | TrustRegionUpdate _ _ _ _ _ => "acer_trust_region_update"
  | Backward _ (Some _) => "target_pi.backward"
  | Backward _ None => "critic_loss.backward"
  | ZeroGrad Actor => "optimizer_actor.zero_grad"
  | ZeroGrad Critic => "optimizer_critic.zero_grad"
  | Step Actor => "optimizer_actor.step"
  | Step Critic => "optimizer_critic.step"
  | TargetUpdate => "target_model.update"
  end.

(** Lines 253-456 of [_forward_learn] with continuous actions, call by
    call. *)
Definition learn_calls (cfg : Config) : list string :=
  ["Normal"; "Normal"; "Normal";
   "compute_q_retraces_continuous"; "compute_q_opc";
   "acer_policy_error_continuous"; "Normal";
   "* weights"; "* weights"; "* weights"; "sum / total_valid";
   "optimizer_actor.zero_grad"; "autograd.grad"]
  ++ (if use_trust_region cfg then ["acer_trust_region_update"] else [])
  ++ ["target_pi.backward"; "optimizer_actor.step";
      "acer_value_error_continuous"; "* weights"; "sum / total_valid";
      "optimizer_critic.zero_grad"; "critic_loss.backward";
      "optimizer_critic.step"; "target_model.update";
      "* weights"; "sum / total_valid";
      "sum / total_valid"; "sum / total_valid"; "sum / total_valid"].

(** How the losses of a returned metrics dict relate to each other and to
    the gradient computation. *)
Definition metrics_ok (cfg : Config) (o : Outcome Metrics) (m : Metrics) : Prop :=
  exists actor_loss bc_loss entropy_loss critic_loss kl_div tv target_pi g,
    let total := tadd (tadd actor_loss bc_loss)
                      (scale (entropy_weight cfg) entropy_loss) in
    m = [("cur_actor_lr", lr (optimizer_actor (final o)));
         ("cur_critic_lr", lr (optimizer_critic (final o)));
         ("actor_loss", item (sum_div actor_loss tv));
         ("bc_loss", item (sum_div bc_loss tv));
         ("entropy_loss", item (sum_div entropy_loss tv));
         ("total_actor_loss", item (sum_div total tv));
         ("critic_loss", item (sum_div critic_loss tv));
         ("kl_div", item (sum_div kl_div tv))]
    /\ In (AutogradGrad (neg (sum_div total tv)) target_pi g) (trace o)
    /\ In (Backward (sum_div critic_loss tv) None) (trace o).

(** The random generator after the three draws of lines 262-263 and 283:
    from the target distribution (built from the online model's output),
    the average distribution (built from the target model's output) and the
    target distribution again. *)
Definition three_draws (cfg : Config) (batch : Batch) (p : Policy) (g : rng)
  : Prop :=
  exists data action_data avg_action_data rc target_dist avg_dist,
    g = snd (sample target_dist
               (snd (sample avg_dist
                       (snd (sample target_dist (torch_rng p))))))
    /\ Normal (rc_target_mu rc) (rc_target_sigma rc) = inr target_dist
    /\ Normal (rc_avg_action_mu rc) (rc_avg_action_sigma rc) = inr avg_dist
    /\ reshape_data_continuous cfg action_data avg_action_data data = inr rc
    /\ compute_actor (train (learn_model p)) (d_obs_plus_1 data) = inr action_data
    /\ compute_actor (target_model p) (d_obs_plus_1 data) = inr avg_action_data
    /\ data_preprocess_learn cfg batch = inr data.

(** Which of the configured numbers a call receives, and what the trust
    region call returned. *)
Definition hyper_ok (cfg : Config) (c : Call) : Prop :=
  match c with
  | QRetraces _ _ _ _ _ _ g => g = gamma cfg
  | QRetracesContinuous _ _ _ _ _ g => g = gamma cfg
  | QOpc _ _ _ _ _ g => g = gamma cfg
  | PolicyError _ _ _ _ _ _ c => c = c_clip_ratio cfg
  | PolicyErrorContinuous _ _ _ _ _ _ _ c => c = c_clip_ratio cfg
  | TrustRegionUpdate g0 target_pi avg_pi v g =>
      v = trust_region_value cfg
      /\ acer_trust_region_update g0 target_pi avg_pi v = inr g
  | _ => True
  end.

Definition order_inv (cfg : Config) (batch : Batch) (p : Policy)
    (o : Outcome Metrics) : Prop :=
  (exists rest, learn_calls cfg = map call_name (trace o) ++ rest)
  /\ Forall (hyper_ok cfg) (trace o)
  /\ (continuous_action_space cfg = false ->
      final o = p \/ final o = set_learn_model p (train (learn_model p)))
  /\ match result o with
     | inr m =>
         map call_name (trace o) = learn_calls cfg
         /\ metrics_ok cfg o m
         /\ three_draws cfg batch p (torch_rng (final o))
     | inl _ => True
     end.

End CallOrder.

(** ** The other methods of the policy *)


Section Transition.

(** An observation, an entry of the collect model's output, a reward and a
    done flag: [_process_transition] only passes them on. *)
Variables obs_t out_t reward_t done_t : Type.

(** The fields of [timestep] the method reads. *)
Record Timestep : Type := {
  ts_obs : obs_t;
  ts_reward : reward_t;
  ts_done : done_t
}.

Inductive transition_value : Type :=
| TObs (o : obs_t)
| TOut (v : out_t)
| TReward (r : reward_t)
| TDone (d : done_t).

Local Open Scope res_scope.

(** [_process_transition] (lines 641-662): the dict display evaluates its
    values from top to bottom. *)
Definition process_transition (obs : obs_t) (policy_output : list (string * out_t))
    (timestep : Timestep) : Res (list (string * transition_value)) :=
  let next_obs := ts_obs timestep in
  logit <- dict_get policy_output "logit" ;;
  action <- dict_get policy_output "action" ;;
  ok [("obs", TObs obs);
      ("next_obs", TObs next_obs);
      ("logit", TOut logit);
      ("action", TOut action);
      ("reward", TReward (ts_reward timestep));
      ("done", TDone (ts_done timestep))].

End Transition.

(** The collaborators of the collect and eval modes: [default_collate],
    [default_decollate] and the wrapped model ([model_wrap]), whose state
    (network mode, wrapper state, random generator) a call may change even
    when it raises. *)
Class Wrapped : Type := {
  env_obs : Type;      (* what one environment sends *)
  collated : Type;     (* default_collate's result *)
  actor_out : Type;    (* the batched output of forward *)
  env_out : Type;      (* one environment's share of it *)
  noise : Type;        (* cfg.model.noise_ratio *)
  wrapped : Type;      (* a wrapped model *)
  default_collate : list env_obs -> Res collated;
  default_decollate : actor_out -> Res (list env_out);
  model_eval : wrapped -> wrapped;
  forward_actor : option noise -> collated -> wrapped -> wrapped * Res actor_out
}.

Section Collect.

Context {TH : Torch} {WR : Wrapped}.

(** [d[k] = v] on a dict held in insertion order: a key that is present
    keeps its position. *)
Fixpoint dict_set {V} (d : list (Z * V)) (k : Z) (v : V) : list (Z * V) :=
  match d with
  | [] => [(k, v)]
  | (k', v') :: d' =>
      if (k' =? k)%Z then (k', v) :: d' else (k', v') :: dict_set d' k v
  end.

(** [{i: d for i, d in pairs}] *)
Definition dict_comprehension {V} (pairs : list (Z * V)) : list (Z * V) :=
  fold_left (fun d kv => dict_set d (fst kv) (snd kv)) pairs [].

(** [_forward_collect] (lines 595-622), on the dict [data] in insertion
    order; [zip] stops at the shorter of its arguments. *)
Definition forward_collect (cfg : Config) (noise_ratio : noise)
    (data : list (Z * env_obs)) (collect_model : wrapped)
  : wrapped * Res (list (Z * env_out)) :=
  let data_id := map fst data in
  match default_collate (map snd data) with
  | inl e => (collect_model, inl e)
  | inr data =>
      let collect_model := model_eval collect_model in
      let (collect_model, output) :=
        if continuous_action_space cfg
        then forward_actor (Some noise_ratio) data collect_model
        else forward_actor None data collect_model in
      match output with
      | inl e => (collect_model, inl e)
      | inr output =>
          match default_decollate output with
          | inl e => (collect_model, inl e)
          | inr output =>
              (collect_model, inr (dict_comprehension (combine data_id output)))
          end
      end
  end.

(** [_forward_eval] (lines 679-705) *)
Definition forward_eval (data : list (Z * env_obs)) (eval_model : wrapped)
  : wrapped * Res (list (Z * env_out)) :=
  let data_id := map fst data in
  match default_collate (map snd data) with
  | inl e => (eval_model, inl e)
  | inr data =>
      let eval_model := model_eval eval_model in
      let (eval_model, output) := forward_actor None data eval_model in
      match output with
      | inl e => (eval_model, inl e)
      | inr output =>
          match default_decollate output with
          | inl e => (eval_model, inl e)
          | inr output =>
              (eval_model, inr (dict_comprehension (combine data_id output)))
          end
      end
  end.

End Collect.

(** * The profiler (ding/utils/profiler_helper.py) *)

(** The file system and [cProfile] as far as [Profiler.mkdir] and
    [Profiler.profile] use them.  [os.makedirs] may raise, and may have
    changed the file system when it does. *)
Class Host : Type := {
  fs : Type;                                     (* the file system *)
  prof : Type;                                   (* a cProfile.Profile *)
  path_exists : string -> fs -> bool;            (* os.path.exists *)
  makedirs : string -> fs -> fs * option exn;    (* os.makedirs *)
  prof_enable : prof -> prof                     (* pr.enable() *)
}.

Section Profiler.

Context {HO : Host}.

(** The file system, the profiler's [self.pr], and the handlers registered
    with [atexit]: each is [write_profile] with [self.pr] and a folder, so it
    is held as its folder. *)
Record World : Type := {
  w_fs : fs;
  w_pr : prof;
  w_atexit : list string
}.

(** [Profiler.mkdir] (lines 17-19) *)
Definition mkdir (directory : string) (w : World) : World * Res unit :=
  if negb (path_exists directory (w_fs w)) then
    let (f, e) := makedirs directory (w_fs w) in
    ({| w_fs := f; w_pr := w_pr w; w_atexit := w_atexit w |},
     match e with
     | Some x => raise x
     | None => ok tt
     end)
  else (w, ok tt).

(** [regist_profiler] (lines 8-9): [atexit.register] appends. *)
Definition regist_profiler (folder_path : string) (w : World) : World :=
  {| w_fs := w_fs w; w_pr := w_pr w; w_atexit := w_atexit w ++ [folder_path] |}.

(** [Profiler.profile] (lines 43-46) *)
Definition profile (folder_path : string) (w : World) : World * Res unit :=
  match mkdir folder_path w with
  | (w, inl e) => (w, inl e)
  | (w, inr _) =>
      let w := {| w_fs := w_fs w; w_pr := prof_enable (w_pr w);
                  w_atexit := w_atexit w |} in
      (regist_profiler folder_path w, ok tt)
  end.

(** [n] calls of [profiler.profile(folder_path)] in a row. *)
Fixpoint profile_times (n : nat) (folder_path : string) (w : World)
  : World * Res unit :=
  match n with
  | O => (w, ok tt)
  | S n =>
      match profile_times n folder_path w with
      | (w, inl e) => (w, inl e)
      | (w, inr _) => profile folder_path w
      end
  end.

End Profiler.

(** ** Test doubles for the collect mode and for the profiler's host *)

Module Serve.

(** Observations and outputs are strings; the wrapped model counts its
    forward calls; [default_decollate] yields at most [keep] outputs. *)
Definition wrapped_model (keep : nat) : Wrapped := {|
  env_obs := string;
  collated := list string;
  actor_out := list string;
  env_out := string;
  noise := string;
  wrapped := nat;
  default_collate := fun l => ok l;
  default_decollate := fun o => ok (firstn keep o);
  model_eval := fun m => m;
  forward_actor := fun n c m =>
    (S m, ok (map (fun s => match n with
                            | Some _ => String.append "noisy action for " s
                            | None => String.append "action for " s
                            end) c))
|}.

Definition three_envs : list (Z * string) :=
  [(0, "obs 0"); (3, "obs 3"); (5, "obs 5")].

End Serve.

Module Disk.

(** A file system that is the list of its directories. *)
Definition host : Host := {|
  fs := list string;
  prof := nat;
  path_exists := fun d f => existsb (String.eqb d) f;
  makedirs := fun d f => (d :: f, None);
  prof_enable := S
|}.

Definition empty : @World host := @Build_World host [] 0%nat [].

End Disk.

(** ** Inputs of the concrete runs *)

Module Cases.

Import Mock.

(** Three done flags do not fit two time steps. *)
Definition three_flags : list (list bool) := [[true; false]; [false]].

(** The batch of [Mock.batch] with a [weight] per time step. *)
Definition weighted_batch (done : list (list bool)) : @Batch (torch no_fault) :=
  @Build_Batch (torch no_fault)
    (repeat (leaf "obs" [2%nat; 1%nat]) 2)
    (repeat (leaf "next_obs" [2%nat; 1%nat]) 2)
    (repeat [leaf "mu" [2%nat]; leaf "sigma" [2%nat]] 2)
    (repeat (leaf "action" [2%nat; 1%nat]) 2)
    (repeat (leaf "reward" [2%nat]) 2)
    done
    (Some (repeat (leaf "weight" [2%nat]) 2)).

(** A state dict without its last entry. *)
Definition partial_dict : @StateDictLearn (torch no_fault) :=
  [("model", @ModelSD (torch no_fault) (bump healthy));
   ("target_model", @ModelSD (torch no_fault) (bump healthy));
   ("actor_optimizer", @OptSD (torch no_fault) 7%nat)].

End Cases.

(** ** A test double whose state dict leaves gradients and mode out *)

Module Hidden.

Import Mock.

(** A network, the gradient accumulated since the last [zero_grad], and the
    training flag. *)
Record hmodel : Type := {
  net : tmodel;
  grad_acc : nat;
  training : bool
}.

Definition with_net (m : hmodel) (n : tmodel) : hmodel :=
  {| net := n; grad_acc := grad_acc m; training := training m |}.

(** In evaluation mode the actor head puts out something else. *)
Definition hcompute_actor (m : hmodel) (obs : ttensor)
  : Res (list (string * list ttensor)) :=
  if training m then mcompute_actor (net m) obs
  else ok [("logit", [actor_head (net m) obs "mu (eval)" Finite;
                      actor_head (net m) obs "sigma (eval)" Finite])].

(** The optimizer moves the network by the accumulated gradient. *)
Definition hstep (o : nat) (m : hmodel) : Res (nat * hmodel) :=
  ok (S o, with_net m (Nat.iter (grad_acc m) bump (net m))).

Definition torch : Torch := {|
  tensor := ttensor;
  logit_step := list ttensor;
  logit_out := list ttensor;
  dist := tdist;
  grads := ttensor;
  scalar := string;
  model := hmodel;
  opt := nat;
  model_sd := tmodel;
  opt_sd := nat;
  rng := nat;
  cat := mcat;
  reshape := mreshape;
  stack_numpy := mstack;
  permute := mpermute;
  items := fun l => ok l;
  as_tensor := mas_tensor;
  select_last := fun t _ =>
    {| sym := sym t; shape := removelast (shape t); tg := tg t |};
  slice_0_m1 := mslice;
  index_m1 := fun t => {| sym := sym t; shape := tl (shape t); tg := tg t |};
  view2d := mview2d;
  softmax := elementwise1 "softmax";
  texp := elementwise1 "exp";
  tlog := elementwise1 "log";
  neg := elementwise1 "neg";
  add_eps := elementwise1 "add_eps";
  tadd := elementwise2 "add";
  tsub := elementwise2 "sub";
  tmul := elementwise2 "mul";
  tdiv := elementwise2 "div";
  tpow := fun x _ => elementwise1 "pow" x;
  scale := fun _ x => elementwise1 "scale" x;
  sum_last := fun t =>
    {| sym := "sum"; shape := removelast (shape t); tg := tg t |};
  one_over := fun _ => "1/N";
  mul_weights_unsqueeze := fun x _ => elementwise1 "weighted" x;
  mul_weights := fun x _ => elementwise1 "weighted" x;
  sum_div := fun x _ => {| sym := "sum_div"; shape := []; tg := tg x |};
  item := sym;
  all_finite := fun t => match tg t with Finite => true | _ => false end;
  Normal := mNormal;
  Categorical := mCategorical;
  sample := fun d g => (of_dist "sample" d, S g);
  log_prob := mlog_prob;
  entropy := of_dist "entropy";
  autograd_grad := fun out inp => ok (named "grad" inp);
  backward := fun _ _ m =>
    ok {| net := net m; grad_acc := S (grad_acc m); training := training m |};
  train := fun m => {| net := net m; grad_acc := grad_acc m; training := true |};
  logit_reshape := mlogit_reshape;
  logit_index := mlogit_index;
  compute_actor := hcompute_actor;
  compute_critic := fun m obs a => mcompute_critic (net m) obs a;
  state_dict := net;
  load_state_dict := fun m sd => ok (with_net m sd);
  target_update := fun m _ => ok (with_net m (bump (net m)));
  zero_grad := fun _ m =>
    {| net := net m; grad_acc := 0; training := training m |};
  step := hstep;
  lr := fun _ => "0.0005";
  opt_state_dict := fun o => o;
  opt_load_state_dict := fun _ sd => ok sd;
  compute_q_retraces := fun q v r a w ratio g => ok (named "q_retraces" v);
  compute_q_retraces_continuous := fun q v r w ratio g =>
    ok (named "q_retraces" v);
  compute_q_opc := fun q v r a w g => ok (named "q_opc" v);
  acer_policy_error := fun q qr v tp a ratio c =>
    ok (named "actor_loss" v, named "bc_loss" v);
  acer_policy_error_continuous := fun qp qo v tp tpp ratio rp c =>
    ok (named "actor_loss" v, named "bc_loss" v);
  acer_value_error := fun q qr a => ok (named "value_error" qr);
  acer_value_error_continuous := fun q v qr ratio =>
    ok (named "value_error" qr);
  acer_trust_region_update := fun g tp ap v => ok (named "projected_grad" g)
|}.

(** The same network and mode; the same model; the same optimizer. *)
Definition sim (m1 m2 : hmodel) : Prop :=
  net m1 = net m2 /\ training m1 = training m2.

Definition ready (w : which) (m1 m2 : hmodel) : Prop := m1 = m2.

Definition simo (w : which) (o1 o2 : nat) : Prop := o1 = o2.

Definition config : @Config torch :=
  @Build_Config torch true 1%nat 2%nat "0.9" "10" "0.0001" true "1.0".

Definition batch (done : list (list bool)) : @Batch torch :=
  @Build_Batch torch
    (repeat (leaf "obs" [2%nat; 1%nat]) 2)
    (repeat (leaf "next_obs" [2%nat; 1%nat]) 2)
    (repeat [leaf "mu" [2%nat]; leaf "sigma" [2%nat]] 2)
    (repeat (leaf "action" [2%nat; 1%nat]) 2)
    (repeat (leaf "reward" [2%nat]) 2)
    done
    None.

(** A policy that has been trained and then used for collecting: its online
    model holds stale gradients and is in evaluation mode. *)
Definition trained : @Policy torch :=
  @Build_Policy torch
    {| net := bump (bump healthy); grad_acc := 5; training := false |}
    {| net := bump healthy; grad_acc := 0; training := true |}
    1%nat 1%nat 0%nat 4%nat.

(** A freshly constructed policy, with the same random seed. *)
Definition fresh : @Policy torch :=
  @Build_Policy torch
    {| net := healthy; grad_acc := 0; training := true |}
    {| net := healthy; grad_acc := 0; training := true |}
    0%nat 0%nat 0%nat 4%nat.

End Hidden.
(** * Proofs *)

Unset Implicit Arguments.

(** ** Facts about the mask *)


Lemma float_of_bool_flag b : is_flag (float_of_bool b).
Proof. destruct b; [right | left]; reflexivity. Qed.

Lemma length_row_of {A} (w : nat) (xs : list A) i :
  (i * w + w <= length xs)%nat -> length (row_of w xs i) = w.
Proof.
  intros H. unfold row_of. rewrite length_firstn, length_skipn. lia.
Qed.

Lemma reshape_rows_shape {A} (T : nat) (xs : list A) rows :
  reshape_rows T xs = inr rows -> has_shape T (length xs / T)%nat rows.
Proof.
  unfold reshape_rows.
  destruct (T =? 0)%nat eqn:HT; [discriminate|].
  destruct (length xs mod T =? 0)%nat eqn:Hm; [|discriminate].
  intros H. injection H as <-.
  apply Nat.eqb_neq in HT. apply Nat.eqb_eq in Hm.
  split.
  - now rewrite length_map, length_seq.
  - apply Forall_forall. intros r Hr.
    apply in_map_iff in Hr. destruct Hr as [i [<- Hi]].
    apply in_seq in Hi. apply length_row_of.
    pose proof (Nat.div_mod (length xs) T HT) as Hd.
    rewrite Hm, Nat.add_0_r in Hd.
    assert ((i + 1) * (length xs / T) <= T * (length xs / T))%nat
      by (apply Nat.mul_le_mono_r; lia).
    lia.
Qed.

Lemma preprocess_done_shape T done d :
  preprocess_done T done = inr d ->
  has_shape T (length (concat done) / T)%nat d /\ flags d.
Proof.
  unfold preprocess_done, cat_done.
  destruct done as [|x xs]; [discriminate|]. cbn [rbind ok].
  destruct (reshape_rows T (concat (x :: xs))) as [e|rows] eqn:Hr; [discriminate|].
  cbn. intros H. injection H as <-.
  apply reshape_rows_shape in Hr. destruct Hr as [Hl Hw].
  split; [split|].
  - now rewrite length_map.
  - apply Forall_map. revert Hw. apply Forall_impl.
    intros r Hr. now rewrite length_map.
  - apply Forall_map, Forall_forall. intros r _.
    apply Forall_map, Forall_forall. intros b _. apply float_of_bool_flag.
Qed.

Lemma one_minus_shape T B d : has_shape T B d -> has_shape T B (one_minus d).
Proof.
  intros [Hl Hw]. split.
  - unfold one_minus. now rewrite length_map.
  - apply Forall_map. revert Hw. apply Forall_impl.
    intros r Hr. now rewrite length_map.
Qed.

Lemma one_minus_flags d : flags d -> flags (one_minus d).
Proof.
  intros H. apply Forall_map. revert H. apply Forall_impl.
  intros r Hr. apply Forall_map. revert Hr. apply Forall_impl.
  intros z [-> | ->]; [right | left]; reflexivity.
Qed.

Lemma length_drop_last {A} (l : list A) :
  length (drop_last l) = (length l - 1)%nat.
Proof.
  unfold drop_last. induction l as [|a [|b l] IH]; cbn in *; auto.
  rewrite IH. lia.
Qed.

Lemma Forall_drop_last {A} (P : A -> Prop) (l : list A) :
  Forall P l -> Forall P (drop_last l).
Proof.
  unfold drop_last. induction l as [|a [|b l] IH]; cbn; intros H; auto.
  inversion H; subst. constructor; auto.
Qed.

Lemma nth_drop_last {A} (l : list A) (t : nat) (d : A) :
  (S t < length l)%nat -> nth t (drop_last l) d = nth t l d.
Proof.
  unfold drop_last. revert t.
  induction l as [|a [|b l] IH]; intros t Ht; cbn in *; try lia.
  destruct t as [|t]; [reflexivity|]. apply IH. cbn. lia.
Qed.

(** The shifted mask of a non-empty tensor: a row of ones, then the
    original rows but the last. *)
Lemma shift_weights_cons r w :
  shift_weights (r :: w) = map (fun _ => 1) r :: drop_last (r :: w).
Proof. reflexivity. Qed.

Lemma shift_weights_shape T B w :
  has_shape T B w -> has_shape T B (shift_weights w).
Proof.
  intros [Hl Hw]. destruct w as [|r w].
  - cbn in *. subst. split; [reflexivity | constructor].
  - rewrite shift_weights_cons. split.
    + cbn [length]. rewrite length_drop_last. cbn [length] in *. lia.
    + constructor.
      * rewrite length_map. now inversion Hw.
      * now apply Forall_drop_last.
Qed.

Lemma sum_row_ones (r : list Z) :
  sum_row (map (fun _ => 1) r) = Z.of_nat (length r).
Proof.
  induction r as [|a r IH]; [reflexivity|].
  unfold sum_row in *. cbn [map fold_right length]. rewrite IH. lia.
Qed.

Lemma sum_row_nonneg r : Forall is_flag r -> 0 <= sum_row r.
Proof.
  unfold sum_row.
  induction 1 as [|z r [-> | ->] _ IH]; cbn [fold_right]; lia.
Qed.

Lemma mask_sum_nonneg w : flags w -> 0 <= mask_sum w.
Proof.
  unfold mask_sum.
  induction 1 as [|r w Hr _ IH]; cbn [fold_right]; [lia|].
  apply sum_row_nonneg in Hr. lia.
Qed.

(** The first row of the shifted mask alone contributes [B]. *)
Lemma mask_sum_shift_ge T B w :
  (1 <= T)%nat -> has_shape T B w -> flags w ->
  Z.of_nat B <= mask_sum (shift_weights w).
Proof.
  intros HT [Hl Hw] Hf. destruct w as [|r w]; [cbn in Hl; lia|].
  rewrite shift_weights_cons.
  assert (length r = B) as Hr by now inversion Hw.
  assert (0 <= mask_sum (drop_last (r :: w))) as H0
      by (apply mask_sum_nonneg; now apply Forall_drop_last).
  unfold mask_sum in *. cbn [fold_right].
  rewrite sum_row_ones, Hr. lia.
Qed.

Lemma nth_map_const {A} (c d : Z) (r : list A) (b : nat) :
  (b < length r)%nat -> nth b (map (fun _ => c) r) d = c.
Proof.
  revert b. induction r as [|a r IH]; intros [|b] Hb; cbn in *; try lia; auto.
  apply IH. lia.
Qed.

Lemma entry_shift_first T B w b :
  (1 <= T)%nat -> has_shape T B w -> (b < B)%nat ->
  entry (shift_weights w) 0 b = 1.
Proof.
  intros HT [Hl Hw] Hb. destruct w as [|r w]; [cbn in Hl; lia|].
  rewrite shift_weights_cons. unfold entry. cbn [nth].
  assert (length r = B) as Hr by now inversion Hw.
  apply nth_map_const. lia.
Qed.

Lemma entry_shift_next w t b :
  (S t < length w)%nat -> entry (shift_weights w) (S t) b = entry w t b.
Proof.
  intros Ht. destruct w as [|r w]; [cbn in Ht; lia|].
  rewrite shift_weights_cons. unfold entry. cbn [nth].
  now rewrite nth_drop_last.
Qed.

Lemma entry_one_minus d t b :
  (t < length d)%nat -> (b < length (nth t d []))%nat ->
  entry (one_minus d) t b = 1 - entry d t b.
Proof.
  intros Ht Hb. unfold entry, one_minus.
  rewrite (nth_indep _ [] (map (fun x => 1 - x) [])) by (rewrite length_map; lia).
  rewrite (map_nth (map (fun x => 1 - x))).
  rewrite (nth_indep _ 0 ((fun x => 1 - x) 0)) by (rewrite length_map; lia).
  now rewrite (map_nth (fun x => 1 - x)).
Qed.

Lemma all_ones_shift w : all_ones w -> all_ones (shift_weights w).
Proof.
  intros H. destruct w as [|r w]; [constructor|].
  rewrite shift_weights_cons. constructor.
  - apply Forall_map, Forall_forall. reflexivity.
  - now apply Forall_drop_last.
Qed.

Lemma all_ones_one_minus d :
  Forall (Forall (fun z => z = 0)) d -> all_ones (one_minus d).
Proof.
  intros H. apply Forall_map. revert H. apply Forall_impl.
  intros r Hr. apply Forall_map. revert Hr. apply Forall_impl.
  intros z ->. reflexivity.
Qed.


Lemma Forall_prefix {A} (P : A -> Prop) (n : nat) (xs : list A) :
  Forall P xs -> Forall P (firstn n xs).
Proof.
  revert n. induction xs as [|x xs IH]; intros [|n] H; cbn; auto.
  inversion H; subst. constructor; auto.
Qed.

Lemma Forall_suffix {A} (P : A -> Prop) (n : nat) (xs : list A) :
  Forall P xs -> Forall P (skipn n xs).
Proof.
  revert n. induction xs as [|x xs IH]; intros [|n] H; cbn; auto.
  inversion H; subst. auto.
Qed.

Lemma Forall_row_of {A} (P : A -> Prop) (w : nat) (xs : list A) i :
  Forall P xs -> Forall P (row_of w xs i).
Proof.
  intros H. unfold row_of. now apply Forall_prefix, Forall_suffix.
Qed.

Lemma reshape_rows_Forall {A} (P : A -> Prop) (T : nat) (xs : list A) rows :
  reshape_rows T xs = inr rows -> Forall P xs -> Forall (Forall P) rows.
Proof.
  unfold reshape_rows.
  destruct (T =? 0)%nat; [discriminate|].
  destruct (length xs mod T =? 0)%nat; [|discriminate].
  intros H Hxs. injection H as <-.
  apply Forall_map, Forall_forall. intros i _. now apply Forall_row_of.
Qed.

Lemma reshape_rows_positive {A} (T : nat) (xs : list A) rows :
  reshape_rows T xs = inr rows -> (1 <= T)%nat.
Proof.
  unfold reshape_rows. destruct (T =? 0)%nat eqn:HT; [discriminate|].
  apply Nat.eqb_neq in HT. lia.
Qed.

Lemma preprocess_done_positive T done d :
  preprocess_done T done = inr d -> (1 <= T)%nat.
Proof.
  unfold preprocess_done, cat_done.
  destruct done as [|x xs]; [discriminate|]. cbn [rbind ok].
  destruct (reshape_rows T (concat (x :: xs))) as [e|rows] eqn:Hr; [discriminate|].
  intros _. now apply reshape_rows_positive in Hr.
Qed.

(** Without a done flag the float tensor [done] is zero everywhere. *)
Lemma preprocess_done_zero T done d :
  preprocess_done T done = inr d ->
  Forall (Forall (fun b => b = false)) done ->
  Forall (Forall (fun z => z = 0)) d.
Proof.
  unfold preprocess_done, cat_done.
  destruct done as [|x xs]; [discriminate|]. cbn [rbind ok].
  destruct (reshape_rows T (concat (x :: xs))) as [e|rows] eqn:Hr; [discriminate|].
  cbn. intros H Hd. injection H as <-.
  assert (Forall (fun b => b = false) (concat (x :: xs))) as Hflat.
  { apply Forall_concat. exact Hd. }
  pose proof (reshape_rows_Forall (fun b => b = false) _ _ _ Hr Hflat) as Hrows.
  apply Forall_map. revert Hrows. apply Forall_impl.
  intros r Hr'. apply Forall_map. revert Hr'. apply Forall_impl.
  intros b ->. reflexivity.
Qed.


(** ** Preprocessing and reshaping *)

Section Preprocess.

Context {TH : Torch}.

Lemma data_preprocess_done cfg batch data :
  data_preprocess_learn cfg batch = inr data ->
  preprocess_done (unroll_len cfg) (b_done batch) = inr (d_done data).
Proof.
  unfold data_preprocess_learn, rbind, ok.
  destruct (preprocess_done (unroll_len cfg) (b_done batch)) as [e|d] eqn:Hd.
  - repeat match goal with
           | |- context [match ?x with _ => _ end] => destruct x
           end; discriminate.
  - repeat match goal with
           | |- context [match ?x with _ => _ end] => destruct x
           end; try discriminate.
    all: intros H; injection H as <-; reflexivity.
Qed.

Lemma reshape_data_weights cfg ad avg data r :
  reshape_data cfg ad avg data = inr r -> rd_weights r = one_minus (d_done data).
Proof.
  unfold reshape_data, rbind, ok.
  repeat match goal with
         | |- context [match ?x with inl _ => _ | inr _ => _ end] => destruct x
         end; try discriminate.
  intros H. injection H as <-. reflexivity.
Qed.

Lemma reshape_data_continuous_weights cfg ad avg data r :
  reshape_data_continuous cfg ad avg data = inr r ->
  rc_weights r = one_minus (d_done data).
Proof.
  unfold reshape_data_continuous, rbind, ok.
  repeat match goal with
         | |- context [match ?x with inl _ => _ | inr _ => _ end] => destruct x
         end; try discriminate.
  intros H. injection H as <-. reflexivity.
Qed.

Lemma inverse_action_shape_ok cfg s :
  inverse_action_shape cfg = inr s ->
  s = one_over (action_shape cfg) /\ action_shape cfg <> 0%nat.
Proof.
  unfold inverse_action_shape.
  destruct (action_shape cfg =? 0)%nat eqn:E; [discriminate|].
  intros H. injection H as <-. apply Nat.eqb_neq in E. auto.
Qed.

End Preprocess.

(** ** Running the monad one call at a time *)

Section Stepping.

Context {TH : Torch}.

Lemma bind_assoc {A B C} (m : M A) (f : A -> M B) (g : B -> M C) p tr :
  bind (bind m f) g p tr = bind m (fun a => bind (f a) g) p tr.
Proof. unfold bind. destruct (result (m p tr)); reflexivity. Qed.

Lemma bind_ret {A B} (a : A) (f : A -> M B) p tr : bind (ret a) f p tr = f a p tr.
Proof. reflexivity. Qed.

Lemma bind_gets {A B} (g : Policy -> A) (f : A -> M B) p tr :
  bind (gets g) f p tr = f (g p) p tr.
Proof. reflexivity. Qed.

Lemma bind_put {B} q (f : unit -> M B) p tr : bind (put q) f p tr = f tt q tr.
Proof. reflexivity. Qed.

Lemma bind_lift {A B} (r : Res A) (f : A -> M B) p tr :
  bind (lift r) f p tr =
  match r with
  | inl e => {| final := p; trace := tr; result := inl e |}
  | inr a => f a p tr
  end.
Proof. destruct r; reflexivity. Qed.

Lemma bind_call {A B} (c : A -> Call) (r : Res A) (f : A -> M B) p tr :
  bind (call c r) f p tr =
  match r with
  | inl e => {| final := p; trace := tr; result := inl e |}
  | inr a => f a p (tr ++ [c a])
  end.
Proof. destruct r; reflexivity. Qed.

Lemma bind_train {B} (f : unit -> M B) p tr :
  bind learn_model_train f p tr =
  f tt (set_learn_model p (train (learn_model p))) tr.
Proof. reflexivity. Qed.

Lemma bind_sample {B} d (f : tensor -> M B) p tr :
  bind (dist_sample d) f p tr =
  f (fst (sample d (torch_rng p)))
    (set_torch_rng p (snd (sample d (torch_rng p)))) tr.
Proof.
  unfold bind, dist_sample. destruct (sample d (torch_rng p)); reflexivity.
Qed.

Lemma bind_zero_grad {B} o (f : unit -> M B) p tr :
  bind (optimizer_zero_grad o) f p tr =
  f tt (set_learn_model p (zero_grad (optimizer o p) (learn_model p)))
    (tr ++ [ZeroGrad o]).
Proof. reflexivity. Qed.

Lemma bind_backward {B} t g (f : unit -> M B) p tr :
  bind (tensor_backward t g) f p tr =
  match backward t g (learn_model p) with
  | inl e => {| final := p; trace := tr; result := inl e |}
  | inr m => f tt (set_learn_model p m) (tr ++ [Backward t g])
  end.
Proof.
  unfold bind, tensor_backward.
  destruct (backward t g (learn_model p)); reflexivity.
Qed.

Lemma bind_step {B} o (f : unit -> M B) p tr :
  bind (optimizer_step o) f p tr =
  match step (optimizer o p) (learn_model p) with
  | inl e => {| final := p; trace := tr; result := inl e |}
  | inr sm =>
      f tt (set_learn_model (set_optimizer o p (fst sm)) (snd sm)) (tr ++ [Step o])
  end.
Proof.
  unfold bind, optimizer_step.
  destruct (step (optimizer o p) (learn_model p)) as [|[]]; reflexivity.
Qed.

Lemma bind_target_update {B} (f : unit -> M B) p tr :
  bind target_model_update f p tr =
  match target_update (target_model p) (state_dict (learn_model p)) with
  | inl e => {| final := p; trace := tr; result := inl e |}
  | inr m => f tt (set_target_model p m) (tr ++ [TargetUpdate])
  end.
Proof.
  unfold bind, target_model_update. destruct (target_update _ _); reflexivity.
Qed.

End Stepping.

Arguments bind : simpl never.
Arguments shift_weights : simpl never.
Arguments mask_sum : simpl never.
Arguments one_minus : simpl never.
Arguments data_preprocess_learn : simpl never.
Arguments reshape_data : simpl never.
Arguments reshape_data_continuous : simpl never.
Arguments learn_inv : simpl never.

Ltac destruct_head_match :=
  match goal with
  | |- ?Q (match ?r with inl _ => _ | inr _ => _ end) =>
      let E := fresh "E" in destruct r eqn:E
  | |- context [let (_, _) := ?x in _] => is_var x; destruct x
  end.

Ltac use_flags :=
  repeat match goal with
         | H : continuous_action_space ?c = _
           |- context [continuous_action_space ?c] => rewrite H
         | H : use_trust_region ?c = _
           |- context [use_trust_region ?c] => rewrite H
         end.

Ltac exec1 :=
  first
    [ rewrite bind_assoc
    | rewrite bind_ret
    | rewrite bind_gets
    | rewrite bind_put
    | rewrite bind_train
    | rewrite bind_sample
    | rewrite bind_zero_grad
    | rewrite bind_lift
    | rewrite bind_call
    | rewrite bind_backward
    | rewrite bind_step
    | rewrite bind_target_update
    | progress cbn
    | destruct_head_match
    | progress cbv beta zeta
    | progress (unfold heads_continuous, heads_discrete, off_policy_targets,
                critic_forward, weighted_unsqueeze, weighted, normalised);
      use_flags ].

Ltac find_in := simpl; repeat (first [left; reflexivity | right]).

Ltac solve_call :=
  unfold call_ok, mask_ok, ratio_ok, grad_ok; use_flags;
  repeat match goal with
         | |- _ /\ _ => split
         | |- True => exact I
         | |- exists _, _ => eexists
         | |- _ = _ => first [reflexivity | assumption]
         | |- _ <> _ => assumption
         | |- In _ _ => solve [find_in]
         end.

Ltac facts :=
  repeat match goal with
         | H : reshape_data _ _ _ _ = inr _ |- _ =>
             apply reshape_data_weights in H
         | H : reshape_data_continuous _ _ _ _ = inr _ |- _ =>
             apply reshape_data_continuous_weights in H
         | H : inverse_action_shape _ = inr _ |- _ =>
             apply inverse_action_shape_ok in H; destruct H as [-> ?]
         end.

Ltac leaf :=
  facts;
  unfold learn_inv, ret;
  match goal with
  | H : data_preprocess_learn _ _ = _ |- _ => rewrite H
  end;
  split;
  [ first [ split; reflexivity
          | cbn [trace];
            repeat match goal with
                   | H : _ = one_minus _ |- _ => rewrite H in *; clear H
                   end;
            repeat (apply Forall_cons; [solve_call|]); apply Forall_nil ]
  | unfold control_ok; cbn;
    repeat match goal with
           | |- _ /\ _ => split
           | |- _ = _ => first [reflexivity | assumption]
           | |- _ \/ _ => first [left; reflexivity | right]
           | |- ~ _ -> _ =>
               first [ intros _; reflexivity
                     | let H := fresh in intros H; exfalso; apply H; tauto ]
           | |- _ -> _ => first [ intros _; reflexivity | intros; congruence ]
           end ].

Section Master.

Context {TH : Torch}.

(** Every run of the learning step, whatever the collaborators do. *)
Lemma learn_inv_holds cfg batch p : learn_inv cfg batch p (run_learn cfg batch p).
Proof.
  unfold run_learn, forward_learn.
  destruct (continuous_action_space cfg) eqn:Hc;
    destruct (use_trust_region cfg) eqn:Htr.
  all: repeat exec1.
  all: leaf.
Qed.

End Master.


(** ** Where the ratios come from, in every run *)

Section RatioSources.

Context {TH : Torch}.


End RatioSources.







Section RatioMaster.

Context {TH : Torch}.


End RatioMaster.

(** ** What the invariant gives for one call of a run *)

Section Runs.

Context {TH : Torch}.

Lemma run_calls_ok cfg batch p data :
  data_preprocess_learn cfg batch = inr data ->
  Forall (call_ok cfg (one_minus (d_done data)) (trace (run_learn cfg batch p)))
         (trace (run_learn cfg batch p)).
Proof.
  intros H. destruct (learn_inv_holds cfg batch p) as [Hi _].
  unfold learn_inv in Hi. rewrite H in Hi. exact Hi.
Qed.

Lemma run_control cfg batch p : control_ok cfg p (run_learn cfg batch p).
Proof. apply learn_inv_holds. Qed.

Lemma run_call_ok cfg batch p c :
  In c (trace (run_learn cfg batch p)) ->
  exists data,
    data_preprocess_learn cfg batch = inr data
    /\ call_ok cfg (one_minus (d_done data)) (trace (run_learn cfg batch p)) c.
Proof.
  intros Hin. destruct (data_preprocess_learn cfg batch) as [e|data] eqn:E.
  - destruct (learn_inv_holds cfg batch p) as [Hi _].
    unfold learn_inv in Hi. rewrite E in Hi. destruct Hi as [_ Ht].
    rewrite Ht in Hin. destruct Hin.
  - exists data. split; [reflexivity|].
    pose proof (run_calls_ok cfg batch p data E) as Hall.
    rewrite Forall_forall in Hall. now apply Hall.
Qed.

Lemma done_shape cfg batch data :
  data_preprocess_learn cfg batch = inr data ->
  has_shape (unroll_len cfg) (batch_size cfg batch) (d_done data)
  /\ flags (d_done data) /\ (1 <= unroll_len cfg)%nat.
Proof.
  intros H. apply data_preprocess_done in H.
  destruct (preprocess_done_shape _ _ _ H) as [Hs Hf].
  apply preprocess_done_positive in H. auto.
Qed.

Lemma nth_row_length {A} (T B : nat) (w : list (list A)) t :
  has_shape T B w -> (t < T)%nat -> length (nth t w []) = B.
Proof.
  intros [Hl Hw] Ht. rewrite Forall_forall in Hw. apply Hw, nth_In. lia.
Qed.

End Runs.


(** ** A restored policy runs like the policy it was saved from *)

Section Relating.

Context {TH : Torch}.

Variable sim : model -> model -> Prop.
Variable ready : which -> model -> model -> Prop.
Variable simo : which -> opt -> opt -> Prop.
Hypothesis HR : Respect sim ready simo.

Lemma rel_weaken s p q : rel sim ready simo s p q -> rel sim ready simo Saved p q.
Proof.
  intros (Hm & Ht & Ha & Hc & Hg). repeat split; try assumption.
  destruct s; cbn in *.
  - exact Hm.
  - exact (state_dict_sim HR _ _ Hm).
  - exact (state_dict_sim HR _ _ (ready_sim HR _ _ _ Hm)).
Qed.

Lemma optimizer_simo w s p q :
  rel sim ready simo s p q -> simo w (optimizer w p) (optimizer w q).
Proof. intros (Hm & Ht & Ha & Hc & Hg). destruct w; assumption. Qed.

Lemma related_ret {A} s (a : A) : related sim ready simo s s eq (ret a) (ret a).
Proof. intros p q tr H. cbn. auto. Qed.

Lemma related_lift {A} s (r : Res A) :
  related sim ready simo s s eq (lift r) (lift r).
Proof.
  intros p q tr H. cbn. split; [reflexivity|].
  destruct r; split; try reflexivity; [exact (rel_weaken _ _ _ H) | exact H].
Qed.

Lemma related_call {A} s (c : A -> Call) (r : Res A) :
  related sim ready simo s s eq (call c r) (call c r).
Proof.
  intros p q tr H. unfold call.
  destruct r; cbn; split; try reflexivity; split; try reflexivity;
    [exact (rel_weaken _ _ _ H) | exact H].
Qed.

Lemma related_bind {A B} pre mid post (V : A -> A -> Prop) (W : B -> B -> Prop)
    (m1 m2 : M A) (f1 f2 : A -> M B) :
  related sim ready simo pre mid V m1 m2 ->
  (forall a b, V a b -> related sim ready simo mid post W (f1 a) (f2 b)) ->
  related sim ready simo pre post W (bind m1 f1) (bind m2 f2).
Proof.
  intros Hm Hf p q tr H. unfold bind.
  destruct (Hm p q tr H) as [Ht Hr].
  destruct (result (m1 p tr)) as [e1|a], (result (m2 q tr)) as [e2|b];
    try contradiction.
  - cbn. destruct Hr. auto.
  - destruct Hr as [Hv Hrel]. rewrite Ht. apply Hf; assumption.
Qed.

(** The online model is read after [train()] only. *)
Lemma related_gets_learn :
  related sim ready simo Sim Sim sim (gets learn_model) (gets learn_model).
Proof. intros p q tr H. cbn. split; [reflexivity|]. split; [apply H | exact H]. Qed.

Lemma related_gets_target s :
  related sim ready simo s s sim (gets target_model) (gets target_model).
Proof. intros p q tr H. cbn. split; [reflexivity|]. split; [apply H | exact H]. Qed.

Lemma related_gets_actor s :
  related sim ready simo s s (simo Actor)
    (gets optimizer_actor) (gets optimizer_actor).
Proof. intros p q tr H. cbn. split; [reflexivity|]. split; [apply H | exact H]. Qed.

Lemma related_gets_critic s :
  related sim ready simo s s (simo Critic)
    (gets optimizer_critic) (gets optimizer_critic).
Proof. intros p q tr H. cbn. split; [reflexivity|]. split; [apply H | exact H]. Qed.

(** [train()] makes up for a training mode the state dict did not carry. *)
Lemma related_train :
  related sim ready simo Saved Sim eq learn_model_train learn_model_train.
Proof.
  intros p q tr (Hm & Ht & Ha & Hc & Hg). cbn.
  split; [reflexivity|]. split; [reflexivity|].
  repeat split; cbn; try assumption. exact (train_sim HR _ _ Hm).
Qed.

Lemma related_sample s d :
  related sim ready simo s s eq (dist_sample d) (dist_sample d).
Proof.
  intros p q tr (Hm & Ht & Ha & Hc & Hg). unfold dist_sample. rewrite Hg.
  destruct (sample d (torch_rng q)) as [x g]. cbn.
  split; [reflexivity|]. split; [reflexivity|].
  repeat split; cbn; assumption.
Qed.

(** [zero_grad()] makes up for the gradients the state dict did not
    carry. *)
Lemma related_zero_grad w :
  related sim ready simo Sim (Ready w) eq
    (optimizer_zero_grad w) (optimizer_zero_grad w).
Proof.
  intros p q tr H. pose proof (optimizer_simo w _ _ _ H) as Ho.
  destruct H as (Hm & Ht & Ha & Hc & Hg). cbn.
  split; [reflexivity|]. split; [reflexivity|].
  repeat split; cbn; try assumption.
  exact (zero_grad_ready HR _ _ _ _ _ Ho Hm).
Qed.

Lemma related_backward w t g :
  related sim ready simo (Ready w) (Ready w) eq
    (tensor_backward t g) (tensor_backward t g).
Proof.
  intros p q tr H. pose proof (rel_weaken _ _ _ H) as Hs.
  destruct H as (Hm & Ht & Ha & Hc & Hg). unfold tensor_backward.
  pose proof (backward_ready HR w t g _ _ Hm) as Hb. unfold rel_res in Hb.
  destruct (backward t g (learn_model p)) as [e1|m1],
           (backward t g (learn_model q)) as [e2|m2]; try contradiction; cbn.
  - auto.
  - split; [reflexivity|]. split; [reflexivity|].
    repeat split; cbn; assumption.
Qed.

Lemma related_step w :
  related sim ready simo (Ready w) Sim eq (optimizer_step w) (optimizer_step w).
Proof.
  intros p q tr H. pose proof (rel_weaken _ _ _ H) as Hs.
  pose proof (optimizer_simo w _ _ _ H) as Ho.
  destruct H as (Hm & Ht & Ha & Hc & Hg). unfold optimizer_step.
  pose proof (step_sim HR w _ _ _ _ Ho Hm) as Hb. unfold rel_res in Hb.
  destruct (step (optimizer w p) (learn_model p)) as [e1|[s1 m1]],
           (step (optimizer w q) (learn_model q)) as [e2|[s2 m2]];
    try contradiction; cbn.
  - auto.
  - destruct Hb as [Hb1 Hb2]. cbn in Hb1, Hb2.
    split; [reflexivity|]. split; [reflexivity|].
    destruct w; repeat split; cbn; assumption.
Qed.

Lemma related_target_update :
  related sim ready simo Sim Sim eq target_model_update target_model_update.
Proof.
  intros p q tr H. pose proof (rel_weaken _ _ _ H) as Hs.
  destruct H as (Hm & Ht & Ha & Hc & Hg). unfold target_model_update.
  rewrite (state_dict_sim HR _ _ Hm).
  pose proof (target_update_sim HR _ _ (state_dict (learn_model q)) Ht) as Hb.
  unfold rel_res in Hb.
  destruct (target_update (target_model p) (state_dict (learn_model q))) as [e1|m1],
           (target_update (target_model q) (state_dict (learn_model q))) as [e2|m2];
    try contradiction; cbn.
  - auto.
  - split; [reflexivity|]. split; [reflexivity|].
    repeat split; cbn; assumption.
Qed.

(** One statement of the learning step, run on both policies. *)
Ltac rel1 :=
  first
    [ match goal with
      | H : sim ?a ?b |- context [compute_actor ?a _] =>
          rewrite (forward_actor_sim HR a b H)
      | H : sim ?a ?b |- context [compute_critic ?a _ _] =>
          rewrite (forward_critic_sim HR a b H)
      | H : simo ?w ?a ?b |- context [lr ?a] =>
          rewrite (lr_simo HR w a b H)
      | H : ?a = ?b |- _ => is_var a; is_var b; subst a
      end
    | apply related_ret
    | apply related_lift
    | apply related_call
    | apply related_train
    | apply related_sample
    | apply related_zero_grad
    | apply related_backward
    | apply related_step
    | apply related_target_update
    | apply related_gets_learn
    | apply related_gets_target
    | apply related_gets_actor
    | apply related_gets_critic
    | eapply related_bind; [|intros ? ? ?]
    | match goal with
      | |- related _ _ _ _ _ _ (match ?x with _ => _ end) _ => is_var x; destruct x
      end
    | progress cbv beta iota zeta
    | progress (unfold heads_continuous, heads_discrete, off_policy_targets,
                critic_forward, weighted_unsqueeze, weighted, normalised);
      use_flags ].

(** From policies with the same saved state, a learning step makes the same
    calls and returns or raises the same; afterwards the policies have the
    same saved state again. *)
Lemma related_forward_learn cfg batch :
  related sim ready simo Saved Sim eq
    (forward_learn cfg batch) (forward_learn cfg batch).
Proof.
  unfold forward_learn.
  destruct (continuous_action_space cfg) eqn:Hc;
    destruct (use_trust_region cfg) eqn:Htr.
  all: repeat rel1.
Qed.

Lemma learn_steps_related cfg batches :
  forall p q,
    rel sim ready simo Saved p q ->
    learn_steps cfg batches p = learn_steps cfg batches q.
Proof.
  induction batches as [|batch rest IH]; intros p q H; [reflexivity|].
  cbn [learn_steps]. unfold run_learn.
  destruct (related_forward_learn cfg batch p q [] H) as [Ht Hr].
  rewrite Ht.
  destruct (result (forward_learn cfg batch p [])) as [e1|m1],
           (result (forward_learn cfg batch q [])) as [e2|m2];
    try contradiction.
  - destruct Hr as [-> Hrel]. f_equal. apply IH. exact Hrel.
  - destruct Hr as [-> Hrel]. f_equal. apply IH.
    exact (rel_weaken _ _ _ Hrel).
Qed.

End Relating.
(** ** The claims *)

Section Claims.

Context {TH : Torch}.

(** C1.  With a discrete action space the learning step never returns: every
    run raises before the first Q-retrace call (the trace of collaborator
    calls is empty), and neither optimizer is touched.  The scenario of the
    specification (unroll length 4, batch size 2, action dimension 3) is one
    such run, so no retrace target and no actor loss is ever computed
    there. *)
Theorem discrete_step_always_raises cfg batch p :
  continuous_action_space cfg = false ->
  (exists e, result (run_learn cfg batch p) = inl e)
  /\ trace (run_learn cfg batch p) = []
  /\ optimizer_actor (final (run_learn cfg batch p)) = optimizer_actor p
  /\ optimizer_critic (final (run_learn cfg batch p)) = optimizer_critic p.
Proof.
  intros Hd.
  destruct (run_control cfg batch p) as (Ha & Hc & _ & _ & Hr).
  destruct (result (run_learn cfg batch p)) as [e|m].
  - destruct Hr as [_ Ht]. specialize (Ht Hd). rewrite Ht in *.
    repeat split; eauto.
  - destruct Hr as (_ & _ & Hcont). congruence.
Qed.

(** C2, as amended.  The mask [1 - done] is handed unshifted to the
    Q-retrace and Q-opc computations.  It is shifted right by one time
    position only afterwards, for the loss reductions and [total_valid]:
    there the first row is all ones and row [t+1] is [1 - done[t]], so a done
    flag at step [t] zeros step [t+1]'s contribution and not step [t]'s
    own. *)
Theorem mask_shift_applies_to_losses_only cfg batch p data :
  data_preprocess_learn cfg batch = inr data ->
  let w0 := one_minus (d_done data) in
  let tr := trace (run_learn cfg batch p) in
  (forall q v r w ratio g, In (QRetracesContinuous q v r w ratio g) tr -> w = w0)
  /\ (forall q v r a w ratio g, In (QRetraces q v r a w ratio g) tr -> w = w0)
  /\ (forall q v r a w g, In (QOpc q v r a w g) tr -> w = w0)
  /\ (forall x w, In (Weighted x w) tr -> w = shift_weights w0)
  /\ (forall x tv, In (Normalised x tv) tr -> tv = mask_sum (shift_weights w0))
  /\ (forall b, (b < batch_size cfg batch)%nat -> entry (shift_weights w0) 0 b = 1)
  /\ (forall t b, (S t < unroll_len cfg)%nat -> (b < batch_size cfg batch)%nat ->
      entry (shift_weights w0) (S t) b = 1 - entry (d_done data) t b).
Proof.
  intros Hpre w0 tr.
  pose proof (run_calls_ok cfg batch p data Hpre) as Hall.
  rewrite Forall_forall in Hall.
  destruct (done_shape cfg batch data Hpre) as (Hs & Hf & HT).
  pose proof (one_minus_shape _ _ _ Hs) as Hs0.
  repeat split.
  - intros q v r w ratio g Hin. apply (Hall _ Hin).
  - intros q v r a w ratio g Hin. apply (Hall _ Hin).
  - intros q v r a w g Hin. apply (Hall _ Hin).
  - intros x w Hin. apply (Hall _ Hin).
  - intros x tv Hin. apply (Hall _ Hin).
  - intros b Hb. now apply (entry_shift_first _ _ _ _ HT Hs0).
  - intros t b Ht Hb. destruct Hs0 as [Hl0 _]. destruct Hs as [Hl Hw].
    rewrite entry_shift_next by (fold w0 in Hl0; lia).
    apply entry_one_minus; [lia|].
    rewrite (nth_row_length (unroll_len cfg) (batch_size cfg batch));
      [assumption | split; assumption | lia].
Qed.


(** C4, as amended.  A learning step that returns has applied the actor
    optimizer step and then the critic optimizer step.  A step that raises
    has applied a prefix of that sequence: nothing, or the actor step alone
    (an error between the two steps leaves the actor updated), or both (an
    error after the critic step).  The critic step is never applied without
    the actor step, and an optimizer that has not stepped is unchanged. *)
Theorem optimizer_steps_of_a_run cfg batch p :
  match result (run_learn cfg batch p) with
  | inr _ => steps (trace (run_learn cfg batch p)) = [Actor; Critic]
  | inl _ =>
      steps (trace (run_learn cfg batch p)) = []
      \/ steps (trace (run_learn cfg batch p)) = [Actor]
      \/ steps (trace (run_learn cfg batch p)) = [Actor; Critic]
  end
  /\ (~ In Actor (steps (trace (run_learn cfg batch p))) ->
      optimizer_actor (final (run_learn cfg batch p)) = optimizer_actor p)
  /\ (~ In Critic (steps (trace (run_learn cfg batch p))) ->
      optimizer_critic (final (run_learn cfg batch p)) = optimizer_critic p).
Proof.
  destruct (run_control cfg batch p) as (Ha & Hc & _ & _ & Hr).
  repeat split; try assumption.
  destruct (result (run_learn cfg batch p)); tauto.
Qed.

(** C5.  Every mask applied to a loss reduction has a first row of ones,
    whatever the done flags are, and is all ones when no done flag is set. *)
Theorem loss_weights_first_row_and_no_done cfg batch p x w :
  In (Weighted x w) (trace (run_learn cfg batch p)) ->
  (no_done batch -> all_ones w)
  /\ (forall b, (b < batch_size cfg batch)%nat -> entry w 0 b = 1).
Proof.
  intros Hin. destruct (run_call_ok cfg batch p _ Hin) as (data & Hpre & Hm & _).
  cbn in Hm. subst w.
  destruct (done_shape cfg batch data Hpre) as (Hs & Hf & HT).
  split.
  - intros Hnd. apply all_ones_shift, all_ones_one_minus.
    apply data_preprocess_done in Hpre.
    exact (preprocess_done_zero _ _ _ Hpre Hnd).
  - intros b Hb. exact (entry_shift_first _ _ _ _ HT (one_minus_shape _ _ _ Hs) Hb).
Qed.

(** C6.  With the trust region disabled, the gradient handed to
    [target_pi.backward] is the result of [torch.autograd.grad] on the
    negated total actor loss with respect to [target_pi], and
    [acer_trust_region_update] is not called at all. *)
Theorem no_projection_without_trust_region cfg batch p t g :
  use_trust_region cfg = false ->
  In (Backward t (Some g)) (trace (run_learn cfg batch p)) ->
  (exists actor_loss bc_loss entropy_loss total_valid,
      let x := tadd (tadd actor_loss bc_loss)
                    (scale (entropy_weight cfg) entropy_loss) in
      In (Normalised x total_valid) (trace (run_learn cfg batch p))
      /\ autograd_grad (neg (sum_div x total_valid)) t = inr g)
  /\ forallb (fun c => negb (is_trust_region c)) (trace (run_learn cfg batch p))
     = true.
Proof.
  intros Htr Hin.
  destruct (run_call_ok cfg batch p _ Hin) as (data & Hpre & _ & _ & Hg).
  pose proof (run_calls_ok cfg batch p data Hpre) as Hall.
  rewrite Forall_forall in Hall.
  cbn in Hg. rewrite Htr in Hg.
  destruct Hg as (al & bl & el & tv & Hn & Ha).
  split.
  - exists al, bl, el, tv. split; [exact Hn|].
    destruct (Hall _ Ha) as (_ & _ & Hg'). exact Hg'.
  - apply forallb_forall. intros c Hc.
    destruct c; try reflexivity.
    destruct (Hall _ Hc) as (_ & _ & Hg'). cbn in Hg'. congruence.
Qed.


(** C9.  The metrics a learning step returns have exactly the keys
    cur_actor_lr, cur_critic_lr, actor_loss, bc_loss, entropy_loss,
    total_actor_loss, critic_loss and kl_div, each once, and each value is a
    Python float (the type [scalar]). *)
Theorem metrics_keys cfg batch p (m : list (string * scalar)) :
  result (run_learn cfg batch p) = inr m ->
  map fst m = metric_keys /\ NoDup (map fst m).
Proof.
  intros H. destruct (run_control cfg batch p) as (_ & _ & _ & _ & Hr).
  rewrite H in Hr. destruct Hr as (_ & Hk & _). rewrite Hk. split; [reflexivity|].
  unfold metric_keys.
  repeat (constructor; [cbn; intuition discriminate|]). constructor.
Qed.

(** C10.  For a batch with at least one trajectory ([B >= 1]; [T >= 1]),
    every division by [total_valid] in a run divides by at least [B], hence
    by a positive number: the first row of the shifted mask is all ones. *)
Theorem total_valid_at_least_batch_size cfg batch p x tv :
  (1 <= unroll_len cfg)%nat ->
  (1 <= batch_size cfg batch)%nat ->
  In (Normalised x tv) (trace (run_learn cfg batch p)) ->
  Z.of_nat (batch_size cfg batch) <= tv /\ 0 < tv.
Proof.
  intros HT HB Hin.
  destruct (run_call_ok cfg batch p _ Hin) as (data & Hpre & Hm & _).
  cbn in Hm. subst tv.
  destruct (done_shape cfg batch data Hpre) as (Hs & Hf & _).
  pose proof (mask_sum_shift_ge _ _ _ HT (one_minus_shape _ _ _ Hs) (one_minus_flags _ Hf)).
  lia.
Qed.

(** C8.  A state dict carries a model's parameters and buffers and an
    optimizer's state; it carries neither gradients nor the training mode.
    Take collaborators that respect this ([Respect]: a forward pass depends
    on parameters, buffers and mode; [train()] sets the mode; [zero_grad()]
    resets the gradients its optimizer's [step()] reads), and a freshly
    constructed policy with the same random seed into which the four loads
    succeed: the online model then has the saved state dict, the target
    model the saved parameters in the same mode, and the optimizers step
    like the saved ones.  Then [_load_state_dict_learn] of
    [_state_dict_learn()] returns, installs exactly the four loaded
    objects, the restored policy's state dict is the saved one, and on every
    sequence of batches the learning steps of the restored policy return or
    raise the same, and make the same collaborator calls with the same
    arguments, as those of the original policy. *)
Theorem state_dict_round_trip sim ready simo p fresh lm tm oa oc :
  Respect sim ready simo ->
  load_state_dict (learn_model fresh) (state_dict (learn_model p)) = inr lm ->
  state_dict lm = state_dict (learn_model p) ->
  load_state_dict (target_model fresh) (state_dict (target_model p)) = inr tm ->
  sim tm (target_model p) ->
  opt_load_state_dict (optimizer_actor fresh)
    (opt_state_dict (optimizer_actor p)) = inr oa ->
  simo Actor oa (optimizer_actor p) ->
  opt_load_state_dict (optimizer_critic fresh)
    (opt_state_dict (optimizer_critic p)) = inr oc ->
  simo Critic oc (optimizer_critic p) ->
  torch_rng fresh = torch_rng p ->
  let loaded := load_state_dict_learn (state_dict_learn p) fresh [] in
  result loaded = inr tt
  /\ learn_model (final loaded) = lm
  /\ target_model (final loaded) = tm
  /\ optimizer_actor (final loaded) = oa
  /\ optimizer_critic (final loaded) = oc
  /\ state_dict_learn (final loaded) = state_dict_learn p
  /\ forall cfg batches,
       learn_steps cfg batches (final loaded) = learn_steps cfg batches p.
Proof.
  intros HR Hlm Hsd Htm Hsim Hoa Hsa Hoc Hsc Hrng loaded.
  assert (Hload :
    loaded = {| final := {| learn_model := lm; target_model := tm;
                            optimizer_actor := oa; optimizer_critic := oc;
                            optimizer_critic_v := optimizer_critic_v fresh;
                            torch_rng := torch_rng fresh |};
                trace := []; result := inr tt |}).
  { subst loaded. unfold load_state_dict_learn, state_dict_learn.
    repeat first [ rewrite bind_lift | rewrite bind_gets | rewrite bind_put
                 | rewrite Hlm | rewrite Htm | rewrite Hoa | rewrite Hoc
                 | progress cbn ].
    reflexivity. }
  rewrite Hload. cbn [final result learn_model target_model optimizer_actor
                      optimizer_critic].
  repeat (split; [reflexivity|]).
  split.
  - unfold state_dict_learn. cbn.
    rewrite Hsd, (state_dict_sim HR _ _ Hsim),
      (opt_state_dict_simo HR _ _ _ Hsa), (opt_state_dict_simo HR _ _ _ Hsc).
    reflexivity.
  - intros cfg batches.
    apply (learn_steps_related sim ready simo HR).
    repeat split; cbn; assumption.
Qed.

End Claims.


(** ** Concrete runs *)

Ltac in_at n := apply (nth_error_In _ n); vm_compute; reflexivity.

Ltac in_trace :=
  first [ in_at 0%nat | in_at 1%nat | in_at 2%nat | in_at 3%nat | in_at 4%nat
        | in_at 5%nat | in_at 6%nat | in_at 7%nat | in_at 8%nat | in_at 9%nat
        | in_at 10%nat | in_at 11%nat | in_at 12%nat | in_at 13%nat
        | in_at 14%nat | in_at 15%nat | in_at 16%nat | in_at 17%nat
        | in_at 18%nat | in_at 19%nat | in_at 20%nat | in_at 21%nat
        | in_at 22%nat | in_at 23%nat | in_at 24%nat | in_at 25%nat
        | in_at 26%nat | in_at 27%nat | in_at 28%nat | in_at 29%nat ].


Module Scenario.

Import Mock.

(** C1: the scenario of the specification raises while the batch is
    reshaped (8 actions do not fit [(4, -1, 3)]); with a batch size the
    reshape accepts, the step raises at [v_pred = v_values]. *)
Example discrete_scenario_raises :
  result (run_discrete 2)
  = inl (RuntimeError "reshape: shape is invalid for input size").
Proof. vm_compute. reflexivity. Qed.

Example discrete_unbound_v_values :
  result (run_discrete 3) = inl (UnboundLocalError "v_values").
Proof. vm_compute. reflexivity. Qed.

Lemma discrete_step_always_raises_witness :
  (exists e, result (run_discrete 2) = inl e)
  /\ trace (run_discrete 2) = []
  /\ optimizer_actor (final (run_discrete 2)) = 0%nat
  /\ optimizer_critic (final (run_discrete 2)) = 0%nat.
Proof.
  apply (@discrete_step_always_raises (torch no_fault)). reflexivity.
Defined.

(** C2: with a done flag at step 0, Q-retrace receives [[0; 1]; [1; 1]],
    which is [1 - done] and not its shift [[1; 1]; [0; 1]]. *)
Lemma mask_not_shifted_before_retrace :
  ~ shifted_before_retrace (config no_fault true 2 1 true)
      (batch no_fault true 2 2 1 done_first) (policy no_fault healthy).
Proof.
  intros H. unfold shifted_before_retrace in H.
  eassert (Hpre : data_preprocess_learn (config no_fault true 2 1 true)
                    (batch no_fault true 2 2 1 done_first) = inr _)
    by (vm_compute; reflexivity).
  eassert (Hin : In (QRetracesContinuous _ _ _ _ _ _)
                    (trace (run_learn (config no_fault true 2 1 true)
                              (batch no_fault true 2 2 1 done_first)
                              (policy no_fault healthy))))
    by in_trace.
  specialize (H _ _ _ _ _ _ _ Hpre Hin). vm_compute in H. discriminate H.
Qed.

Lemma mask_shift_applies_to_losses_only_witness :
  exists data,
    data_preprocess_learn (config no_fault true 2 1 true)
      (batch no_fault true 2 2 1 done_first) = inr data
    /\ (forall x w,
          In (Weighted x w)
             (trace (run_learn (config no_fault true 2 1 true)
                       (batch no_fault true 2 2 1 done_first)
                       (policy no_fault healthy))) ->
          w = shift_weights (one_minus (d_done data)))
    /\ (forall q v r w ratio g,
          In (QRetracesContinuous q v r w ratio g)
             (trace (run_learn (config no_fault true 2 1 true)
                       (batch no_fault true 2 2 1 done_first)
                       (policy no_fault healthy))) ->
          w = one_minus (d_done data))
    /\ shift_weights (one_minus (d_done data)) = [[1; 1]; [0; 1]]
    /\ one_minus (d_done data) = [[0; 1]; [1; 1]].
Proof.
  eexists. split; [vm_compute; reflexivity|].
  pose proof (@mask_shift_applies_to_losses_only (torch no_fault)
                (config no_fault true 2 1 true)
                (batch no_fault true 2 2 1 done_first)
                (policy no_fault healthy) _ eq_refl) as H.
  cbv zeta in H.
  split; [exact (proj1 (proj2 (proj2 (proj2 H))))|].
  split; [exact (proj1 H)|].
  split; vm_compute; reflexivity.
Defined.



(** C4: when the critic's value error raises, the actor optimizer has
    stepped and the critic optimizer has not. *)
Lemma step_is_not_atomic :
  ~ atomic_step (config (fault_at "acer_value_error_continuous") true 2 1 true)
      (batch (fault_at "acer_value_error_continuous") true 2 2 1 no_done_flags)
      (policy (fault_at "acer_value_error_continuous") healthy).
Proof.
  unfold atomic_step. vm_compute. intros H. discriminate H.
Qed.

Example actor_stepped_critic_not :
  let o := run_continuous (fault_at "acer_value_error_continuous") true
             no_done_flags healthy in
  result o = inl (RuntimeError "acer_value_error_continuous")
  /\ optimizer_actor (final o) = 1%nat
  /\ optimizer_critic (final o) = 0%nat.
Proof. vm_compute. repeat split. Qed.

(** C5 *)
Lemma loss_weights_first_row_and_no_done_witness :
  exists x w,
    In (Weighted x w)
       (trace (run_learn (config no_fault true 2 1 true)
                 (batch no_fault true 2 2 1 no_done_flags)
                 (policy no_fault healthy)))
    /\ all_ones w /\ entry w 0 0 = 1 /\ entry w 0 1 = 1.
Proof.
  eassert (Hin : In (Weighted _ _)
                    (trace (run_learn (config no_fault true 2 1 true)
                              (batch no_fault true 2 2 1 no_done_flags)
                              (policy no_fault healthy))))
    by in_trace.
  pose proof (@loss_weights_first_row_and_no_done (torch no_fault)
                (config no_fault true 2 1 true)
                (batch no_fault true 2 2 1 no_done_flags)
                (policy no_fault healthy) _ _ Hin) as H.
  do 2 eexists. split; [exact Hin|].
  split; [|split].
  - apply (proj1 H). repeat constructor.
  - apply (proj2 H). vm_compute. lia.
  - apply (proj2 H). vm_compute. lia.
Defined.

(** C6 *)
Lemma no_projection_without_trust_region_witness :
  exists t g,
    In (Backward t (Some g))
       (trace (run_learn (config no_fault true 2 1 false)
                 (batch no_fault true 2 2 1 no_done_flags)
                 (policy no_fault healthy)))
    /\ forallb (fun c => negb (is_trust_region c))
               (trace (run_learn (config no_fault true 2 1 false)
                         (batch no_fault true 2 2 1 no_done_flags)
                         (policy no_fault healthy)))
       = true.
Proof.
  eassert (Hin : In (Backward _ (Some _))
                    (trace (run_learn (config no_fault true 2 1 false)
                              (batch no_fault true 2 2 1 no_done_flags)
                              (policy no_fault healthy))))
    by in_trace.
  pose proof (@no_projection_without_trust_region (torch no_fault)
                (config no_fault true 2 1 false)
                (batch no_fault true 2 2 1 no_done_flags)
                (policy no_fault healthy) _ _ eq_refl Hin) as H.
  do 2 eexists. split; [exact Hin | exact (proj2 H)].
Defined.


(** C8: the test double of [Hidden] keeps gradients and the training flag
    out of its state dict, as torch does. *)
Lemma hidden_respect :
  @Respect Hidden.torch Hidden.sim Hidden.ready Hidden.simo.
Proof.
  constructor.
  - intros m1 m2 [Hn Ht] x. cbn. unfold Hidden.hcompute_actor.
    rewrite Hn, Ht. reflexivity.
  - intros m1 m2 [Hn Ht] x a. cbn. rewrite Hn. reflexivity.
  - intros m1 m2 [Hn Ht]. exact Hn.
  - intros w m1 m2 ->. split; reflexivity.
  - intros m1 m2 Hn. split; [exact Hn | reflexivity].
  - intros w o1 o2 m1 m2 _ [Hn Ht]. unfold Hidden.ready. cbn.
    cbn in Hn. rewrite Hn, Ht. reflexivity.
  - intros w t g m1 m2 ->. reflexivity.
  - intros w o1 o2 m1 m2 -> ->. cbn. split; split; reflexivity.
  - intros t1 t2 sd [Hn Ht]. cbn. split; cbn; [rewrite Hn|]; congruence.
  - intros w o1 o2 _. reflexivity.
  - intros w o1 o2 ->. reflexivity.
Qed.

(** The restored policy is not the saved one: its online model is in
    training mode and holds no gradient, so before [train()] the two answer
    differently. *)
Example restored_differs_from_saved :
  let loaded :=
    @load_state_dict_learn Hidden.torch
      (@state_dict_learn Hidden.torch Hidden.trained) Hidden.fresh [] in
  learn_model (final loaded) <> learn_model Hidden.trained
  /\ @compute_actor Hidden.torch (learn_model (final loaded)) (leaf "obs" [2%nat])
     <> @compute_actor Hidden.torch (learn_model Hidden.trained)
          (leaf "obs" [2%nat]).
Proof. split; vm_compute; intros H; discriminate H. Qed.

Lemma state_dict_round_trip_witness :
  let loaded :=
    @load_state_dict_learn Hidden.torch
      (@state_dict_learn Hidden.torch Hidden.trained) Hidden.fresh [] in
  result loaded = inr tt
  /\ learn_model (final loaded)
     = {| Hidden.net := bump (bump healthy); Hidden.grad_acc := 0%nat;
          Hidden.training := true |}
  /\ target_model (final loaded)
     = {| Hidden.net := bump healthy; Hidden.grad_acc := 0%nat;
          Hidden.training := true |}
  /\ optimizer_actor (final loaded) = 1%nat
  /\ optimizer_critic (final loaded) = 1%nat
  /\ state_dict_learn (final loaded) = state_dict_learn Hidden.trained
  /\ forall cfg batches,
       learn_steps cfg batches (final loaded)
       = learn_steps cfg batches Hidden.trained.
Proof.
  apply (@state_dict_round_trip Hidden.torch Hidden.sim Hidden.ready
           Hidden.simo Hidden.trained Hidden.fresh
           {| Hidden.net := bump (bump healthy); Hidden.grad_acc := 0%nat;
              Hidden.training := true |}
           {| Hidden.net := bump healthy; Hidden.grad_acc := 0%nat;
              Hidden.training := true |}
           1%nat 1%nat hidden_respect);
    first [reflexivity | split; reflexivity].
Defined.

(** Two learning steps of the restored and of the saved policy, the second
    on a batch with a done flag: both return, with the same metrics. *)
Example restored_policy_learns_alike :
  let loaded :=
    @load_state_dict_learn Hidden.torch
      (@state_dict_learn Hidden.torch Hidden.trained) Hidden.fresh [] in
  let batches := [Hidden.batch no_done_flags; Hidden.batch done_first] in
  map fst (learn_steps Hidden.config batches (final loaded))
  = map fst (learn_steps Hidden.config batches Hidden.trained)
  /\ exists m1 m2,
       map fst (learn_steps Hidden.config batches Hidden.trained)
       = [inr m1; inr m2].
Proof. split; [|do 2 eexists]; vm_compute; reflexivity. Qed.

(** C9 *)
Lemma metrics_keys_witness :
  exists m,
    result (run_continuous no_fault true no_done_flags healthy) = inr m
    /\ map fst m = metric_keys /\ NoDup (map fst m).
Proof.
  eexists. split; [vm_compute; reflexivity|].
  apply (@metrics_keys (torch no_fault)
           (config no_fault true 2 1 true)
           (batch no_fault true 2 2 1 no_done_flags)
           (policy no_fault healthy)).
  vm_compute. reflexivity.
Defined.

(** C10: with a done flag in the batch, [total_valid] is 3 of 4 steps. *)
Lemma total_valid_at_least_batch_size_witness :
  exists x tv,
    In (Normalised x tv)
       (trace (run_learn (config no_fault true 2 1 true)
                 (batch no_fault true 2 2 1 done_first)
                 (policy no_fault healthy)))
    /\ 2 <= tv /\ 0 < tv.
Proof.
  eassert (Hin : In (Normalised _ _)
                    (trace (run_learn (config no_fault true 2 1 true)
                              (batch no_fault true 2 2 1 done_first)
                              (policy no_fault healthy))))
    by in_trace.
  assert (HT : (1 <= unroll_len (config no_fault true 2 1 true))%nat)
    by (vm_compute; lia).
  assert (HB : (1 <= batch_size (config no_fault true 2 1 true)
                       (batch no_fault true 2 2 1 done_first))%nat)
    by (vm_compute; lia).
  pose proof (@total_valid_at_least_batch_size (torch no_fault)
                (config no_fault true 2 1 true)
                (batch no_fault true 2 2 1 done_first)
                (policy no_fault healthy) _ _ HT HB Hin) as H.
  do 2 eexists. split; [exact Hin | exact H].
Defined.

End Scenario.

Unset Implicit Arguments.

(** ** The order of the calls *)

Ltac order_leaf :=
  unfold order_inv, learn_calls, ret; use_flags; cbn;
  split; [eexists; reflexivity|];
  split;
  [ repeat (apply Forall_cons;
            [ first [exact I | reflexivity | split; [reflexivity | assumption]] |]);
    apply Forall_nil |];
  split;
  [ first [ intros _; first [left; reflexivity | right; reflexivity]
          | intros; congruence ]
  | first [ exact I
          | split; [reflexivity|];
            split;
            [ unfold metrics_ok; do 8 eexists; cbv zeta;
              split; [reflexivity|]; split; find_in
            | unfold three_draws; do 6 eexists;
              split; [reflexivity|];
              repeat (split; [eassumption|]); eassumption ] ] ].

Section Order.

Context {TH : Torch}.

Lemma order_inv_holds cfg batch p :
  order_inv cfg batch p (run_learn cfg batch p).
Proof.
  unfold run_learn, forward_learn.
  destruct (continuous_action_space cfg) eqn:Hc;
    destruct (use_trust_region cfg) eqn:Htr.
  all: repeat exec1.
  all: order_leaf.
Qed.

End Order.

(** ** Lookups in a dict *)

Lemma dict_get_present {V} (d : list (string * V)) (k : string) :
  In k (map fst d) -> exists v, dict_get d k = inr v.
Proof.
  induction d as [|[k' v'] d IH]; cbn; [tauto|].
  intros [-> | H].
  - rewrite String.eqb_refl. eexists. reflexivity.
  - destruct (String.eqb k' k); [eexists; reflexivity | auto].
Qed.

Lemma dict_get_missing {V} (d : list (string * V)) (k : string) :
  ~ In k (map fst d) -> dict_get d k = inl (KeyError k).
Proof.
  induction d as [|[k' v'] d IH]; cbn; [reflexivity|].
  intros H. destruct (String.eqb k' k) eqn:E.
  - apply String.eqb_eq in E. tauto.
  - apply IH. tauto.
Qed.

Lemma dict_get_key {V} (d : list (string * V)) (k : string) (v : V) :
  dict_get d k = inr v -> In k (map fst d).
Proof.
  induction d as [|[k' v'] d IH]; cbn; [discriminate|].
  destruct (String.eqb k' k) eqn:E.
  - apply String.eqb_eq in E. auto.
  - auto.
Qed.

(** ** Counting with the mask *)

Lemma sum_row_one_minus r :
  sum_row (map (fun x => 1 - x) r) = Z.of_nat (length r) - sum_row r.
Proof.
  induction r as [|a r IH]; [reflexivity|].
  unfold sum_row in *. cbn [map fold_right length]. rewrite IH. lia.
Qed.

Lemma mask_sum_one_minus n B d :
  has_shape n B d -> mask_sum (one_minus d) = Z.of_nat (n * B) - mask_sum d.
Proof.
  intros [Hl Hw]. revert n Hl.
  induction Hw as [|r d Hr _ IH]; intros n Hl; cbn in Hl; subst n.
  - reflexivity.
  - specialize (IH _ eq_refl). unfold mask_sum, one_minus in *.
    cbn [map fold_right]. rewrite sum_row_one_minus, IH, Hr.
    rewrite Nat.mul_succ_l. lia.
Qed.

Lemma drop_last_one_minus d : drop_last (one_minus d) = one_minus (drop_last d).
Proof.
  unfold drop_last, one_minus.
  induction d as [|a [|b l] IH]; [reflexivity | reflexivity |].
  cbn [map removelast] in *. now rewrite IH.
Qed.

Lemma drop_last_shape {A} T B (d : list (list A)) :
  has_shape T B d -> has_shape (T - 1) B (drop_last d).
Proof.
  intros [Hl Hw]. split.
  - rewrite length_drop_last. lia.
  - now apply Forall_drop_last.
Qed.

Lemma mask_sum_shift T B w :
  (1 <= T)%nat -> has_shape T B w ->
  mask_sum (shift_weights w) = Z.of_nat B + mask_sum (drop_last w).
Proof.
  intros HT [Hl Hw]. destruct w as [|r w]; [cbn in Hl; lia|].
  rewrite shift_weights_cons.
  assert (length r = B) as Hr by now inversion Hw.
  unfold mask_sum. cbn [fold_right]. now rewrite sum_row_ones, Hr.
Qed.

(** ** The reshaped done flags *)

Lemma nth_row_of {A} (w : nat) (xs : list A) (i b : nat) (d : A) :
  (b < w)%nat -> nth b (row_of w xs i) d = nth (i * w + b) xs d.
Proof.
  intros Hb. unfold row_of. rewrite nth_firstn.
  apply Nat.ltb_lt in Hb. rewrite Hb. apply nth_skipn.
Qed.

Lemma reshape_rows_entry {A} (T : nat) (xs : list A) rows t b (d : A) :
  reshape_rows T xs = inr rows ->
  (t < T)%nat -> (b < length xs / T)%nat ->
  nth b (nth t rows []) d = nth (t * (length xs / T) + b) xs d.
Proof.
  unfold reshape_rows.
  destruct (T =? 0)%nat; [discriminate|].
  destruct (length xs mod T =? 0)%nat; [|discriminate].
  intros H Ht Hb. injection H as <-.
  rewrite (nth_indep _ [] (row_of (length xs / T) xs 0))
    by (rewrite length_map, length_seq; exact Ht).
  rewrite (map_nth (row_of (length xs / T) xs)), seq_nth by exact Ht.
  now apply nth_row_of.
Qed.

Lemma reshape_rows_length {A} (T : nat) (xs : list A) rows :
  reshape_rows T xs = inr rows -> length xs = (T * (length xs / T))%nat.
Proof.
  unfold reshape_rows.
  destruct (T =? 0)%nat eqn:HT; [discriminate|].
  destruct (length xs mod T =? 0)%nat eqn:Hm; [|discriminate].
  intros _. apply Nat.eqb_neq in HT. apply Nat.eqb_eq in Hm.
  pose proof (Nat.div_mod (length xs) T HT) as Hd. lia.
Qed.

Lemma preprocess_done_entry T done d t b :
  preprocess_done T done = inr d ->
  (t < T)%nat -> (b < length (concat done) / T)%nat ->
  entry d t b
  = float_of_bool (nth (t * (length (concat done) / T) + b) (concat done) false).
Proof.
  unfold preprocess_done, cat_done.
  destruct done as [|x xs]; [discriminate|]. cbn [rbind ok].
  destruct (reshape_rows T (concat (x :: xs))) as [e|rows] eqn:Hr; [discriminate|].
  cbn [rbind ok]. intros H Ht Hb. injection H as <-.
  pose proof (reshape_rows_shape _ _ _ Hr) as [Hl Hw].
  unfold entry.
  rewrite (nth_indep _ [] (map float_of_bool []))
    by (rewrite length_map; lia).
  rewrite (map_nth (map float_of_bool)).
  assert (length (nth t rows []) = (length (concat (x :: xs)) / T)%nat) as Hrow.
  { rewrite Forall_forall in Hw. apply Hw, nth_In. lia. }
  rewrite (nth_indep _ 0 (float_of_bool false))
    by (rewrite length_map; lia).
  rewrite (map_nth float_of_bool).
  f_equal. now apply reshape_rows_entry.
Qed.

Lemma preprocess_done_length T done d :
  preprocess_done T done = inr d ->
  done <> [] /\ length (concat done) = (T * (length (concat done) / T))%nat.
Proof.
  unfold preprocess_done, cat_done.
  destruct done as [|x xs]; [discriminate|]. cbn [rbind ok].
  destruct (reshape_rows T (concat (x :: xs))) as [e|rows] eqn:Hr; [discriminate|].
  intros _. split; [discriminate|]. now apply reshape_rows_length in Hr.
Qed.

Section Preprocessing.

Context {TH : Torch}.

(** X1.  When preprocessing accepts a batch, the unroll length [T] is at
    least 1, the number of done flags is [T * B] for the inferred batch size
    [B], and [data['done']] is the [T] x [B] float tensor whose entry
    [(t, b)] is done flag number [t * B + b] of the concatenated flags. *)
Theorem preprocessed_done_entries cfg batch data :
  data_preprocess_learn cfg batch = inr data ->
  (1 <= unroll_len cfg)%nat
  /\ length (concat (b_done batch))
     = (unroll_len cfg * batch_size cfg batch)%nat
  /\ has_shape (unroll_len cfg) (batch_size cfg batch) (d_done data)
  /\ forall t b,
       (t < unroll_len cfg)%nat -> (b < batch_size cfg batch)%nat ->
       entry (d_done data) t b
       = float_of_bool
           (nth (t * batch_size cfg batch + b) (concat (b_done batch)) false).
Proof.
  intros H. destruct (done_shape cfg batch data H) as (Hs & _ & HT).
  apply data_preprocess_done in H.
  split; [exact HT|]. split; [|split; [exact Hs|]].
  - exact (proj2 (preprocess_done_length _ _ _ H)).
  - intros t b Ht Hb. now apply preprocess_done_entry.
Qed.

(** X2.  A batch whose done flags cannot be reshaped to [(T, -1)] (the
    unroll length is 0, there is no flag list at all, or the number of flags
    is not a multiple of the unroll length) makes the learning step raise
    during preprocessing: no collaborator of the update is called and the
    policy is left exactly as it was. *)
Theorem unshapeable_done_leaves_policy cfg batch p :
  unroll_len cfg = 0%nat \/ b_done batch = []
  \/ (length (concat (b_done batch)) mod unroll_len cfg <> 0)%nat ->
  exists e,
    run_learn cfg batch p = {| final := p; trace := []; result := inl e |}.
Proof.
  intros H. destruct (data_preprocess_learn cfg batch) as [e|data] eqn:E.
  - exists e. unfold run_learn, forward_learn. cbv zeta.
    rewrite bind_lift, E. reflexivity.
  - exfalso. apply data_preprocess_done in E.
    pose proof (preprocess_done_positive _ _ _ E) as HT.
    destruct (preprocess_done_length _ _ _ E) as [Hne Hlen].
    destruct H as [H | [H | H]]; [lia | contradiction |].
    apply H. rewrite Hlen, Nat.mul_comm. apply Nat.Div0.mod_mul.
Qed.

(** X3.  The normaliser [total_valid] of every loss and metric is the
    number [T * B] of steps of the batch minus the number of done flags set
    at the steps [0 .. T-2]; it never exceeds [T * B], and the done flags of
    the last step do not enter it. *)
Theorem total_valid_counts_done_flags cfg batch p data x tv :
  data_preprocess_learn cfg batch = inr data ->
  In (Normalised x tv) (trace (run_learn cfg batch p)) ->
  tv = Z.of_nat (unroll_len cfg * batch_size cfg batch)
       - mask_sum (drop_last (d_done data))
  /\ 0 <= mask_sum (drop_last (d_done data))
  /\ tv <= Z.of_nat (unroll_len cfg * batch_size cfg batch).
Proof.
  intros Hpre Hin.
  pose proof (run_calls_ok cfg batch p data Hpre) as Hall.
  rewrite Forall_forall in Hall. destruct (Hall _ Hin) as (Hm & _).
  cbn in Hm. subst tv.
  destruct (done_shape cfg batch data Hpre) as (Hs & Hf & HT).
  rewrite (mask_sum_shift _ _ _ HT (one_minus_shape _ _ _ Hs)).
  rewrite drop_last_one_minus.
  rewrite (mask_sum_one_minus _ _ _ (drop_last_shape _ _ _ Hs)).
  assert (0 <= mask_sum (drop_last (d_done data))) as H0
    by (apply mask_sum_nonneg; now apply Forall_drop_last).
  assert (Z.of_nat (unroll_len cfg * batch_size cfg batch)
          = Z.of_nat (batch_size cfg batch)
            + Z.of_nat ((unroll_len cfg - 1) * batch_size cfg batch)) as Hmul.
  { rewrite <- Nat2Z.inj_add. f_equal.
    destruct (unroll_len cfg) as [|n]; [lia|].
    cbn [Nat.sub]. rewrite Nat.sub_0_r. cbn [Nat.mul]. reflexivity. }
  lia.
Qed.

End Preprocessing.

(** ** What follows from the order of the calls *)

Lemma call_name_in {TH : Torch} (n : string) (tr : list Call) :
  In n (map call_name tr) -> exists c, In c tr /\ call_name c = n.
Proof.
  intros H. apply in_map_iff in H. destruct H as (c & Hc & Hin). eauto.
Qed.

Lemma steps_in {TH : Torch} (o : which) (tr : list Call) :
  In o (steps tr) <-> In (Step o) tr.
Proof.
  unfold steps. rewrite in_flat_map. split.
  - intros (c & Hc & Hin). destruct c; cbn in Hin; try contradiction.
    destruct Hin as [-> | []]. exact Hc.
  - intros H. exists (Step o). split; [exact H | left; reflexivity].
Qed.

(** In a list in which [a] occurs once, what precedes [a] is fixed. *)
Lemma before_pivot {A} (a : A) (x1 x2 y1 y2 : list A) :
  x1 ++ a :: x2 = y1 ++ a :: y2 -> ~ In a x1 -> ~ In a x2 -> y1 = x1.
Proof.
  intros H H1 H2.
  destruct (app_inj_pivot _ _ _ _ _ H) as [[[? _] | [? _]] | [? _]];
    [contradiction | contradiction | congruence].
Qed.

(** The constructor behind a call name. *)
Ltac name_inv H c :=
  destruct c; cbn in H; try discriminate H;
  repeat match type of H with
         | context [match ?x with _ => _ end] =>
             destruct x; cbn in H; try discriminate H
         end.

(** Cut [learn_calls] at position [n]. *)
Ltac cut_at n :=
  cbn;
  match goal with
  | |- exists x1 x2, ?L = _ /\ _ => exists (firstn n L), (skipn (S n) L)
  end;
  cbn; repeat split;
  first [ reflexivity
        | solve [intuition discriminate]
        | solve [repeat (first [left; reflexivity | right])] ].

Section Order2.

Context {TH : Torch}.

(** The names of the calls before a call of a run, when that call's name
    occurs once in [learn_calls]. *)
Lemma names_before cfg batch p tr1 c tr2 x1 x2 :
  trace (run_learn cfg batch p) = tr1 ++ c :: tr2 ->
  learn_calls cfg = x1 ++ call_name c :: x2 ->
  ~ In (call_name c) x1 -> ~ In (call_name c) x2 ->
  map call_name tr1 = x1.
Proof.
  intros Htr HL H1 H2.
  destruct (order_inv_holds cfg batch p) as ((rest & Hp) & _).
  rewrite Htr, map_app, <- app_assoc in Hp. cbn [map app] in Hp.
  rewrite HL in Hp. exact (before_pivot _ _ _ _ _ Hp H1 H2).
Qed.

Lemma before_actor_step cfg batch p tr1 tr2 :
  trace (run_learn cfg batch p) = tr1 ++ Step Actor :: tr2 ->
  (exists q v r w ratio g, In (QRetracesContinuous q v r w ratio g) tr1)
  /\ In (ZeroGrad Actor) tr1
  /\ (exists out inp g, In (AutogradGrad out inp g) tr1)
  /\ (exists t g, In (Backward t (Some g)) tr1).
Proof.
  intros Htr.
  assert (exists x1 x2,
             learn_calls cfg = x1 ++ call_name (Step Actor) :: x2
             /\ ~ In (call_name (Step Actor)) x1
             /\ ~ In (call_name (Step Actor)) x2
             /\ In "compute_q_retraces_continuous" x1
             /\ In "optimizer_actor.zero_grad" x1
             /\ In "autograd.grad" x1
             /\ In "target_pi.backward" x1)
    as (x1 & x2 & HL & H1 & H2 & Hq & Hz & Hg & Hb).
  { unfold learn_calls. destruct (use_trust_region cfg); [cut_at 15%nat | cut_at 14%nat]. }
  rewrite <- (names_before _ _ _ _ _ _ _ _ Htr HL H1 H2) in Hq, Hz, Hg, Hb.
  apply call_name_in in Hq, Hz, Hg, Hb.
  destruct Hq as (cq & Hq & Eq). destruct Hz as (cz & Hz & Ez).
  destruct Hg as (cg & Hg & Eg). destruct Hb as (cb & Hb & Eb).
  name_inv Eq cq. name_inv Ez cz. name_inv Eg cg. name_inv Eb cb.
  repeat split; eauto 10.
Qed.

Lemma before_critic_step cfg batch p tr1 tr2 :
  trace (run_learn cfg batch p) = tr1 ++ Step Critic :: tr2 ->
  In (Step Actor) tr1
  /\ In (ZeroGrad Critic) tr1
  /\ (exists t, In (Backward t None) tr1).
Proof.
  intros Htr.
  assert (exists x1 x2,
             learn_calls cfg = x1 ++ call_name (Step Critic) :: x2
             /\ ~ In (call_name (Step Critic)) x1
             /\ ~ In (call_name (Step Critic)) x2
             /\ In "optimizer_actor.step" x1
             /\ In "optimizer_critic.zero_grad" x1
             /\ In "critic_loss.backward" x1)
    as (x1 & x2 & HL & H1 & H2 & Hs & Hz & Hb).
  { unfold learn_calls. destruct (use_trust_region cfg); [cut_at 21%nat | cut_at 20%nat]. }
  rewrite <- (names_before _ _ _ _ _ _ _ _ Htr HL H1 H2) in Hs, Hz, Hb.
  apply call_name_in in Hs, Hz, Hb.
  destruct Hs as (cs & Hs & Es). destruct Hz as (cz & Hz & Ez).
  destruct Hb as (cb & Hb & Eb).
  name_inv Es cs. name_inv Ez cz. name_inv Eb cb.
  repeat split; eauto.
Qed.

Lemma before_target_update cfg batch p tr1 tr2 :
  trace (run_learn cfg batch p) = tr1 ++ TargetUpdate :: tr2 ->
  In (Step Critic) tr1 /\ ~ In TargetUpdate tr1.
Proof.
  intros Htr.
  assert (exists x1 x2,
             learn_calls cfg = x1 ++ call_name TargetUpdate :: x2
             /\ ~ In (call_name TargetUpdate) x1
             /\ ~ In (call_name TargetUpdate) x2
             /\ In "optimizer_critic.step" x1)
    as (x1 & x2 & HL & H1 & H2 & Hs).
  { unfold learn_calls. destruct (use_trust_region cfg); [cut_at 22%nat | cut_at 21%nat]. }
  pose proof (names_before _ _ _ _ _ _ _ _ Htr HL H1 H2) as Hn.
  rewrite <- Hn in Hs, H1.
  apply call_name_in in Hs. destruct Hs as (cs & Hs & Es). name_inv Es cs.
  split; [exact Hs|]. intros Hin. apply H1.
  apply in_map_iff. exists TargetUpdate. auto.
Qed.

(** X4.  The collaborator calls of a learning step with continuous actions
    come in one fixed order (three distributions, Q-retrace, Q-opc, actor
    loss, the entropy distribution, the masked reductions, the actor update,
    the critic loss and update, the target update, the metrics): a step that
    returns has made exactly the calls of [learn_calls], and a step that
    raises has made an initial part of them. *)
Theorem calls_of_a_learning_step cfg batch p :
  (exists rest,
      learn_calls cfg = map call_name (trace (run_learn cfg batch p)) ++ rest)
  /\ (forall m, result (run_learn cfg batch p) = inr m ->
        map call_name (trace (run_learn cfg batch p)) = learn_calls cfg).
Proof.
  destruct (order_inv_holds cfg batch p) as (Hp & _ & _ & Hr).
  split; [exact Hp|]. intros m Hm. rewrite Hm in Hr. apply Hr.
Qed.

(** X5.  In every run, an optimizer steps only on gradients of this run:
    before the actor optimizer's step come its [zero_grad], the
    [autograd.grad] call and [target_pi.backward]; before the critic
    optimizer's step come the actor's step, the critic's [zero_grad] and
    [critic_loss.backward]; and the target model is updated at most once,
    after the critic's step. *)
Theorem updates_follow_their_gradients cfg batch p :
  (forall tr1 tr2,
      trace (run_learn cfg batch p) = tr1 ++ Step Actor :: tr2 ->
      In (ZeroGrad Actor) tr1
      /\ (exists out inp g, In (AutogradGrad out inp g) tr1)
      /\ (exists t g, In (Backward t (Some g)) tr1))
  /\ (forall tr1 tr2,
      trace (run_learn cfg batch p) = tr1 ++ Step Critic :: tr2 ->
      In (Step Actor) tr1
      /\ In (ZeroGrad Critic) tr1
      /\ (exists t, In (Backward t None) tr1))
  /\ (forall tr1 tr2,
      trace (run_learn cfg batch p) = tr1 ++ TargetUpdate :: tr2 ->
      In (Step Critic) tr1 /\ ~ In TargetUpdate tr1).
Proof.
  split; [|split].
  - intros tr1 tr2 H. apply (before_actor_step _ _ _ _ _ H).
  - intros tr1 tr2 H. exact (before_critic_step _ _ _ _ _ H).
  - intros tr1 tr2 H. exact (before_target_update _ _ _ _ _ H).
Qed.

(** X6.  With an action dimension of 0 no learning step updates anything:
    the step raises (line 339 divides by the action dimension before the
    first Q-retrace call), no optimizer steps, and both optimizers are as
    before. *)
Theorem zero_action_dimension_never_updates cfg batch p :
  action_shape cfg = 0%nat ->
  (exists e, result (run_learn cfg batch p) = inl e)
  /\ steps (trace (run_learn cfg batch p)) = []
  /\ optimizer_actor (final (run_learn cfg batch p)) = optimizer_actor p
  /\ optimizer_critic (final (run_learn cfg batch p)) = optimizer_critic p.
Proof.
  intros HN.
  assert (~ In (Step Actor) (trace (run_learn cfg batch p))) as Hno.
  { intros Hin. destruct (in_split _ _ Hin) as (tr1 & tr2 & Htr).
    destruct (before_actor_step _ _ _ _ _ Htr)
      as ((q & v & r & w & ratio & g & Hq) & _).
    assert (In (QRetracesContinuous q v r w ratio g)
               (trace (run_learn cfg batch p))) as Hq'
      by (rewrite Htr; apply in_or_app; left; exact Hq).
    destruct (run_call_ok cfg batch p _ Hq') as (data & _ & _ & Hr & _).
    cbn in Hr. destruct Hr as (_ & _ & _ & Hne). contradiction. }
  destruct (run_control cfg batch p) as (Ha & Hc & _ & _ & Hr).
  assert (steps (trace (run_learn cfg batch p)) = []) as Hs.
  { rewrite <- steps_in in Hno.
    destruct (result (run_learn cfg batch p)) as [e|m].
    - destruct Hr as [[H | [H | H]] _]; [exact H | | ];
        rewrite H in Hno; exfalso; apply Hno; left; reflexivity.
    - destruct Hr as (H & _). rewrite H in Hno.
      exfalso; apply Hno; left; reflexivity. }
  split; [|split; [exact Hs|]].
  - destruct (result (run_learn cfg batch p)) as [e|m]; [eauto|].
    destruct Hr as (H & _). rewrite H in Hs. discriminate Hs.
  - rewrite Hs in Ha, Hc. split; [apply Ha | apply Hc]; intros [].
Qed.

(** X7.  The metrics of a returning step fit together: the reported
    [total_actor_loss] is the normalised sum of the same three masked
    tensors whose separately normalised sums are reported as [actor_loss],
    [bc_loss] and [entropy_loss] (the entropy term scaled by the entropy
    weight), it is the tensor whose negation [autograd.grad] differentiated,
    the reported [critic_loss] is the tensor that was backpropagated, and the
    two learning rates are read from the optimizers as the step leaves
    them. *)
Theorem reported_losses_fit_together cfg batch p m :
  result (run_learn cfg batch p) = inr m ->
  exists actor_loss bc_loss entropy_loss critic_loss kl_div tv target_pi g,
    let total := tadd (tadd actor_loss bc_loss)
                      (scale (entropy_weight cfg) entropy_loss) in
    m = [("cur_actor_lr", lr (optimizer_actor (final (run_learn cfg batch p))));
         ("cur_critic_lr", lr (optimizer_critic (final (run_learn cfg batch p))));
         ("actor_loss", item (sum_div actor_loss tv));
         ("bc_loss", item (sum_div bc_loss tv));
         ("entropy_loss", item (sum_div entropy_loss tv));
         ("total_actor_loss", item (sum_div total tv));
         ("critic_loss", item (sum_div critic_loss tv));
         ("kl_div", item (sum_div kl_div tv))]
    /\ In (AutogradGrad (neg (sum_div total tv)) target_pi g)
          (trace (run_learn cfg batch p))
    /\ In (Backward (sum_div critic_loss tv) None)
          (trace (run_learn cfg batch p)).
Proof.
  intros Hm. destruct (order_inv_holds cfg batch p) as (_ & _ & _ & Hr).
  rewrite Hm in Hr. exact (proj1 (proj2 Hr)).
Qed.

(** X8.  A returning step has drawn from torch's random generator exactly
    three times: from the target distribution, which is built from the
    online model's output on the batch; from the average distribution,
    built from the target model's output; and from the target distribution
    again. *)
Theorem returning_step_draws_three_samples cfg batch p m :
  result (run_learn cfg batch p) = inr m ->
  exists data action_data avg_action_data rc target_dist avg_dist,
    torch_rng (final (run_learn cfg batch p))
    = snd (sample target_dist
             (snd (sample avg_dist
                     (snd (sample target_dist (torch_rng p))))))
    /\ Normal (rc_target_mu rc) (rc_target_sigma rc) = inr target_dist
    /\ Normal (rc_avg_action_mu rc) (rc_avg_action_sigma rc) = inr avg_dist
    /\ reshape_data_continuous cfg action_data avg_action_data data = inr rc
    /\ compute_actor (train (learn_model p)) (d_obs_plus_1 data)
       = inr action_data
    /\ compute_actor (target_model p) (d_obs_plus_1 data) = inr avg_action_data
    /\ data_preprocess_learn cfg batch = inr data.
Proof.
  intros Hm. destruct (order_inv_holds cfg batch p) as (_ & _ & _ & Hr).
  rewrite Hm in Hr. exact (proj2 (proj2 Hr)).
Qed.

(** X9.  A learning step with a discrete action space makes no
    state-changing call but [learn_model.train()]: the target model, the
    three optimizers and the random generator are as before (a forward pass
    is taken not to change the network). *)
Theorem discrete_step_changes_train_mode_only cfg batch p :
  continuous_action_space cfg = false ->
  (learn_model (final (run_learn cfg batch p)) = learn_model p
   \/ learn_model (final (run_learn cfg batch p)) = train (learn_model p))
  /\ target_model (final (run_learn cfg batch p)) = target_model p
  /\ optimizer_actor (final (run_learn cfg batch p)) = optimizer_actor p
  /\ optimizer_critic (final (run_learn cfg batch p)) = optimizer_critic p
  /\ optimizer_critic_v (final (run_learn cfg batch p)) = optimizer_critic_v p
  /\ torch_rng (final (run_learn cfg batch p)) = torch_rng p.
Proof.
  intros Hd. destruct (order_inv_holds cfg batch p) as (_ & _ & Hf & _).
  destruct (Hf Hd) as [-> | ->]; cbn; auto 10.
Qed.

End Order2.

Section Hyper.

Context {TH : Torch}.

(** X10.  With the trust region enabled, the gradient handed to
    [target_pi.backward] is what [acer_trust_region_update] returned for the
    raw [autograd.grad] gradient of the negated total actor loss, the same
    [target_pi], and the configured [trust_region_value]. *)
Theorem trust_region_projects_the_gradient cfg batch p t g :
  use_trust_region cfg = true ->
  In (Backward t (Some g)) (trace (run_learn cfg batch p)) ->
  exists actor_loss bc_loss entropy_loss total_valid g0 avg_pi,
    let x := tadd (tadd actor_loss bc_loss)
                  (scale (entropy_weight cfg) entropy_loss) in
    In (Normalised x total_valid) (trace (run_learn cfg batch p))
    /\ autograd_grad (neg (sum_div x total_valid)) t = inr g0
    /\ acer_trust_region_update g0 t avg_pi (trust_region_value cfg) = inr g.
Proof.
  intros Htr Hin.
  destruct (run_call_ok cfg batch p _ Hin) as (data & Hpre & _ & _ & Hg).
  pose proof (run_calls_ok cfg batch p data Hpre) as Hall.
  rewrite Forall_forall in Hall.
  destruct (order_inv_holds cfg batch p) as (_ & Hh & _).
  rewrite Forall_forall in Hh.
  cbn in Hg. rewrite Htr in Hg.
  destruct Hg as (al & bl & el & tv & Hn & g0 & avg & v & Ha & Ht).
  exists al, bl, el, tv, g0, avg. cbv zeta. split; [exact Hn|]. split.
  - destruct (Hall _ Ha) as (_ & _ & Hg'). exact Hg'.
  - destruct (Hh _ Ht) as [-> Hres]. exact Hres.
Qed.

(** X11.  The configured numbers reach the losses: every Q-retrace and
    Q-opc call of a run receives the discount factor of the configuration,
    and every actor-loss call its clip ratio [c_clip_ratio]. *)
Theorem configured_numbers_reach_the_losses cfg batch p :
  (forall q v r w ratio g,
      In (QRetracesContinuous q v r w ratio g) (trace (run_learn cfg batch p)) ->
      g = gamma cfg)
  /\ (forall q v r a w g,
      In (QOpc q v r a w g) (trace (run_learn cfg batch p)) -> g = gamma cfg)
  /\ (forall qp qo v tp tpp ratio rp c,
      In (PolicyErrorContinuous qp qo v tp tpp ratio rp c)
         (trace (run_learn cfg batch p)) ->
      c = c_clip_ratio cfg).
Proof.
  destruct (order_inv_holds cfg batch p) as (_ & Hh & _).
  rewrite Forall_forall in Hh.
  repeat split; intros; apply (Hh _ H).
Qed.

End Hyper.

(** ** The batch weight, the state dict and the third optimizer *)

Section Unused.

Context {TH : Torch}.

(** What preprocessing returns does not depend on the batch's [weight]
    but in the [weight] entry. *)
Lemma data_preprocess_weight cfg b1 b2 d1 d2 :
  b_obs b1 = b_obs b2 -> b_next_obs b1 = b_next_obs b2 ->
  b_logit b1 = b_logit b2 -> b_action b1 = b_action b2 ->
  b_reward b1 = b_reward b2 -> b_done b1 = b_done b2 ->
  data_preprocess_learn cfg b1 = inr d1 ->
  data_preprocess_learn cfg b2 = inr d2 ->
  d_obs_plus_1 d1 = d_obs_plus_1 d2 /\ d_action d1 = d_action d2
  /\ d_done d1 = d_done d2 /\ d_reward d1 = d_reward d2
  /\ d_logit d1 = d_logit d2 /\ d_logit_mu d1 = d_logit_mu d2
  /\ d_logit_sigma d1 = d_logit_sigma d2.
Proof.
  intros Ho Hn Hl Ha Hr Hd.
  unfold data_preprocess_learn. rewrite Ho, Hn, Hl, Ha, Hr, Hd.
  unfold rbind, ok.
  repeat match goal with
         | |- context [match ?x with _ => _ end] => destruct x
         end; try discriminate.
  all: intros H1 H2; injection H1 as <-; injection H2 as <-; cbn; auto 10.
Qed.

(** X12.  The learning step ignores the per-sample [weight] of a batch: two
    batches that differ in nothing but [weight], and that preprocessing
    accepts, give the same metrics or error, the same collaborator calls and
    the same policy state. *)
Theorem batch_weight_is_ignored cfg b1 b2 p d1 d2 :
  b_obs b1 = b_obs b2 -> b_next_obs b1 = b_next_obs b2 ->
  b_logit b1 = b_logit b2 -> b_action b1 = b_action b2 ->
  b_reward b1 = b_reward b2 -> b_done b1 = b_done b2 ->
  data_preprocess_learn cfg b1 = inr d1 ->
  data_preprocess_learn cfg b2 = inr d2 ->
  run_learn cfg b1 p = run_learn cfg b2 p.
Proof.
  intros Ho Hn Hl Ha Hr Hd H1 H2.
  pose proof (data_preprocess_weight _ _ _ _ _ Ho Hn Hl Ha Hr Hd H1 H2) as He.
  unfold run_learn, forward_learn. cbv zeta.
  rewrite !bind_lift, H1, H2.
  destruct d1, d2. cbn in He.
  destruct He as (-> & -> & -> & -> & -> & -> & ->).
  reflexivity.
Qed.

(** X13.  The third optimizer, [_optimizer_critic_v], is created and never
    used again: no learning step changes it, [_load_state_dict_learn] does
    not restore it whatever the dict holds, and [_state_dict_learn] does not
    save it. *)
Theorem critic_v_optimizer_is_never_used cfg batch sd p tr o :
  optimizer_critic_v (final (run_learn cfg batch p)) = optimizer_critic_v p
  /\ optimizer_critic_v (final (load_state_dict_learn sd p tr))
     = optimizer_critic_v p
  /\ state_dict_learn
       {| learn_model := learn_model p; target_model := target_model p;
          optimizer_actor := optimizer_actor p;
          optimizer_critic := optimizer_critic p;
          optimizer_critic_v := o; torch_rng := torch_rng p |}
     = state_dict_learn p.
Proof.
  split; [|split].
  - apply (run_control cfg batch p).
  - set (Q := fun o : Outcome unit =>
                optimizer_critic_v (final o) = optimizer_critic_v p).
    change (Q (load_state_dict_learn sd p tr)).
    unfold load_state_dict_learn.
    repeat first [ rewrite bind_lift | rewrite bind_gets | rewrite bind_put
                 | destruct_head_match | progress cbv beta ].
    all: subst Q; cbv beta; unfold put; cbn; reflexivity.
  - reflexivity.
Qed.

(** X14.  [_load_state_dict_learn] is not atomic.  With a dict that holds a
    loadable model, target model and actor optimizer but no
    ['critic_optimizer'] entry, it raises [KeyError] after it has replaced
    the online model, the target model and the actor optimizer; the critic
    optimizer is as before. *)
Theorem load_state_dict_stops_at_missing_key sd p tr s1 s2 s3 m1 m2 o3 :
  dict_get sd "model" = inr (ModelSD s1) ->
  dict_get sd "target_model" = inr (ModelSD s2) ->
  dict_get sd "actor_optimizer" = inr (OptSD s3) ->
  ~ In "critic_optimizer" (map fst sd) ->
  load_state_dict (learn_model p) s1 = inr m1 ->
  load_state_dict (target_model p) s2 = inr m2 ->
  opt_load_state_dict (optimizer_actor p) s3 = inr o3 ->
  result (load_state_dict_learn sd p tr) = inl (KeyError "critic_optimizer")
  /\ learn_model (final (load_state_dict_learn sd p tr)) = m1
  /\ target_model (final (load_state_dict_learn sd p tr)) = m2
  /\ optimizer_actor (final (load_state_dict_learn sd p tr)) = o3
  /\ optimizer_critic (final (load_state_dict_learn sd p tr)) = optimizer_critic p.
Proof.
  intros H1 H2 H3 H4 L1 L2 L3. apply dict_get_missing in H4.
  unfold load_state_dict_learn.
  rewrite bind_lift, H1, bind_gets. cbn [model_load]. rewrite bind_lift, L1.
  rewrite bind_gets, bind_put, bind_lift, H2, bind_gets.
  cbn [model_load target_model set_learn_model]. rewrite bind_lift, L2.
  rewrite bind_gets, bind_put, bind_lift, H3, bind_gets.
  cbn [opt_load optimizer_actor set_learn_model set_target_model].
  rewrite bind_lift, L3.
  rewrite bind_gets, bind_put, bind_lift, H4.
  cbn. auto.
Qed.


End Unused.

(** ** Transitions *)

Section TransitionFacts.

Variables obs_t out_t reward_t done_t : Type.

(** X16.  [_process_transition] needs exactly the keys ['logit'] and
    ['action'] of the policy output: without ['logit'] it raises
    [KeyError('logit')], with ['logit'] but without ['action'] it raises
    [KeyError('action')], and otherwise it returns the six-key transition
    that holds the observation, the next observation of the timestep, the
    two entries of the policy output, the reward and the done flag; any other
    entry of the policy output is dropped. *)
Theorem process_transition_keys (obs : obs_t) (po : list (string * out_t))
    (ts : Timestep obs_t reward_t done_t) :
  (~ In "logit" (map fst po) ->
   process_transition obs po ts = inl (KeyError "logit"))
  /\ (In "logit" (map fst po) -> ~ In "action" (map fst po) ->
      process_transition obs po ts = inl (KeyError "action"))
  /\ (In "logit" (map fst po) -> In "action" (map fst po) ->
      exists logit action,
        dict_get po "logit" = inr logit /\ dict_get po "action" = inr action
        /\ process_transition (done_t := done_t) obs po ts
           = inr [("obs", TObs _ _ _ obs);
                  ("next_obs", TObs _ _ _ (ts_obs ts));
                  ("logit", TOut _ _ _ logit);
                  ("action", TOut _ _ _ action);
                  ("reward", TReward _ _ _ (ts_reward ts));
                  ("done", TDone _ _ _ (ts_done ts))]).
Proof.
  unfold process_transition. cbv zeta. split; [|split].
  - intros H. now rewrite (dict_get_missing _ _ H).
  - intros Hl Ha. destruct (dict_get_present _ _ Hl) as (l & ->).
    now rewrite (dict_get_missing _ _ Ha).
  - intros Hl Ha. destruct (dict_get_present _ _ Hl) as (l & El).
    destruct (dict_get_present _ _ Ha) as (a & Ea).
    exists l, a. rewrite El, Ea. auto.
Qed.

End TransitionFacts.

(** ** Collecting and evaluating *)

Lemma dict_set_fresh {V} (d : list (Z * V)) (k : Z) (v : V) :
  ~ In k (map fst d) -> dict_set d k v = d ++ [(k, v)].
Proof.
  induction d as [|[k' v'] d IH]; cbn; [reflexivity|].
  intros H. destruct (Z.eqb_spec k' k) as [->|_]; [tauto|].
  rewrite IH by tauto. reflexivity.
Qed.

Lemma dict_comprehension_acc {V} (l acc : list (Z * V)) :
  NoDup (map fst (acc ++ l)) ->
  fold_left (fun d kv => dict_set d (fst kv) (snd kv)) l acc = acc ++ l.
Proof.
  revert acc. induction l as [|[k v] l IH]; intros acc H; cbn.
  - now rewrite app_nil_r.
  - assert (~ In k (map fst acc)) as Hk.
    { rewrite map_app in H. cbn in H. apply NoDup_remove_2 in H.
      intros Hin. apply H. apply in_or_app. auto. }
    rewrite (dict_set_fresh _ _ _ Hk).
    rewrite IH; rewrite <- app_assoc; [reflexivity | exact H].
Qed.

(** A comprehension over pairs with distinct keys keeps the pairs. *)
Lemma dict_comprehension_nodup {V} (l : list (Z * V)) :
  NoDup (map fst l) -> dict_comprehension l = l.
Proof. intros H. exact (dict_comprehension_acc l [] H). Qed.

Lemma map_fst_combine {A B} (l : list A) (l' : list B) :
  map fst (combine l l') = firstn (length l') l.
Proof.
  revert l'. induction l as [|a l IH]; intros [|b l']; cbn; auto.
  now rewrite IH.
Qed.

Lemma NoDup_firstn {A} (n : nat) (l : list A) : NoDup l -> NoDup (firstn n l).
Proof.
  revert n. induction l as [|a l IH]; intros [|n] H; cbn; try constructor.
  - inversion H; subst. intros Hin. apply H2.
    rewrite <- (firstn_skipn n l). apply in_or_app. auto.
  - apply IH. now inversion H.
Qed.

Lemma zip_ids {A B} (ids : list Z) (data : list A) (outs : list B) :
  NoDup ids ->
  dict_comprehension (combine ids outs) = combine ids outs
  /\ map fst (combine ids outs) = firstn (length outs) ids.
Proof.
  intros H. split; [|apply map_fst_combine].
  apply dict_comprehension_nodup. rewrite map_fst_combine.
  now apply NoDup_firstn.
Qed.

Section Serving.

Context {TH : Torch} {WR : Wrapped}.

(** X17.  When [_forward_collect] returns, it has collated the
    observations in the order of the dict, put the collect model in
    evaluation mode, called it once (with the noise ratio exactly when the
    action space is continuous) and split the output; the result pairs the
    environment ids with the split outputs by position.  Its keys are the
    first ids of the input, as many as there are outputs: all ids when there
    is one output per environment, and without any error fewer when the
    split yields fewer. *)
Theorem forward_collect_ids cfg nr (data : list (Z * env_obs)) cm out :
  NoDup (map fst data) ->
  snd (forward_collect cfg nr data cm) = inr out ->
  exists cdata output outputs,
    let arg := if continuous_action_space cfg then Some nr else None in
    default_collate (map snd data) = inr cdata
    /\ forward_actor arg cdata (model_eval cm)
       = (fst (forward_collect cfg nr data cm), inr output)
    /\ default_decollate output = inr outputs
    /\ out = combine (map fst data) outputs
    /\ map fst out = firstn (length outputs) (map fst data)
    /\ (length outputs = length data -> map fst out = map fst data).
Proof.
  intros Hnd. unfold forward_collect. cbv zeta.
  destruct (default_collate (map snd data)) as [e|cdata]; [discriminate|].
  assert (forall arg,
    snd (let (collect_model, output) := forward_actor arg cdata (model_eval cm) in
         match output with
         | inl e => (collect_model, inl e)
         | inr output =>
             match default_decollate output with
             | inl e => (collect_model, inl e)
             | inr output =>
                 (collect_model,
                  inr (dict_comprehension (combine (map fst data) output)))
             end
         end) = inr out ->
    exists output outputs,
      forward_actor arg cdata (model_eval cm)
      = (fst (let (collect_model, output) :=
                forward_actor arg cdata (model_eval cm) in
              match output with
              | inl e => (collect_model, inl e)
              | inr output =>
                  match default_decollate output with
                  | inl e => (collect_model, inl e)
                  | inr output =>
                      (collect_model,
                       inr (dict_comprehension (combine (map fst data) output)))
                  end
              end), inr output)
      /\ default_decollate output = inr outputs
      /\ out = combine (map fst data) outputs
      /\ map fst out = firstn (length outputs) (map fst data)
      /\ (length outputs = length data -> map fst out = map fst data)) as Hgen.
  { intros arg.
    destruct (forward_actor arg cdata (model_eval cm)) as [cm' [e|output]];
      [discriminate|].
    destruct (default_decollate output) as [e|outputs] eqn:Ed; [discriminate|].
    cbn. intros H. injection H as <-.
    destruct (zip_ids (map fst data) data outputs Hnd) as [Hd Hk].
    exists output, outputs. rewrite Hd, Hk.
    repeat (split; [first [reflexivity | exact Ed]|]).
    intros Hlen. rewrite Hlen, <- (length_map fst data). apply firstn_all. }
  intros H. exists cdata.
  destruct (continuous_action_space cfg);
    destruct (Hgen _ H) as (output & outputs & Hrest);
    exists output, outputs; cbv zeta; split; try reflexivity; exact Hrest.
Qed.

(** X18.  When [_forward_eval] returns, it has collated the observations
    in the order of the dict, put the eval model in evaluation mode, called
    it once without a noise ratio and split the output; the result pairs the
    environment ids with the split outputs by position, so its keys are the
    first ids of the input, as many as there are outputs. *)
Theorem forward_eval_ids (data : list (Z * env_obs)) em out :
  NoDup (map fst data) ->
  snd (forward_eval data em) = inr out ->
  exists cdata output outputs,
    default_collate (map snd data) = inr cdata
    /\ forward_actor None cdata (model_eval em)
       = (fst (forward_eval data em), inr output)
    /\ default_decollate output = inr outputs
    /\ out = combine (map fst data) outputs
    /\ map fst out = firstn (length outputs) (map fst data)
    /\ (length outputs = length data -> map fst out = map fst data).
Proof.
  intros Hnd. unfold forward_eval. cbv zeta.
  destruct (default_collate (map snd data)) as [e|cdata] eqn:Ec; [discriminate|].
  destruct (forward_actor None cdata (model_eval em)) as [em' [e|output]] eqn:Ef;
    [discriminate|].
  destruct (default_decollate output) as [e|outputs] eqn:Ed; [discriminate|].
  cbn. intros H. injection H as <-.
  destruct (zip_ids (map fst data) data outputs Hnd) as [Hd Hk].
  exists cdata, output, outputs. rewrite Hd, Hk.
  repeat (split; [first [reflexivity | assumption]|]).
  intros Hlen. rewrite Hlen, <- (length_map fst data). apply firstn_all.
Qed.

End Serving.

(** ** The profiler *)

Section ProfilerFacts.

Context {HO : Host}.

(** A directory that [os.makedirs] has created exists. *)
Hypothesis makedirs_creates :
  forall d f f', makedirs d f = (f', None) -> path_exists d f' = true.

Lemma mkdir_ok directory w :
  snd (mkdir directory w) = inr tt ->
  path_exists directory (w_fs (fst (mkdir directory w))) = true
  /\ w_atexit (fst (mkdir directory w)) = w_atexit w
  /\ w_pr (fst (mkdir directory w)) = w_pr w.
Proof.
  unfold mkdir.
  destruct (path_exists directory (w_fs w)) eqn:E; cbn [negb].
  - intros _. cbn. auto.
  - destruct (makedirs directory (w_fs w)) as [f [x|]] eqn:Em; cbn;
      [discriminate|].
    intros _. rewrite (makedirs_creates _ _ _ Em). auto.
Qed.

(** X19.  On a host where a directory that [os.makedirs] has created
    exists, a successful [Profiler.mkdir] leaves the directory in place, and
    calling it again changes nothing and does not raise: [os.makedirs] is
    not called for a path that exists. *)
Theorem mkdir_is_idempotent directory w :
  snd (mkdir directory w) = inr tt ->
  path_exists directory (w_fs (fst (mkdir directory w))) = true
  /\ mkdir directory (fst (mkdir directory w))
     = (fst (mkdir directory w), inr tt).
Proof.
  intros H. destruct (mkdir_ok directory w H) as (He & _).
  split; [exact He|].
  unfold mkdir at 1. rewrite He. reflexivity.
Qed.

Lemma profile_ok folder w :
  snd (profile folder w) = inr tt ->
  path_exists folder (w_fs (fst (profile folder w))) = true
  /\ w_atexit (fst (profile folder w)) = w_atexit w ++ [folder]
  /\ w_pr (fst (profile folder w)) = prof_enable (w_pr w).
Proof.
  unfold profile.
  pose proof (mkdir_ok folder w) as Hm.
  destruct (mkdir folder w) as [w1 [e|[]]]; cbn in *; [discriminate|].
  intros _. destruct (Hm eq_refl) as (He & Ha & Hp). rewrite Ha, Hp. auto.
Qed.

Lemma profile_again folder w :
  path_exists folder (w_fs w) = true ->
  profile folder w
  = ({| w_fs := w_fs w; w_pr := prof_enable (w_pr w);
        w_atexit := w_atexit w ++ [folder] |}, inr tt).
Proof.
  intros E. unfold profile, mkdir. rewrite E. reflexivity.
Qed.

(** X20.  Every call of [Profiler.profile] registers one more exit handler
    and enables the profiler once more, while the folder is created at most
    once: after [n + 1] calls with the same folder, of which the first did
    not raise, none has raised, the file system is as the first call left
    it, and [n + 1] handlers for the folder have been added to those
    registered before. *)
Theorem profile_registers_on_every_call n folder w :
  snd (profile folder w) = inr tt ->
  snd (profile_times (S n) folder w) = inr tt
  /\ w_fs (fst (profile_times (S n) folder w)) = w_fs (fst (profile folder w))
  /\ w_atexit (fst (profile_times (S n) folder w))
     = w_atexit w ++ repeat folder (S n)
  /\ w_pr (fst (profile_times (S n) folder w))
     = Nat.iter (S n) prof_enable (w_pr w).
Proof.
  intros H1. destruct (profile_ok folder w H1) as (He & Ha & Hp).
  induction n as [|n IH].
  - change (profile_times 1 folder w) with (profile folder w).
    cbn [repeat Nat.iter nat_rect]. auto.
  - destruct IH as (Hr & Hf & Hat & Hpr).
    change (profile_times (S (S n)) folder w)
      with (match profile_times (S n) folder w with
            | (w, inl e) => (w, inl e)
            | (w, inr _) => profile folder w
            end).
    destruct (profile_times (S n) folder w) as [wn [e|[]]]; cbn in Hr;
      [discriminate|].
    cbn [fst] in Hf, Hat, Hpr.
    rewrite profile_again by (rewrite Hf; exact He).
    cbn [fst snd w_fs w_atexit w_pr]. rewrite Hf, Hat, Hpr.
    repeat split.
    rewrite <- app_assoc. f_equal.
    change (repeat folder (S n) ++ [folder] = repeat folder (S (S n))).
    rewrite <- repeat_cons. reflexivity.
Qed.

End ProfilerFacts.

(** ** Concrete runs of the other properties *)

Module Checks.

Import Mock.
Import Cases.

Lemma preprocessed_done_entries_witness :
  exists data,
    data_preprocess_learn (config no_fault true 2 1 true)
      (batch no_fault true 2 2 1 done_first) = inr data
    /\ entry (d_done data) 0 0 = 1
    /\ entry (d_done data) 1 1 = 0.
Proof.
  eexists. split; [vm_compute; reflexivity|].
  pose proof (@preprocessed_done_entries (torch no_fault)
                (config no_fault true 2 1 true)
                (batch no_fault true 2 2 1 done_first) _ eq_refl) as H.
  destruct H as (_ & _ & _ & He).
  split; rewrite He by (vm_compute; lia); reflexivity.
Defined.

Lemma unshapeable_done_leaves_policy_witness :
  exists e,
    run_learn (config no_fault true 2 1 true)
      (batch no_fault true 2 2 1 three_flags) (policy no_fault healthy)
    = {| final := policy no_fault healthy; trace := []; result := inl e |}.
Proof.
  apply (@unshapeable_done_leaves_policy (torch no_fault)).
  right. right. vm_compute. discriminate.
Defined.

Lemma batch_weight_is_ignored_witness :
  run_learn (config no_fault true 2 1 true) (weighted_batch done_first)
    (policy no_fault healthy)
  = run_learn (config no_fault true 2 1 true)
      (batch no_fault true 2 2 1 done_first) (policy no_fault healthy).
Proof.
  eapply (@batch_weight_is_ignored (torch no_fault)
            (config no_fault true 2 1 true) (weighted_batch done_first)
            (batch no_fault true 2 2 1 done_first));
    try reflexivity; vm_compute; reflexivity.
Defined.

Lemma total_valid_counts_done_flags_witness :
  exists x tv,
    In (Normalised x tv)
       (trace (run_learn (config no_fault true 2 1 true)
                 (batch no_fault true 2 2 1 done_first)
                 (policy no_fault healthy)))
    /\ tv = 3.
Proof.
  eassert (Hin : In (Normalised _ _)
                    (trace (run_learn (config no_fault true 2 1 true)
                              (batch no_fault true 2 2 1 done_first)
                              (policy no_fault healthy))))
    by in_trace.
  pose proof (@total_valid_counts_done_flags (torch no_fault)
                (config no_fault true 2 1 true)
                (batch no_fault true 2 2 1 done_first)
                (policy no_fault healthy) _ _ _ eq_refl Hin) as H.
  do 2 eexists. split; [exact Hin | exact (proj1 H)].
Defined.

Lemma zero_action_dimension_never_updates_witness :
  (exists e,
      result (run_learn (config no_fault true 2 0 true)
                (batch no_fault true 2 2 0 no_done_flags)
                (policy no_fault healthy)) = inl e)
  /\ steps (trace (run_learn (config no_fault true 2 0 true)
                     (batch no_fault true 2 2 0 no_done_flags)
                     (policy no_fault healthy))) = [].
Proof.
  pose proof (@zero_action_dimension_never_updates (torch no_fault)
                (config no_fault true 2 0 true)
                (batch no_fault true 2 2 0 no_done_flags)
                (policy no_fault healthy) eq_refl) as H.
  exact (conj (proj1 H) (proj1 (proj2 H))).
Defined.

Lemma reported_losses_fit_together_witness :
  exists m,
    result (run_learn (config no_fault true 2 1 true)
              (batch no_fault true 2 2 1 no_done_flags)
              (policy no_fault healthy)) = inr m
    /\ metrics_ok (config no_fault true 2 1 true)
         (run_learn (config no_fault true 2 1 true)
            (batch no_fault true 2 2 1 no_done_flags)
            (policy no_fault healthy)) m.
Proof.
  eexists. split; [vm_compute; reflexivity|].
  unfold metrics_ok.
  apply (@reported_losses_fit_together (torch no_fault)
           (config no_fault true 2 1 true)
           (batch no_fault true 2 2 1 no_done_flags)
           (policy no_fault healthy)).
  vm_compute. reflexivity.
Defined.

Lemma returning_step_draws_three_samples_witness :
  three_draws (config no_fault true 2 1 true)
    (batch no_fault true 2 2 1 no_done_flags) (policy no_fault healthy)
    (torch_rng (final (run_learn (config no_fault true 2 1 true)
                         (batch no_fault true 2 2 1 no_done_flags)
                         (policy no_fault healthy)))).
Proof.
  unfold three_draws.
  eapply (@returning_step_draws_three_samples (torch no_fault)
            (config no_fault true 2 1 true)
            (batch no_fault true 2 2 1 no_done_flags)
            (policy no_fault healthy)).
  vm_compute. reflexivity.
Defined.

Lemma discrete_step_changes_train_mode_only_witness :
  target_model (final (run_discrete 3)) = network false 3 Finite Finite
  /\ torch_rng (final (run_discrete 3)) = 0%nat.
Proof.
  pose proof (@discrete_step_changes_train_mode_only (torch no_fault)
                (config no_fault false 4 3 true)
                (batch no_fault false 4 3 3 (repeat (repeat false 3) 4))
                (policy no_fault (network false 3 Finite Finite)) eq_refl) as H.
  destruct H as (_ & Ht & _ & _ & _ & Hr). split; [exact Ht | exact Hr].
Defined.

Lemma load_state_dict_stops_at_missing_key_witness :
  result (load_state_dict_learn partial_dict (policy no_fault healthy) [])
  = inl (KeyError "critic_optimizer")
  /\ learn_model
       (final (load_state_dict_learn partial_dict (policy no_fault healthy) []))
     = bump healthy
  /\ optimizer_actor
       (final (load_state_dict_learn partial_dict (policy no_fault healthy) []))
     = 7%nat.
Proof.
  assert (~ In "critic_optimizer" (map fst partial_dict)) as Hk
    by (cbn; intuition discriminate).
  pose proof (@load_state_dict_stops_at_missing_key (torch no_fault)
                partial_dict (policy no_fault healthy) []
                (bump healthy) (bump healthy) 7%nat
                (bump healthy) (bump healthy) 7%nat
                eq_refl eq_refl eq_refl Hk eq_refl eq_refl eq_refl) as H.
  destruct H as (Hr & Hm & _ & Ho & _). auto.
Defined.


Lemma trust_region_projects_the_gradient_witness :
  exists t g g0 avg_pi,
    In (Backward t (Some g))
       (trace (run_learn (config no_fault true 2 1 true)
                 (batch no_fault true 2 2 1 no_done_flags)
                 (policy no_fault healthy)))
    /\ @acer_trust_region_update (torch no_fault) g0 t avg_pi "1.0" = inr g.
Proof.
  eassert (Hin : In (Backward _ (Some _))
                    (trace (run_learn (config no_fault true 2 1 true)
                              (batch no_fault true 2 2 1 no_done_flags)
                              (policy no_fault healthy))))
    by in_trace.
  destruct (@trust_region_projects_the_gradient (torch no_fault)
              (config no_fault true 2 1 true)
              (batch no_fault true 2 2 1 no_done_flags)
              (policy no_fault healthy) _ _ eq_refl Hin)
    as (al & bl & el & tv & g0 & avg & _ & _ & Ht).
  do 2 eexists. exists g0, avg. split; [exact Hin | exact Ht].
Defined.

(** One output per environment: every id keeps its own output. *)
Lemma forward_collect_ids_witness :
  exists outputs,
    [(0, "noisy action for obs 0"); (3, "noisy action for obs 3");
     (5, "noisy action for obs 5")]
    = combine (map fst Serve.three_envs) outputs.
Proof.
  assert (NoDup (map fst Serve.three_envs)) as Hnd.
  { cbn. repeat constructor; cbn; intuition discriminate. }
  destruct (@forward_collect_ids (torch no_fault) (Serve.wrapped_model 3)
              (config no_fault true 2 1 true) "0.1" Serve.three_envs 0%nat
              [(0, "noisy action for obs 0"); (3, "noisy action for obs 3");
               (5, "noisy action for obs 5")] Hnd eq_refl)
    as (cdata & output & outputs & _ & _ & _ & Hc & _).
  exists outputs. exact Hc.
Defined.

(** Two outputs for three environments: the last id is dropped. *)
Lemma forward_eval_ids_witness :
  exists outputs,
    [(0, "action for obs 0"); (3, "action for obs 3")]
    = combine (map fst Serve.three_envs) outputs.
Proof.
  assert (NoDup (map fst Serve.three_envs)) as Hnd.
  { cbn. repeat constructor; cbn; intuition discriminate. }
  destruct (@forward_eval_ids (Serve.wrapped_model 2) Serve.three_envs 0%nat
              [(0, "action for obs 0"); (3, "action for obs 3")] Hnd eq_refl)
    as (cdata & output & outputs & _ & _ & _ & Hc & _).
  exists outputs. exact Hc.
Defined.

Lemma disk_makedirs_creates d f f' :
  @makedirs Disk.host d f = (f', None) -> @path_exists Disk.host d f' = true.
Proof.
  cbn. intros H. injection H as <-. cbn. now rewrite String.eqb_refl.
Qed.

Lemma mkdir_is_idempotent_witness :
  @mkdir Disk.host "./tmp" (fst (@mkdir Disk.host "./tmp" Disk.empty))
  = (fst (@mkdir Disk.host "./tmp" Disk.empty), inr tt).
Proof.
  exact (proj2 (@mkdir_is_idempotent Disk.host disk_makedirs_creates
                  "./tmp" Disk.empty eq_refl)).
Defined.

Lemma profile_registers_on_every_call_witness :
  w_atexit (fst (@profile_times Disk.host 3 "./tmp" Disk.empty))
  = ["./tmp"; "./tmp"; "./tmp"]
  /\ w_fs (fst (@profile_times Disk.host 3 "./tmp" Disk.empty)) = ["./tmp"].
Proof.
  destruct (@profile_registers_on_every_call Disk.host disk_makedirs_creates
              2 "./tmp" Disk.empty eq_refl) as (_ & Hf & Ha & _).
  split; [rewrite Ha | rewrite Hf]; reflexivity.
Defined.

End Checks.
